(** * The task template manager of the Nomad client

    A shallow embedding of [client/allocrunner/taskrunner/template/template.go]:
    construction of the manager (validation, signal table, translation of the
    template specs with the sandbox check, environment masking), [Stop],
    [Run] with the first-render gate, the re-render loop and the dispatcher
    [onTemplateRendered], and the engine configuration [newRunnerConfig].

    Conventions.
    - A [time.Time] is an instant in [Z]; the zero time is [0].
    - A [time.Duration] is a number of nanoseconds in [Z].
    - A Go map with string keys is a [gmap string _]; a missing key reads as
      the zero value, as in Go.  Where the code ranges over a map and the
      order can be observed (early returns), the map is given as the list of
      its entries in the order the runtime happens to pick, or the order is
      given by a function [keys_of] from the set of keys, and statements
      quantify over every such list or function.
    - Calls on the collaborators (task lifecycle, event emitter, engine) are
      recorded in a trace, in program order.
    - Answers of the outside world (file contents, random draw, whether the
      shutdown channel fires during a sleep, results of [Signal] and [Exec])
      are read from a [World] record.
    - A select is modelled by what it receives: a loop is a function of the
      list of its receipts.
    - A panic is a result of its own: [Panic] for the construction, the
      outcomes [Panicked] and [NilSignal] of the dispatcher, [Crashed] for
      [Run].
    - Functions of other packages (path resolution, signal parsing, the
      constructors and [Finalize] methods of the engine's configuration, the
      engine itself) are fields of the records [Outside] and [RunnerOutside];
      a statement holds for every such record.
    - The construction takes [newRunnerConfig] as a parameter, by the error
      it returns; [newRunnerConfig_error] is the function itself in that
      place. *)

From Stdlib Require Import ZArith Ascii String List Lia.
From stdpp Require Import base option list gmap sets strings pretty sorting.

Local Open Scope string_scope.
Local Open Scope Z_scope.
Local Open Scope list_scope.

(** ** Strings *)

Module GoStrings.

(** [cut sep s]: the text before and after the first occurrence of the byte
    [sep], if there is one. *)
Fixpoint cut (sep : ascii) (s : string) : option (string * string) :=
  match s with
  | EmptyString => None
  | String a rest =>
      if Ascii.eqb a sep then Some (EmptyString, rest)
      else match cut sep rest with
           | Some (before, after) => Some (String a before, after)
           | None => None
           end
  end.

(** [strings.SplitN(s, "=", 2)]. *)
Definition SplitN_eq_2 (s : string) : list string :=
  match cut "="%char s with
  | Some (before, after) => [before; after]
  | None => [s]
  end.

(** [strings.Join]. *)
Fixpoint Join (elems : list string) (sep : string) : string :=
  match elems with
  | [] => ""
  | [x] => x
  | x :: rest => x +:+ sep +:+ Join rest sep
  end.

(** [sort.Strings]: ascending in the byte-wise lexicographic order. *)
Definition sort_Strings (l : list string) : list string :=
  merge_sort String.le l.

(** [%v] of a []string. *)
Definition fmt_v_strings (l : list string) : string :=
  "[" +:+ Join l " " +:+ "]".

End GoStrings.
Import GoStrings.

(** ** Environment masking *)

Module Mask.

(** [ekv[0]] for an entry of [os.Environ()]. *)
Definition entry_key (e : string) : string :=
  hd "" (SplitN_eq_2 e).

(** One pass of the loop body of [maskProcessEnv]. *)
Definition mask_entry (env : gmap string string) (e : string) : gmap string string :=
  match env !! entry_key e with
  | Some _ => env
  | None => <[entry_key e := ""]> env
  end.

(** [maskProcessEnv]; [procEnvs] is what [os.Environ()] returns. *)
Definition maskProcessEnv (procEnvs : list string) (env : gmap string string)
  : gmap string string :=
  foldl mask_entry env procEnvs.

(** [os.Getenv] over the same process environment: the value of the first
    entry [key=value]; entries without [=] define nothing; the empty key is
    never found. *)
Definition os_Getenv (procEnvs : list string) (key : string) : string :=
  if decide (key = "") then ""
  else
    match
      List.find (fun e => match cut "="%char e with
                          | Some (k, _) => bool_decide (k = key)
                          | None => false
                          end) procEnvs
    with
    | Some e => match cut "="%char e with Some (_, v) => v | None => "" end
    | None => ""
    end.

(** What a template observes for a variable: the engine reads its [Env]
    first and falls back to the host process environment when the variable
    is not set there (the behaviour the comment in [templateRunner]
    describes). *)
Definition engine_env (runnerEnv : gmap string string) (procEnvs : list string)
    (key : string) : string :=
  match runnerEnv !! key with
  | Some v => v
  | None => os_Getenv procEnvs key
  end.

End Mask.

(** ** Data model *)

Abbreviation Time := Z (only parsing).
Abbreviation Duration := Z (only parsing).

(** [time.Time.After] and [time.Time.Equal]. *)
Definition After (t u : Time) : bool := u <? t.
Definition Equal (t u : Time) : bool := t =? u.
Definition IsZero (t : Time) : bool := t =? 0.

(** Go [error] values, by the way they are built.  [fmt_Errorf] keeps the
    format and its operands apart. *)
Inductive Error :=
| errors_New (text : string)
| fmt_Errorf (format : string) (operands : list string)
| external_error (text : string).

Inductive result (A : Type) :=
| Ok (a : A)
| Err (e : Error)
| Panic.
Arguments Ok {A} a.
Arguments Err {A} e.
Arguments Panic {A}.

Module structs.

(** Modelled from the spec: the change modes are declared in package
    [nomad/structs]; the spec gives the four of them, and the constants carry
    the names the manager uses. *)
Inductive ChangeModeT :=
| TemplateChangeModeNoop
| TemplateChangeModeSignal
| TemplateChangeModeRestart
| TemplateChangeModeScript.

(** Modelled from the spec: [structs.ChangeScript], with the fields
    [processScript] and [handleScriptError] read. *)
Record ChangeScriptT := {
  Command : string;
  Args : list string;
  Timeout : Duration;
  FailOnError : bool
}.

(** Modelled from the spec: [structs.WaitConfig]; a bound may be absent. *)
Record WaitConfig := {
  Min : option Duration;
  Max : option Duration
}.

(** Modelled from the spec: [structs.Template], with the fields the manager
    reads.  [Uid], [Gid] and [Wait] are pointers that may be nil. *)
Record Template := {
  SourcePath : string;
  DestPath : string;
  EmbeddedTmpl : string;
  ChangeMode : ChangeModeT;
  ChangeSignal : string;
  ChangeScript : ChangeScriptT;
  Splay : Duration;
  Perms : string;
  Uid : option Z;
  Gid : option Z;
  LeftDelim : string;
  RightDelim : string;
  Envvars : bool;
  ErrMissingKey : bool;
  Wait : option WaitConfig;
  Once : bool
}.

(** Modelled from the spec: the event types of [nomad/structs] the manager
    passes to [NewTaskEvent]; [TaskEventOf] is an event built from another
    name ([consulTemplateSourceName]). *)
Inductive TaskEventType :=
| TaskKilling
| TaskRestartSignal
| TaskSignaling
| TaskHookFailed
| TaskHookMessage
| TaskEventOf (name : string).

(** Modelled from the spec: [structs.TaskEvent], reduced to the fields set by
    the constructor and the setters the manager calls. *)
Record TaskEvent := {
  Type_ : TaskEventType;
  FailsTask : bool;
  TaskSignal : option Z;
  DisplayMessage : string
}.

Definition NewTaskEvent (ty : TaskEventType) : TaskEvent :=
  {| Type_ := ty; FailsTask := false; TaskSignal := None; DisplayMessage := "" |}.
Definition SetFailsTask (e : TaskEvent) : TaskEvent :=
  {| Type_ := Type_ e; FailsTask := true; TaskSignal := TaskSignal e;
     DisplayMessage := DisplayMessage e |}.
Definition SetDisplayMessage (msg : string) (e : TaskEvent) : TaskEvent :=
  {| Type_ := Type_ e; FailsTask := FailsTask e; TaskSignal := TaskSignal e;
     DisplayMessage := msg |}.
Definition SetTaskSignal (s : option Z) (e : TaskEvent) : TaskEvent :=
  {| Type_ := Type_ e; FailsTask := FailsTask e; TaskSignal := s;
     DisplayMessage := DisplayMessage e |}.

End structs.

Module ctconf.

(** The descriptor [parseTemplateConfigs] fills in for the engine, with the
    fields it writes or [newRunnerConfig] reads.  A field of option type is
    [None] when the pointer is nil.  A wait configuration is given by the
    value of [Enabled] (which [Finalize] sets), [Min] and [Max]. *)
Record TemplateConfig := {
  Source : string;
  Destination : string;
  Contents : string;
  LeftDelim : string;
  RightDelim : string;
  ErrMissingKey : bool;
  FunctionDenylist : list string;
  SandboxPath : option string;
  Wait : option (bool * option Duration * option Duration);
  Perms : option Z;
  Uid : option Z;
  Gid : option Z
}.

End ctconf.

Module manager.

(** A render event of the engine. *)
Record RenderEvent := {
  TemplateID : string;
  LastWouldRender : Time;
  LastDidRender : Time;
  MissingDeps : option (list string)
}.

(** The engine handle: the environment it was given and, per template id,
    the descriptors rendered under that id (a descriptor is named by its
    position in the list the engine was configured with). *)
Record Runner := {
  Env : gmap string string;
  TemplateConfigMapping : list (string * list nat)
}.

End manager.

Module config.

(** Modelled from the spec: the client-wide template settings the
    translation of the templates reads. *)
Record ClientTemplateConfig := {
  DisableSandbox : bool;
  FunctionDenylist : list string
}.

(** The client configuration; [TemplateConfig] may be nil. *)
Record Config := {
  TemplateConfig : option ClientTemplateConfig
}.

End config.

(** [TaskTemplateManagerConfig].  A channel or collaborator field holds
    whether it is non-nil; [EnvBuilder] holds the template environment last
    published to the builder. *)
Record TaskTemplateManagerConfig := {
  UnblockCh : bool;
  Lifecycle : bool;
  Events : bool;
  Templates : list structs.Template;
  ClientConfig : option config.Config;
  TaskDir : string;
  EnvBuilder : option (gmap string string);
  MaxTemplateEventRate : Duration
}.

(** [TaskTemplateManager].  The shutdown channel is kept by the [shutdown]
    flag (it is closed exactly when the flag is set) and by the
    [CloseShutdownCh] entry of the trace of [Stop]. *)
Record TaskTemplateManager := {
  config_ : TaskTemplateManagerConfig;
  lookup : gmap string (list structs.Template);
  runner : option manager.Runner;
  signals : gmap string Z;
  shutdown : bool
}.

(** Calls on the collaborators. *)
Inductive Call :=
| Kill (ev : structs.TaskEvent)
| Restart (ev : structs.TaskEvent) (failure : bool)
| Signal (ev : structs.TaskEvent) (name : string)
| Exec (timeout : Duration) (cmd : string) (args : list string)
| EmitEvent (ev : structs.TaskEvent)
| NewRunner
| RunnerStart
| RunnerStop
| CloseShutdownCh
| CloseUnblockCh.

Definition missingDepEventLimit : nat := 3%nat.
Definition consulTemplateSourceName : string := "Template".
Definition DefaultMaxTemplateEventRate : Duration := 3 * 1000000000.

Definition sourceEscapesErr : Error :=
  errors_New "template source path escapes alloc directory".
Definition destEscapesErr : Error :=
  errors_New "template destination path escapes alloc directory".

(** ** Validation *)

(** The loop over [c.Templates] at the end of [Validate]: every template
    after the first has the [Once] value of the first. *)
Fixpoint once_uniform (once : bool) (ts : list structs.Template) : bool :=
  match ts with
  | [] => true
  | t :: rest =>
      if Bool.eqb (structs.Once t) once then once_uniform once rest else false
  end.

Definition Validate (c : option TaskTemplateManagerConfig) : option Error :=
  match c with
  | None => Some (fmt_Errorf "Nil config passed" [])
  | Some c =>
      if negb (UnblockCh c) then Some (fmt_Errorf "Invalid unblock channel given" [])
      else if negb (Lifecycle c) then Some (fmt_Errorf "Invalid lifecycle hooks given" [])
      else if negb (Events c) then Some (fmt_Errorf "Invalid event hook given" [])
      else if negb (bool_decide (is_Some (ClientConfig c))) then
        Some (fmt_Errorf "Invalid client config given" [])
      else if bool_decide (TaskDir c = "") then
        Some (fmt_Errorf "Invalid task directory given: %q" [TaskDir c])
      else if negb (bool_decide (is_Some (EnvBuilder c))) then
        Some (fmt_Errorf "Invalid task environment given" [])
      else if MaxTemplateEventRate c =? 0 then
        Some (fmt_Errorf "Invalid max template event rate given" [])
      else
        match Templates c with
        | [] => None
        | t :: rest =>
            if once_uniform (structs.Once t) rest then None
            else Some (fmt_Errorf "All templates should have same Once value" [])
        end
  end.

Definition OnceModeEnabled (c : TaskTemplateManagerConfig) : bool :=
  match Templates c with
  | [] => false
  | t :: _ => structs.Once t
  end.

(** ** [strconv.ParseUint(s, 8, 12)] *)

Inductive NumError := ErrSyntax | ErrRange.

Definition NumError_text (e : NumError) : string :=
  match e with
  | ErrSyntax => "invalid syntax"
  | ErrRange => "value out of range"
  end.

(** The [Error()] text of the [strconv.NumError] of [ParseUint] on [num]; [quote] is
    [strconv.Quote]. *)
Definition NumError_Error (quote : string -> string) (num : string) (e : NumError)
  : string :=
  "strconv.ParseUint: parsing " +:+ quote num +:+ ": " +:+ NumError_text e.

Definition octal_digit (a : ascii) : option Z :=
  let n := Z.of_N (N_of_ascii a) in
  if (48 <=? n) && (n <=? 55) then Some (n - 48) else None.

Fixpoint ParseUint_digits (s : string) (n : Z) : NumError + Z :=
  match s with
  | EmptyString => inr n
  | String a rest =>
      match octal_digit a with
      | None => inl ErrSyntax
      | Some d =>
          let n1 := n * 8 + d in
          if 4095 <? n1 then inl ErrRange else ParseUint_digits rest n1
      end
  end.

Definition ParseUint_8_12 (s : string) : NumError + Z :=
  match s with
  | EmptyString => inl ErrSyntax
  | _ => ParseUint_digits s 0
  end.

(** ** Formatting *)

(** [fmt.Sprintf] for the verbs the manager uses; an operand is passed as
    its [%v] text, [%q] quotes it with [quote] ([strconv.Quote]). *)
Fixpoint Sprintf (quote : string -> string) (format : string) (operands : list string)
  : string :=
  match format with
  | EmptyString => ""
  | String "%" (String verb rest) =>
      match operands with
      | [] => "%!" +:+ String verb ("(MISSING)" +:+ Sprintf quote rest [])
      | x :: xs =>
          (if Ascii.eqb verb "q" then quote x else x) +:+ Sprintf quote rest xs
      end
  | String a rest => String a (Sprintf quote rest operands)
  end.

(** ** The world outside the manager *)

(** Functions of the packages the manager calls into. *)
Record Outside := {
  (** [TaskEnv.ClientPath] of [EnvBuilder.Build()], for the template
      environment published last: the resolved path and whether it escapes. *)
  ClientPath : gmap string string -> string -> bool -> string * bool;
  (** [EnvBuilder.Build().All()] *)
  TaskEnv_All : gmap string string -> gmap string string;
  (** [signals.Parse]; [None] when it returns an error. *)
  signals_Parse : string -> option Z;
  (** [os.Signal.String] *)
  Signal_String : Z -> string;
  (** [WaitConfig.Validate] *)
  WaitConfig_Validate : structs.WaitConfig -> option Error;
  (** [ctconf.DefaultTemplateConfig()]; [parseTemplateConfigs] overwrites
      the fields that are not of option type. *)
  ctconf_DefaultTemplateConfig : ctconf.TemplateConfig;
  (** [ctconf.TemplateConfig.Finalize]: the descriptor with the fields
      that are still nil given their defaults. *)
  TemplateConfig_Finalize : ctconf.TemplateConfig -> ctconf.TemplateConfig;
  (** [manager.NewRunner]: an error, or the engine's
      [TemplateConfigMapping]. *)
  manager_NewRunner : list ctconf.TemplateConfig -> Error + list (string * list nat);
  (** [os.Environ()] when the manager is built. *)
  os_Environ : list string;
  (** [envparse.Parse] on the contents of a file. *)
  envparse_Parse : string -> string + gmap string string;
  (** [strconv.Quote], for [%q]. *)
  quote : string -> string;
  (** The text of a [multierror.Error] over the given error texts. *)
  multierror_text : list string -> string
}.

(** What the world answers during one call of the dispatcher. *)
Record World := {
  (** [os.Open] and reading the file: an error text or the contents. *)
  os_Open : string -> string + string;
  (** The 63-bit draw [rand.Int63n] reduces. *)
  rand_Int63 : Z;
  (** Whether the shutdown channel wins the select of the splay sleep. *)
  shutdown_fires : bool;
  (** The error [Lifecycle.Signal] returns, if any. *)
  Lifecycle_Signal : string -> option string;
  (** Exit code and error of [Lifecycle.Exec]. *)
  Lifecycle_Exec : structs.ChangeScriptT -> Z * option string
}.

Definition Error_text (X : Outside) (e : Error) : string :=
  match e with
  | errors_New text => text
  | fmt_Errorf format operands => Sprintf (quote X) format operands
  | external_error text => text
  end.

(** [rand.Int63n(n)]: panics for [n <= 0]; otherwise the accepted draw
    reduced modulo [n]. *)
Definition Int63n (draw : Z) (n : Z) : option Z :=
  if n <=? 0 then None else Some (draw mod n).

(** ** Construction *)

Section Construction.

Variable X : Outside.

(** [newRunnerConfig] assembles the engine settings (Consul, Vault and
    Nomad sections, wait bounds, reader and renderer); construction only
    depends on whether it returns an error. *)
Variable newRunnerConfig :
  TaskTemplateManagerConfig -> list ctconf.TemplateConfig -> option Error.

(** The signal loop of [NewTaskTemplateManager]. *)
Fixpoint parse_signals (ts : list structs.Template) (table : gmap string Z)
  : Error + gmap string Z :=
  match ts with
  | [] => inr table
  | tmpl :: rest =>
      if decide (structs.ChangeSignal tmpl = "") then parse_signals rest table
      else
        match signals_Parse X (structs.ChangeSignal tmpl) with
        | None => inl (fmt_Errorf "Failed to parse signal %q" [structs.ChangeSignal tmpl])
        | Some sig => parse_signals rest (<[structs.ChangeSignal tmpl := sig]> table)
        end
  end.

(** The body of the loop of [parseTemplateConfigs], for one template: the
    descriptor starts as [DefaultTemplateConfig()], gets the fields below
    and is finalized. *)
Definition translate (sandboxEnabled : bool) (denylist : list string)
    (taskDir : string) (tenv : gmap string string) (tmpl : structs.Template)
  : result ctconf.TemplateConfig :=
  let '(src, srcEscapes) :=
    if decide (structs.SourcePath tmpl = "") then ("", false)
    else ClientPath X tenv (structs.SourcePath tmpl) false in
  if srcEscapes && sandboxEnabled then Err sourceEscapesErr
  else
    let '(dest, destEscapes) :=
      if decide (structs.DestPath tmpl = "") then ("", false)
      else ClientPath X tenv (structs.DestPath tmpl) true in
    if destEscapes && sandboxEnabled then Err destEscapesErr
    else
      match
        match structs.Wait tmpl with
        | None => inr (ctconf.Wait (ctconf_DefaultTemplateConfig X))
        | Some w =>
            match WaitConfig_Validate X w with
            | Some e => inl e
            | None => inr (Some (true, structs.Min w, structs.Max w))
            end
        end
      with
      | inl e => Err e
      | inr wait =>
          match
            if decide (structs.Perms tmpl = "")
            then inr (ctconf.Perms (ctconf_DefaultTemplateConfig X))
            else match ParseUint_8_12 (structs.Perms tmpl) with
                 | inl cause =>
                     inl (fmt_Errorf "Failed to parse %q as octal: %v"
                            [structs.Perms tmpl;
                             NumError_Error (quote X) (structs.Perms tmpl) cause])
                 | inr v => inr (Some v)
                 end
          with
          | inl e => Err e
          | inr perms =>
              Ok (TemplateConfig_Finalize X
                 {| ctconf.Source := src;
                    ctconf.Destination := dest;
                    ctconf.Contents := structs.EmbeddedTmpl tmpl;
                    ctconf.LeftDelim := structs.LeftDelim tmpl;
                    ctconf.RightDelim := structs.RightDelim tmpl;
                    ctconf.ErrMissingKey := structs.ErrMissingKey tmpl;
                    ctconf.FunctionDenylist := denylist;
                    ctconf.SandboxPath :=
                      if sandboxEnabled then Some taskDir
                      else ctconf.SandboxPath (ctconf_DefaultTemplateConfig X);
                    ctconf.Wait := wait;
                    ctconf.Perms := perms;
                    ctconf.Uid :=
                      match structs.Uid tmpl with
                      | Some u =>
                          if 0 <=? u then Some u
                          else ctconf.Uid (ctconf_DefaultTemplateConfig X)
                      | None => ctconf.Uid (ctconf_DefaultTemplateConfig X)
                      end;
                    ctconf.Gid :=
                      match structs.Gid tmpl with
                      | Some g =>
                          if 0 <=? g then Some g
                          else ctconf.Gid (ctconf_DefaultTemplateConfig X)
                      | None => ctconf.Gid (ctconf_DefaultTemplateConfig X)
                      end |})
          end
      end.

Fixpoint translate_all (sandboxEnabled : bool) (denylist : list string)
    (taskDir : string) (tenv : gmap string string) (ts : list structs.Template)
    (ctmpls : list (ctconf.TemplateConfig * structs.Template))
  : result (list (ctconf.TemplateConfig * structs.Template)) :=
  match ts with
  | [] => Ok ctmpls
  | tmpl :: rest =>
      match translate sandboxEnabled denylist taskDir tenv tmpl with
      | Ok ct =>
          translate_all sandboxEnabled denylist taskDir tenv rest (ctmpls ++ [(ct, tmpl)])%list
      | Err e => Err e
      | Panic => Panic
      end
  end.

(** [parseTemplateConfigs].  The result lists the descriptors in the order
    of the templates; a descriptor pointer is its position. *)
Definition parseTemplateConfigs (c : TaskTemplateManagerConfig)
  : result (list (ctconf.TemplateConfig * structs.Template)) :=
  match ClientConfig c with
  | None => Panic
  | Some cc =>
      match config.TemplateConfig cc with
      | None => Panic
      | Some tc =>
          match EnvBuilder c with
          | None => Panic
          | Some tenv =>
              translate_all (negb (config.DisableSandbox tc))
                (config.FunctionDenylist tc) (TaskDir c) tenv (Templates c) []
          end
      end
  end.

(** The lookup built at the end of [templateRunner].  A position the engine
    was not configured with has no template and is left out. *)
Definition build_lookup (ctmplMapping : list (ctconf.TemplateConfig * structs.Template))
    (idMap : list (string * list nat)) : gmap string (list structs.Template) :=
  foldl (fun lookup '(id, ctmpls) =>
           foldl (fun lookup ctmpl =>
                    match ctmplMapping !! ctmpl with
                    | Some (_, tmpl) =>
                        <[id := (default [] (lookup !! id) ++ [tmpl])%list]> lookup
                    | None => lookup
                    end) lookup ctmpls)
        ∅ idMap.

(** [templateRunner], with the calls made on the engine package. *)
Definition templateRunner (c : TaskTemplateManagerConfig)
  : result (option manager.Runner * gmap string (list structs.Template)) * list Call :=
  match Templates c with
  | [] => (Ok (None, ∅), [])
  | _ =>
      match parseTemplateConfigs c with
      | Err e => (Err e, [])
      | Panic => (Panic, [])
      | Ok ctmplMapping =>
          match newRunnerConfig c (ctmplMapping.*1) with
          | Some e => (Err e, [])
          | None =>
              match manager_NewRunner X (ctmplMapping.*1) with
              | inl e => (Err e, [NewRunner])
              | inr idMap =>
                  match EnvBuilder c with
                  | None => (Panic, [NewRunner])
                  | Some tenv =>
                      (Ok (Some {| manager.Env :=
                                     Mask.maskProcessEnv (os_Environ X) (TaskEnv_All X tenv);
                                   manager.TemplateConfigMapping := idMap |},
                           build_lookup ctmplMapping idMap),
                       [NewRunner])
                  end
              end
          end
      end
  end.

Definition NewTaskTemplateManager (config : option TaskTemplateManagerConfig)
  : result TaskTemplateManager * list Call :=
  match Validate config with
  | Some e => (Err e, [])
  | None =>
      match config with
      | None => (Panic, [])
      | Some c =>
          match parse_signals (Templates c) ∅ with
          | inl e => (Err e, [])
          | inr table =>
              match templateRunner c with
              | (Ok (runner, lookup), calls) =>
                  (Ok {| config_ := c; lookup := lookup; runner := runner;
                         signals := table; shutdown := false |}, calls)
              | (Err e, calls) => (Err e, calls)
              | (Panic, calls) => (Panic, calls)
              end
          end
      end
  end.

End Construction.

(** ** Stop *)

Definition Stop (tm : TaskTemplateManager) : TaskTemplateManager * list Call :=
  if shutdown tm then (tm, [])
  else
    ({| config_ := config_ tm; lookup := lookup tm; runner := runner tm;
        signals := signals tm; shutdown := true |},
     CloseShutdownCh :: match runner tm with
                        | Some _ => [RunnerStop]
                        | None => []
                        end).

(** [n] calls of [Stop], one after the other (the mutex serialises them). *)
Fixpoint Stop_times (n : nat) (tm : TaskTemplateManager)
  : TaskTemplateManager * list Call :=
  match n with
  | O => (tm, [])
  | S n' =>
      let '(tm1, calls1) := Stop tm in
      let '(tm2, calls2) := Stop_times n' tm1 in
      (tm2, (calls1 ++ calls2)%list)
  end.

(** ** The dispatcher *)

Definition killing (msg : string) : structs.TaskEvent :=
  structs.SetDisplayMessage msg (structs.SetFailsTask (structs.NewTaskEvent structs.TaskKilling)).

(** The per-batch aggregates of [onTemplateRendered]. *)
Record Batch := {
  handling : list string;
  signal_set : gset string;
  scripts : list structs.ChangeScriptT;
  restart : bool;
  splay : Duration
}.

Definition empty_batch : Batch :=
  {| handling := []; signal_set := ∅; scripts := []; restart := false; splay := 0 |}.

(** The state the dispatcher works on: [handledRenders] and the template
    environment held by the environment builder. *)
Record DState := {
  handledRenders : gmap string Time;
  templateEnv : gmap string string
}.

(** How one call of [onTemplateRendered] ends. *)
Inductive Outcome :=
| Aborted                          (* Kill, then return *)
| NothingToDo                      (* [!shouldHandle] *)
| Dropped (offset : Duration)      (* shutdown during the splay sleep *)
| Applied (slept : option Duration)
| Panicked                         (* panic of [rand.Int63n] *)
| NilSignal.                       (* panic of [SetTaskSignal] on a nil signal *)

Inductive Scan :=
| Scanned (h : gmap string Time) (tenv : gmap string string) (b : Batch)
| Killed (h : gmap string Time) (tenv : gmap string string) (ev : structs.TaskEvent).

(** The outcome is a panic. *)
Definition is_panic (o : Outcome) : bool :=
  match o with
  | Panicked | NilSignal => true
  | _ => false
  end.

Section Dispatcher.

Variable X : Outside.
Variable tm : TaskTemplateManager.

(** [loadTemplateEnv]. *)
Fixpoint loadTemplateEnv (w : World) (tenv : gmap string string)
    (tmpls : list structs.Template) (all : gmap string string)
  : Error + gmap string string :=
  match tmpls with
  | [] => inr all
  | t :: rest =>
      if negb (structs.Envvars t) then loadTemplateEnv w tenv rest all
      else
        let dest := (ClientPath X tenv (structs.DestPath t) true).1 in
        match os_Open w dest with
        | inl err => inl (fmt_Errorf "error opening env template: %v" [err])
        | inr contents =>
            match envparse_Parse X contents with
            | inl err => inl (fmt_Errorf "error parsing env template %q: %v" [dest; err])
            | inr vars => loadTemplateEnv w tenv rest (vars ∪ all)
            end
        end
  end.

(** The splay update after the switch on the change mode. *)
Definition raise_splay (tmpl : structs.Template) (b : Batch) : Batch :=
  if splay b <? structs.Splay tmpl then
    {| handling := handling b; signal_set := signal_set b; scripts := scripts b;
       restart := restart b; splay := structs.Splay tmpl |}
  else b.

(** The body of the loop over the templates of one id. *)
Definition classify_one (b : Batch) (tmpl : structs.Template) : Batch :=
  match structs.ChangeMode tmpl with
  | structs.TemplateChangeModeSignal =>
      raise_splay tmpl
        {| handling := handling b;
           signal_set := {[structs.ChangeSignal tmpl]} ∪ signal_set b;
           scripts := scripts b; restart := restart b; splay := splay b |}
  | structs.TemplateChangeModeRestart =>
      raise_splay tmpl
        {| handling := handling b; signal_set := signal_set b;
           scripts := scripts b; restart := true; splay := splay b |}
  | structs.TemplateChangeModeScript =>
      raise_splay tmpl
        {| handling := handling b; signal_set := signal_set b;
           scripts := (scripts b ++ [structs.ChangeScript tmpl])%list;
           restart := restart b; splay := splay b |}
  | structs.TemplateChangeModeNoop => b
  end.

Definition classify (tmpls : list structs.Template) (b : Batch) : Batch :=
  foldl classify_one b tmpls.

Definition add_handling (id : string) (b : Batch) : Batch :=
  {| handling := (handling b ++ [id])%list; signal_set := signal_set b;
     scripts := scripts b; restart := restart b; splay := splay b |}.

(** The two skip tests at the top of the loop over the events. *)
Definition first_time (allRenderedTime : Time) (event : manager.RenderEvent) : bool :=
  After allRenderedTime (manager.LastDidRender event)
  || Equal allRenderedTime (manager.LastDidRender event).

Definition already_handled (h : gmap string Time) (id : string)
    (event : manager.RenderEvent) : bool :=
  let htime := default 0 (h !! id) in
  After htime (manager.LastDidRender event) || Equal htime (manager.LastDidRender event).

(** The loop over the events, in the order [events] lists them. *)
Fixpoint scan (w : World) (allRenderedTime : Time)
    (events : list (string * manager.RenderEvent))
    (h : gmap string Time) (tenv : gmap string string) (b : Batch) : Scan :=
  match events with
  | [] => Scanned h tenv b
  | (id, event) :: rest =>
      if first_time allRenderedTime event then
        scan w allRenderedTime rest (<[id := allRenderedTime]> h) tenv b
      else if already_handled h id event then
        scan w allRenderedTime rest h tenv b
      else
        match lookup tm !! id with
        | None =>
            Killed h tenv
              (killing (Sprintf (quote X)
                          "Template runner returned unknown template id %q" [id]))
        | Some tmpls =>
            match loadTemplateEnv w tenv (Templates (config_ tm)) ∅ with
            | inl err =>
                Killed h tenv
                  (killing (Sprintf (quote X)
                              "Template failed to read environment variables: %v"
                              [Error_text X err]))
            | inr envMap =>
                scan w allRenderedTime rest h envMap (add_handling id (classify tmpls b))
            end
        end
  end.

(** [events[id]] *)
Definition events_at (events : list (string * manager.RenderEvent)) (id : string)
  : option manager.RenderEvent :=
  snd <$> List.find (fun p => bool_decide (p.1 = id)) events.

(** The loop that updates the handle times. *)
Definition commit (events : list (string * manager.RenderEvent))
    (ids : list string) (h : gmap string Time) : gmap string Time :=
  foldl (fun h id =>
           match events_at events id with
           | Some event => <[id := manager.LastDidRender event]> h
           | None => h
           end) h ids.

(** The first loop of [handleChangeModeSignal] over the names in the given
    order: the [Signal] calls made, the errors they returned, and whether
    the loop panicked.  [tm.signals[signal]] is nil for a name the table
    does not hold, and [SetTaskSignal] panics on a nil signal, before the
    [Signal] call for that name. *)
Fixpoint signal_loop (w : World) (names : list string)
  : list Call * list string * bool :=
  match names with
  | [] => ([], [], false)
  | name :: rest =>
      match signals tm !! name with
      | None => ([], [], true)
      | Some s =>
          let '(sent, errs, panicked) := signal_loop w rest in
          (Signal (structs.SetDisplayMessage "Template re-rendered"
                     (structs.SetTaskSignal (Some s)
                        (structs.NewTaskEvent structs.TaskSignaling))) name :: sent,
           match Lifecycle_Signal w name with
           | Some err => err :: errs
           | None => errs
           end,
           panicked)
      end
  end.

(** Whether [handleChangeModeSignal] panics on this set. *)
Definition handleChangeModeSignal_panics (w : World) (names : gset string) : bool :=
  (signal_loop w (elements names)).2.

(** [handleChangeModeSignal]: the calls it makes; the names are visited in
    the order of [elements].  When it panics these are the [Signal] calls
    made before the panic. *)
Definition handleChangeModeSignal (w : World) (names : gset string) : list Call :=
  let '(sent, errs, panicked) := signal_loop w (elements names) in
  if panicked then sent
  else
    match errs with
    | [] => sent
    | _ =>
        let flat :=
          (fun name => match signals tm !! name with
                       | Some s => Signal_String X s
                       | None => "<nil>"
                       end) <$> elements names in
        (sent ++
         [Kill (killing (Sprintf (quote X) "Template failed to send signals %v: %v"
                           [fmt_v_strings flat; multierror_text X errs]))])%list
    end.

(** [handleScriptError] *)
Definition handleScriptError (script : structs.ChangeScriptT) (msg : string) : list Call :=
  EmitEvent (structs.SetDisplayMessage msg (structs.NewTaskEvent structs.TaskHookFailed))
  :: (if structs.FailOnError script then
        [Kill (killing "Template script failed, task is being killed")]
      else []).

(** [processScript] *)
Definition processScript (w : World) (script : structs.ChangeScriptT) : list Call :=
  Exec (structs.Timeout script) (structs.Command script) (structs.Args script)
  :: match Lifecycle_Exec w script with
     | (exitCode, Some err) =>
         handleScriptError script
           (Sprintf (quote X)
              "Template failed to run script %v with arguments %v on change: %v. Exit code: %v"
              [structs.Command script; fmt_v_strings (structs.Args script); err;
               pretty exitCode])
     | (exitCode, None) =>
         if negb (exitCode =? 0) then
           handleScriptError script
             (Sprintf (quote X)
                "Template ran script %v with arguments %v on change but it exited with code: %v"
                [structs.Command script; fmt_v_strings (structs.Args script);
                 pretty exitCode])
         else
           [EmitEvent
              (structs.SetDisplayMessage
                 (Sprintf (quote X)
                    "Template successfully ran script %v with arguments: %v. Exit code: 0"
                    [structs.Command script; fmt_v_strings (structs.Args script)])
                 (structs.NewTaskEvent structs.TaskHookMessage))]
     end.

(** [handleChangeModeScript]; the scripts run one after the other, in the
    order of the list. *)
Definition handleChangeModeScript (w : World) (l : list structs.ChangeScriptT) : list Call :=
  concat (processScript w <$> l).

Definition shouldHandle (b : Batch) : bool :=
  restart b
  || negb (bool_decide (size (signal_set b) = 0%nat))
  || negb (bool_decide (length (scripts b) = 0%nat)).

(** The last part of [onTemplateRendered]: the handle times and the
    actions.  A panic of [handleChangeModeSignal] ends the call before the
    scripts are run. *)
Definition apply_batch (w : World) (events : list (string * manager.RenderEvent))
    (h : gmap string Time) (tenv : gmap string string) (b : Batch)
    (slept : option Duration) : DState * list Call * Outcome :=
  let st := {| handledRenders := commit events (handling b) h; templateEnv := tenv |} in
  if restart b then
    (st,
     [Restart (structs.SetDisplayMessage "Template with change_mode restart re-rendered"
                 (structs.NewTaskEvent structs.TaskRestartSignal)) false],
     Applied slept)
  else if handleChangeModeSignal_panics w (signal_set b) then
    (st, handleChangeModeSignal w (signal_set b), NilSignal)
  else
    (st,
     (handleChangeModeSignal w (signal_set b)
      ++ handleChangeModeScript w (scripts b))%list,
     Applied slept).

(** [onTemplateRendered] *)
Definition onTemplateRendered (w : World) (st : DState) (allRenderedTime : Time)
    (events : list (string * manager.RenderEvent)) : DState * list Call * Outcome :=
  match scan w allRenderedTime events (handledRenders st) (templateEnv st) empty_batch with
  | Killed h tenv ev =>
      ({| handledRenders := h; templateEnv := tenv |}, [Kill ev], Aborted)
  | Scanned h tenv b =>
      if negb (shouldHandle b) then
        ({| handledRenders := h; templateEnv := tenv |}, [], NothingToDo)
      else if negb (splay b =? 0) then
        match Int63n (rand_Int63 w) (splay b) with
        | None => ({| handledRenders := h; templateEnv := tenv |}, [], Panicked)
        | Some offset =>
            if shutdown_fires w then
              ({| handledRenders := h; templateEnv := tenv |}, [], Dropped offset)
            else apply_batch w events h tenv b (Some offset)
        end
      else apply_batch w events h tenv b None
  end.

(** [allTemplatesNoop] *)
Definition allTemplatesNoop : bool :=
  forallb (fun tmpl => match structs.ChangeMode tmpl with
                       | structs.TemplateChangeModeNoop => true
                       | _ => false
                       end) (Templates (config_ tm)).

(** ** The steady-state loop *)

(** What the select of [handleTemplateRerenders] receives. *)
Inductive RerenderInput :=
| RShutdown
| RDone
| RErr (err : option string)       (* [None]: the channel is closed *)
| RTemplateRendered (events : list (string * manager.RenderEvent)) (w : World).

Definition template_failed (err : string) : structs.TaskEvent :=
  killing (Sprintf (quote X) "Template failed: %v" [err]).

(** One pass of the loop; [true] means the loop is left: the function
    returns, or its call of [onTemplateRendered] panicked. *)
Definition rerender_step (allRenderedTime : Time) (st : DState) (i : RerenderInput)
  : DState * list Call * bool :=
  match i with
  | RShutdown => (st, [], true)
  | RDone => (st, [], true)
  | RErr None => (st, [], false)
  | RErr (Some err) => (st, [Kill (template_failed err)], false)
  | RTemplateRendered events w =>
      let '(st', calls, outcome) := onTemplateRendered w st allRenderedTime events in
      (st', calls, is_panic outcome)
  end.

(** [handleTemplateRerenders] over the inputs the select receives, in
    order; the last component tells whether the loop has been left. *)
Fixpoint rerender_loop (allRenderedTime : Time) (st : DState)
    (inputs : list RerenderInput) : DState * list Call * bool :=
  match inputs with
  | [] => (st, [], false)
  | i :: rest =>
      let '(st1, calls1, returned) := rerender_step allRenderedTime st i in
      if returned then (st1, calls1, true)
      else
        let '(st2, calls2, r) := rerender_loop allRenderedTime st1 rest in
        (st2, (calls1 ++ calls2)%list, r)
  end.

Definition handleTemplateRerenders (allRenderedTime : Time) (tenv : gmap string string)
    (inputs : list RerenderInput) : DState * list Call * bool :=
  rerender_loop allRenderedTime {| handledRenders := ∅; templateEnv := tenv |} inputs.

(** ** The first-render gate *)

Record GateState := {
  missingDependencies : option (gset string);
  timer_armed : bool;
  dirtyEvents : gmap string manager.RenderEvent;
  outstandingEvent : bool;
  gate_env : gmap string string
}.

Definition gate_init (tenv : gmap string string) : GateState :=
  {| missingDependencies := None; timer_armed := false; dirtyEvents := ∅;
     outstandingEvent := false; gate_env := tenv |}.

(** What the select of [handleFirstRender] receives. *)
Inductive GateInput :=
| GShutdown
| GErr (err : option string)
| GTemplateRendered (events : list (string * manager.RenderEvent))
    (isRunning : bool) (w : World)
| GRenderEvent (events : list (string * manager.RenderEvent))
| GTimer.

(** The loop over the events of the "template rendered" case: [None] when
    it leaves by [continue WAIT]; the dirty events recorded so far are kept
    either way. *)
Fixpoint mark_dirty (events : list (string * manager.RenderEvent))
    (dirty : gmap string manager.RenderEvent)
  : gmap string manager.RenderEvent * bool :=
  match events with
  | [] => (dirty, true)
  | (_, event) :: rest =>
      if IsZero (manager.LastWouldRender event) then (dirty, false)
      else if negb (IsZero (manager.LastDidRender event)) then
        mark_dirty rest (<[manager.TemplateID event := event]> dirty)
      else mark_dirty rest dirty
  end.

(** The set built in the "render event" case. *)
Definition joined_set (events : list (string * manager.RenderEvent)) : gset string :=
  foldl (fun joinedSet '(_, event) =>
           match manager.MissingDeps event with
           | None => joinedSet
           | Some missing => foldl (fun s dep => {[dep]} ∪ s) joinedSet missing
           end) ∅ events.

(** The slice shown by the timer case, from the keys in the order the
    range over the set yields them. *)
Definition missing_slice (keys : list string) : list string :=
  let missingSlice := sort_Strings keys in
  let l := length missingSlice in
  if bool_decide (missingDepEventLimit < l)%nat then
    take (missingDepEventLimit + 1)
      (<[missingDepEventLimit :=
           Sprintf (quote X) "and %d more" [pretty (l - missingDepEventLimit)%nat]]>
         missingSlice)
  else missingSlice.

Definition missing_event (keys : list string) : structs.TaskEvent :=
  structs.SetDisplayMessage
    (Sprintf (quote X) "Missing: %s" [Join (missing_slice keys) ", "])
    (structs.NewTaskEvent (structs.TaskEventOf consulTemplateSourceName)).

(** The entries of the dirty events in the order the range over the map
    yields them. *)
Definition range_events (keys_of : gset string -> list string)
    (events : gmap string manager.RenderEvent)
  : list (string * manager.RenderEvent) :=
  omap (fun id => (fun event => (id, event)) <$> events !! id) (keys_of (dom events)).

(** One pass of the loop of [handleFirstRender]; [true] means the loop is
    left: the function returns, or its call of [onTemplateRendered]
    panicked.  [keys_of] is the order in which a range over a map with
    string keys yields the keys: those of the missing set in the timer
    case, those of the dirty events in the call of [onTemplateRendered]. *)
Definition gate_step (keys_of : gset string -> list string)
    (st : GateState) (i : GateInput) : GateState * list Call * bool :=
  match i with
  | GShutdown => (st, [], true)
  | GErr None => (st, [], false)
  | GErr (Some err) => (st, [Kill (template_failed err)], false)
  | GTemplateRendered events isRunning w =>
      if bool_decide (length events < size (lookup tm))%nat then (st, [], false)
      else
        let '(dirty, all_rendered) := mark_dirty events (dirtyEvents st) in
        let st1 := {| missingDependencies := missingDependencies st;
                      timer_armed := timer_armed st; dirtyEvents := dirty;
                      outstandingEvent := outstandingEvent st;
                      gate_env := gate_env st |} in
        if negb all_rendered then (st1, [], false)
        else if negb (bool_decide (size dirty = 0%nat)) && isRunning then
          let '(d, calls, _) :=
            onTemplateRendered w {| handledRenders := ∅; templateEnv := gate_env st |}
              0 (range_events keys_of dirty) in
          ({| missingDependencies := missingDependencies st;
              timer_armed := timer_armed st; dirtyEvents := dirty;
              outstandingEvent := outstandingEvent st;
              gate_env := templateEnv d |}, calls, true)
        else (st1, [], true)
  | GRenderEvent events =>
      let joinedSet := joined_set events in
      let old := default ∅ (missingDependencies st) in
      let different :=
        negb (bool_decide (size joinedSet = size old))
        || negb (bool_decide (joinedSet ⊆ old)) in
      if negb different then (st, [], false)
      else
        ({| missingDependencies := Some joinedSet;
            timer_armed := if outstandingEvent st then timer_armed st else true;
            dirtyEvents := dirtyEvents st;
            outstandingEvent := true;
            gate_env := gate_env st |}, [], false)
  | GTimer =>
      match missingDependencies st with
      | None =>
          ({| missingDependencies := None; timer_armed := false;
              dirtyEvents := dirtyEvents st; outstandingEvent := outstandingEvent st;
              gate_env := gate_env st |}, [], false)
      | Some missing =>
          ({| missingDependencies := Some missing; timer_armed := false;
              dirtyEvents := dirtyEvents st; outstandingEvent := false;
              gate_env := gate_env st |},
           [EmitEvent (missing_event (keys_of missing))], false)
      end
  end.

(** [handleFirstRender] over the inputs the select receives. *)
Fixpoint gate_loop (keys_of : gset string -> list string) (st : GateState)
    (inputs : list GateInput) : GateState * list Call * bool :=
  match inputs with
  | [] => (st, [], false)
  | i :: rest =>
      let '(st1, calls1, returned) := gate_step keys_of st i in
      if returned then (st1, calls1, true)
      else
        let '(st2, calls2, r) := gate_loop keys_of st1 rest in
        (st2, (calls1 ++ calls2)%list, r)
  end.

Definition handleFirstRender (keys_of : gset string -> list string)
    (tenv : gmap string string) (inputs : list GateInput)
  : GateState * list Call * bool :=
  gate_loop keys_of (gate_init tenv) inputs.

End Dispatcher.

(** ** Predicates used in the statements *)

(** The two sandbox tests of [parseTemplateConfigs], for one template. *)
Definition source_escapes (X : Outside) (tenv : gmap string string)
    (tmpl : structs.Template) : bool :=
  if decide (structs.SourcePath tmpl = "") then false
  else (ClientPath X tenv (structs.SourcePath tmpl) false).2.

Definition dest_escapes (X : Outside) (tenv : gmap string string)
    (tmpl : structs.Template) : bool :=
  if decide (structs.DestPath tmpl = "") then false
  else (ClientPath X tenv (structs.DestPath tmpl) true).2.

Definition count_calls (p : Call -> bool) (calls : list Call) : nat :=
  length (List.filter p calls).

Definition is_CloseShutdownCh (c : Call) : bool :=
  match c with CloseShutdownCh => true | _ => false end.
Definition is_RunnerStop (c : Call) : bool :=
  match c with RunnerStop => true | _ => false end.
Definition is_Restart (c : Call) : bool :=
  match c with Restart _ _ => true | _ => false end.
Definition is_Signal (c : Call) : bool :=
  match c with Signal _ _ => true | _ => false end.
Definition is_Exec (c : Call) : bool :=
  match c with Exec _ _ _ => true | _ => false end.

(** The inputs on which a loop returns.  The gate returns on the shutdown
    channel, and on a "template rendered" notification whose events are at
    least as many as the ids of the lookup and would all have rendered. *)
Definition is_gate_exit (tm : TaskTemplateManager) (i : GateInput) : Prop :=
  match i with
  | GShutdown => True
  | GTemplateRendered events _ _ =>
      (size (lookup tm) <= length events)%nat
      /\ forall id e, (id, e) ∈ events -> manager.LastWouldRender e <> 0
  | _ => False
  end.

Definition is_rerender_exit (i : RerenderInput) : Prop :=
  match i with
  | RShutdown | RDone => True
  | _ => False
  end.

(** An event the loop of [onTemplateRendered] does not skip. *)
Definition eligible (allRenderedTime : Time) (h : gmap string Time) (id : string)
    (event : manager.RenderEvent) : bool :=
  negb (first_time allRenderedTime event) && negb (already_handled h id event).

(** The templates of the events that are not skipped. *)
Definition dirty_templates (tm : TaskTemplateManager) (allRenderedTime : Time)
    (h : gmap string Time) (events : list (string * manager.RenderEvent))
  : list structs.Template :=
  flat_map (fun '(id, event) =>
              if eligible allRenderedTime h id event
              then default [] (lookup tm !! id) else []) events.

Definition is_noop (tmpl : structs.Template) : bool :=
  match structs.ChangeMode tmpl with
  | structs.TemplateChangeModeNoop => true
  | _ => false
  end.

Definition is_restart (tmpl : structs.Template) : bool :=
  match structs.ChangeMode tmpl with
  | structs.TemplateChangeModeRestart => true
  | _ => false
  end.

(** The largest of [start] and the given splays. *)
Definition max_splay_from (start : Duration) (tmpls : list structs.Template) : Duration :=
  foldl (fun acc tmpl => Z.max acc (structs.Splay tmpl)) start tmpls.

(** The largest of the given splays, and at least zero. *)
Definition max_splay (tmpls : list structs.Template) : Duration :=
  max_splay_from 0 tmpls.

Definition actionable (tmpls : list structs.Template) : list structs.Template :=
  List.filter (fun tmpl => negb (is_noop tmpl)) tmpls.

(** The call is one of the change actions. *)
Definition is_change_action (c : Call) : bool :=
  is_Restart c || is_Signal c || is_Exec c.

Definition restart_event : structs.TaskEvent :=
  {| structs.Type_ := structs.TaskRestartSignal; structs.FailsTask := false;
     structs.TaskSignal := None;
     structs.DisplayMessage := "Template with change_mode restart re-rendered" |}.

(** What the skip for events rendered before [allRenderedTime] writes to
    [handledRenders] over a whole scan. *)
Definition gate_writes (allRenderedTime : Time)
    (events : list (string * manager.RenderEvent)) (h : gmap string Time)
  : gmap string Time :=
  foldl (fun h '(id, event) =>
           if first_time allRenderedTime event then <[id := allRenderedTime]> h else h)
        h events.

(** The ids of the events that are not skipped, in order. *)
Definition eligible_ids (allRenderedTime : Time) (h : gmap string Time)
    (events : list (string * manager.RenderEvent)) : list string :=
  (List.filter (fun '(id, event) => eligible allRenderedTime h id event) events).*1.

Definition set_handling (ids : list string) (b : Batch) : Batch :=
  {| handling := ids; signal_set := signal_set b; scripts := scripts b;
     restart := restart b; splay := splay b |}.

Section Endings.

Variable X : Outside.
Variable tm : TaskTemplateManager.

(** The shape of the result of [onTemplateRendered], case by case. *)
Inductive Ending (w : World) (events : list (string * manager.RenderEvent))
    (h' : gmap string Time) (b : Batch)
  : gmap string Time -> list Call -> Outcome -> Prop :=
| End_nothing :
    shouldHandle b = false -> Ending w events h' b h' [] NothingToDo
| End_dropped :
    shouldHandle b = true -> 0 < splay b -> shutdown_fires w = true ->
    Ending w events h' b h' [] (Dropped (rand_Int63 w mod splay b))
| End_applied slept :
    shouldHandle b = true ->
    (splay b = 0 /\ slept = None
     \/ 0 < splay b /\ shutdown_fires w = false
        /\ slept = Some (rand_Int63 w mod splay b)) ->
    restart b || negb (handleChangeModeSignal_panics tm w (signal_set b)) = true ->
    Ending w events h' b (commit events (handling b) h')
      (if restart b then [Restart restart_event false]
       else handleChangeModeSignal X tm w (signal_set b)
            ++ handleChangeModeScript X w (scripts b))
      (Applied slept)
| End_nil_signal :
    shouldHandle b = true ->
    (splay b = 0 \/ 0 < splay b /\ shutdown_fires w = false) ->
    restart b = false ->
    handleChangeModeSignal_panics tm w (signal_set b) = true ->
    Ending w events h' b (commit events (handling b) h')
      (handleChangeModeSignal X tm w (signal_set b)) NilSignal.

End Endings.

(** ** Concrete instances *)

Module Demo.

Definition dquote : string := String (Ascii.ascii_of_nat 34) EmptyString.

(** [ClientPath] for a task directory [/alloc/web] and a shared directory
    [/alloc/alloc], on the paths the examples use.  A relative path is
    joined to the task directory, and escapes when it climbs out of it with
    a leading [..]; an absolute path inside one of the two directories is
    kept; an absolute path outside them is joined to the task directory
    when [joinEscape] is set (destinations), and otherwise kept, and then
    it escapes (sources). *)
Definition clientPath (p : string) (joinEscape : bool) : string * bool :=
  if String.prefix "/" p then
    if String.prefix "/alloc/web/" p || String.prefix "/alloc/alloc/" p then (p, false)
    else if joinEscape then ("/alloc/web" +:+ p, false)
    else (p, true)
  else ("/alloc/web/" +:+ p, String.prefix ".." p).

(** [DefaultTemplateConfig()] for the examples: nothing is set. *)
Definition DefaultTemplateConfig : ctconf.TemplateConfig :=
  {| ctconf.Source := ""; ctconf.Destination := ""; ctconf.Contents := "";
     ctconf.LeftDelim := ""; ctconf.RightDelim := ""; ctconf.ErrMissingKey := false;
     ctconf.FunctionDenylist := []; ctconf.SandboxPath := None; ctconf.Wait := None;
     ctconf.Perms := None; ctconf.Uid := None; ctconf.Gid := None |}.

(** [Finalize] for the examples: a field left unset gets its zero value, a
    wait configuration left unset is disabled, and an enabled one without
    maximum gets four times its minimum. *)
Definition Finalize (ct : ctconf.TemplateConfig) : ctconf.TemplateConfig :=
  {| ctconf.Source := ctconf.Source ct;
     ctconf.Destination := ctconf.Destination ct;
     ctconf.Contents := ctconf.Contents ct;
     ctconf.LeftDelim := ctconf.LeftDelim ct;
     ctconf.RightDelim := ctconf.RightDelim ct;
     ctconf.ErrMissingKey := ctconf.ErrMissingKey ct;
     ctconf.FunctionDenylist := ctconf.FunctionDenylist ct;
     ctconf.SandboxPath := Some (default "" (ctconf.SandboxPath ct));
     ctconf.Wait :=
       Some match ctconf.Wait ct with
            | None => (false, Some 0, Some 0)
            | Some (enabled, lo, hi) =>
                (enabled, Some (default 0 lo), Some (default (4 * default 0 lo) hi))
            end;
     ctconf.Perms := Some (default 0 (ctconf.Perms ct));
     ctconf.Uid := ctconf.Uid ct;
     ctconf.Gid := ctconf.Gid ct |}.

(** An outside world for the examples: three signal names are known; the
    engine renders each descriptor under the id of its destination. *)
Definition X : Outside :=
  {| ClientPath := fun _ p joinEscape => clientPath p joinEscape;
     TaskEnv_All := fun _ => {[ "NOMAD_TASK_NAME" := "web" ]};
     signals_Parse := fun name =>
       if decide (name = "SIGHUP") then Some 1
       else if decide (name = "SIGINT") then Some 2
       else if decide (name = "SIGUSR1") then Some 10
       else None;
     Signal_String := fun s => pretty s;
     WaitConfig_Validate := fun w =>
       match structs.Min w, structs.Max w with
       | Some lo, Some hi =>
           if hi <? lo then Some (external_error "wait min greater than max") else None
       | _, _ => None
       end;
     ctconf_DefaultTemplateConfig := DefaultTemplateConfig;
     TemplateConfig_Finalize := Finalize;
     manager_NewRunner := fun cts =>
       inr (imap (fun i ct => (ctconf.Destination ct, [i])) cts);
     os_Environ := ["HOME=/root"; "SECRET=hunter2"; "NOMAD_TASK_NAME=host"];
     envparse_Parse := fun contents =>
       match cut "="%char contents with
       | Some (k, v) => inr {[ k := v ]}
       | None => inl "missing ="
       end;
     quote := fun s => dquote +:+ s +:+ dquote;
     multierror_text := fun errs => Join errs "; " |}.

Definition nrc (c : TaskTemplateManagerConfig) (cts : list ctconf.TemplateConfig)
  : option Error := None.

Definition script0 : structs.ChangeScriptT :=
  {| structs.Command := "/bin/reload"; structs.Args := ["-q"];
     structs.Timeout := 5000000000; structs.FailOnError := true |}.

Definition tmpl (dest : string) (mode : structs.ChangeModeT) (sig : string)
    (splay : Duration) (perms : string) : structs.Template :=
  {| structs.SourcePath := ""; structs.DestPath := dest;
     structs.EmbeddedTmpl := "{{ key }}";
     structs.ChangeMode := mode; structs.ChangeSignal := sig;
     structs.ChangeScript := script0; structs.Splay := splay;
     structs.Perms := perms; structs.Uid := None; structs.Gid := None;
     structs.LeftDelim := "{{"; structs.RightDelim := "}}";
     structs.Envvars := false; structs.ErrMissingKey := false;
     structs.Wait := None; structs.Once := false |}.

Definition cfg (ts : list structs.Template) : TaskTemplateManagerConfig :=
  {| UnblockCh := true; Lifecycle := true; Events := true; Templates := ts;
     ClientConfig :=
       Some {| config.TemplateConfig :=
                 Some {| config.DisableSandbox := false;
                         config.FunctionDenylist := ["plugin"] |} |};
     TaskDir := "/alloc/web"; EnvBuilder := Some ∅;
     MaxTemplateEventRate := DefaultMaxTemplateEventRate |}.

(** A configuration that fails the pre-condition check. *)
Definition cfg_no_rate (ts : list structs.Template) : TaskTemplateManagerConfig :=
  {| UnblockCh := true; Lifecycle := true; Events := true; Templates := ts;
     ClientConfig := ClientConfig (cfg ts);
     TaskDir := "/alloc/web"; EnvBuilder := Some ∅;
     MaxTemplateEventRate := 0 |}.

(** A manager as the dispatcher sees it. *)
Definition tm_of (ts : list structs.Template)
    (lk : gmap string (list structs.Template)) (r : option manager.Runner)
  : TaskTemplateManager :=
  {| config_ := cfg ts; lookup := lk; runner := r;
     signals := {[ "SIGHUP" := 1 ]}; shutdown := false |}.

(** The manager [NewTaskTemplateManager] builds for a task without
    templates. *)
Definition tm_without_templates : TaskTemplateManager :=
  {| config_ := cfg []; lookup := ∅; runner := None; signals := ∅;
     shutdown := false |}.

Definition event (id : string) (did : Time) : manager.RenderEvent :=
  {| manager.TemplateID := id; manager.LastWouldRender := did;
     manager.LastDidRender := did; manager.MissingDeps := None |}.

Definition world (draw : Z) (fires : bool) : World :=
  {| os_Open := fun _ => inl "no such file or directory";
     rand_Int63 := draw;
     shutdown_fires := fires;
     Lifecycle_Signal := fun _ => None;
     Lifecycle_Exec := fun _ => (0, None) |}.

Definition world_readable (draw : Z) (fires : bool) : World :=
  {| os_Open := fun _ => inr "KEY=value";
     rand_Int63 := draw;
     shutdown_fires := fires;
     Lifecycle_Signal := fun _ => None;
     Lifecycle_Exec := fun _ => (0, None) |}.

Definition with_envvars (t : structs.Template) : structs.Template :=
  {| structs.SourcePath := structs.SourcePath t; structs.DestPath := structs.DestPath t;
     structs.EmbeddedTmpl := structs.EmbeddedTmpl t;
     structs.ChangeMode := structs.ChangeMode t;
     structs.ChangeSignal := structs.ChangeSignal t;
     structs.ChangeScript := structs.ChangeScript t; structs.Splay := structs.Splay t;
     structs.Perms := structs.Perms t; structs.Uid := structs.Uid t;
     structs.Gid := structs.Gid t; structs.LeftDelim := structs.LeftDelim t;
     structs.RightDelim := structs.RightDelim t; structs.Envvars := true;
     structs.ErrMissingKey := structs.ErrMissingKey t;
     structs.Wait := structs.Wait t; structs.Once := structs.Once t |}.

Definition engine : manager.Runner :=
  {| manager.Env := ∅; manager.TemplateConfigMapping := [] |}.

Definition restart_now : structs.Template :=
  tmpl "a.conf" structs.TemplateChangeModeRestart "" 0 "".
Definition restart_splayed : structs.Template :=
  tmpl "a.conf" structs.TemplateChangeModeRestart "" 5000000000 "".
Definition signal_hup : structs.Template :=
  tmpl "b.conf" structs.TemplateChangeModeSignal "SIGHUP" 0 "".
Definition noop_splayed : structs.Template :=
  tmpl "c.conf" structs.TemplateChangeModeNoop "" 10000000000 "".

(** One restart template and one signal template. *)
Definition tm_restart_signal : TaskTemplateManager :=
  tm_of [restart_now; signal_hup]
    {[ "a" := [restart_now]; "b" := [signal_hup] ]} (Some engine).

(** One restart template with a splay of five seconds. *)
Definition tm_restart_splayed : TaskTemplateManager :=
  tm_of [restart_splayed] {[ "a" := [restart_splayed] ]} (Some engine).

(** A restart template without splay and a noop template with a splay of
    ten seconds. *)
Definition tm_restart_noop : TaskTemplateManager :=
  tm_of [restart_now; noop_splayed]
    {[ "a" := [restart_now]; "c" := [noop_splayed] ]} (Some engine).

(** One restart template whose destination is read for environment
    variables. *)
Definition tm_restart_env : TaskTemplateManager :=
  tm_of [with_envvars restart_now] {[ "a" := [with_envvars restart_now] ]}
    (Some engine).

Definition fresh : DState := {| handledRenders := ∅; templateEnv := ∅ |}.

(** The gate, blocked with five missing dependencies. *)
Definition five_missing : gset string := {[ "e"; "b"; "a"; "d"; "c" ]}.

Definition gate_blocked : GateState :=
  {| missingDependencies := Some five_missing; timer_armed := true;
     dirtyEvents := ∅; outstandingEvent := true; gate_env := ∅ |}.

End Demo.
(** ** Run *)

(** How [Run] stands once the receipts are used up. *)
Inductive RunStatus :=
| Waiting        (* blocked in a select *)
| Returned
| Crashed.       (* a panic in [onTemplateRendered] *)

(** [isSandboxEnabled] *)
Definition isSandboxEnabled (cfg : TaskTemplateManagerConfig) : bool :=
  match ClientConfig cfg with
  | Some cc => match config.TemplateConfig cc with
               | Some tc => negb (config.DisableSandbox tc) | None => true end
  | None => true
  end.

Section Running.

Variable X : Outside.
Variable tm : TaskTemplateManager.

(** The state and the receipt on which the gate returns, if it does. *)
Fixpoint gate_exit (keys_of : gset string -> list string)
    (st : GateState) (inputs : list GateInput) : option (GateState * GateInput) :=
  match inputs with
  | [] => None
  | i :: rest =>
      let '(st1, _, returned) := gate_step X tm keys_of st i in
      if returned then Some (st, i) else gate_exit keys_of st1 rest
  end.

(** How the call of [onTemplateRendered] made by the gate ended, if the
    gate was left after making one. *)
Definition gate_outcome (keys_of : gset string -> list string)
    (st : GateState) (inputs : list GateInput) : option Outcome :=
  match gate_exit keys_of st inputs with
  | Some (st0, GTemplateRendered events isRunning w) =>
      let dirty := (mark_dirty events (dirtyEvents st0)).1 in
      if negb (bool_decide (size dirty = 0%nat)) && isRunning then
        Some (onTemplateRendered X tm w
                {| handledRenders := ∅; templateEnv := gate_env st0 |}
                0 (range_events keys_of dirty)).2
      else None
  | _ => None
  end.

(** The shutdown channel is known to be closed when the gate returns: the
    gate returned on it, or the splay sleep of its batch was cut short by
    it. *)
Definition gate_saw_shutdown (keys_of : gset string -> list string)
    (st : GateState) (inputs : list GateInput) : bool :=
  match gate_exit keys_of st inputs with
  | Some (_, GShutdown) => true
  | _ => match gate_outcome keys_of st inputs with
         | Some (Dropped _) => true
         | _ => false
         end
  end.

Definition rerender_panics (allRenderedTime : Time) (st : DState) (i : RerenderInput)
  : bool :=
  match i with
  | RTemplateRendered events w =>
      is_panic (onTemplateRendered X tm w st allRenderedTime events).2
  | _ => false
  end.

(** The receipts [handleTemplateRerenders] gets to: up to the one on which
    it returns or panics; the flag tells a panic. *)
Fixpoint rerender_reach (allRenderedTime : Time) (st : DState)
    (inputs : list RerenderInput) : list RerenderInput * bool :=
  match inputs with
  | [] => ([], false)
  | i :: rest =>
      if rerender_panics allRenderedTime st i then ([i], true)
      else
        let '(st1, _, returned) := rerender_step X tm allRenderedTime st i in
        if returned then ([i], false)
        else
          let '(reached, panicked) := rerender_reach allRenderedTime st1 rest in
          (i :: reached, panicked)
  end.

(** [Run].  [keys_of] is the order in which a range over a map yields its
    keys, [tenv] the template environment the builder holds at the start,
    [gate_inputs] and [rerender_inputs] what the two selects receive, [stopped] whether the shutdown channel is closed when the gate
    has returned, [w] the world at the harvest of the environment
    templates, [now] what [time.Now()] returns. *)
Definition Run (keys_of : gset string -> list string) (tenv : gmap string string)
    (gate_inputs : list GateInput) (stopped : bool) (w : World) (now : Time)
    (rerender_inputs : list RerenderInput) : list Call * RunStatus :=
  match runner tm with
  | None => ([CloseUnblockCh], Returned)
  | Some _ =>
      let '(g, calls1, returned) := handleFirstRender X tm keys_of tenv gate_inputs in
      if negb returned then (RunnerStart :: calls1, Waiting)
      else
        match gate_outcome keys_of (gate_init tenv) gate_inputs with
        | Some Panicked | Some NilSignal => (RunnerStart :: calls1, Crashed)
        | _ =>
            if gate_saw_shutdown keys_of (gate_init tenv) gate_inputs || stopped then
              (RunnerStart :: calls1, Returned)
            else
              match loadTemplateEnv X w (gate_env g) (Templates (config_ tm)) ∅ with
              | inl err =>
                  (RunnerStart :: calls1 ++
                     [Kill (killing (Sprintf (quote X)
                                       "Template failed to read environment variables: %v"
                                       [Error_text X err]))], Returned)
              | inr envMap =>
                  if allTemplatesNoop tm then
                    (RunnerStart :: calls1 ++ [CloseUnblockCh], Returned)
                  else
                    let st := {| handledRenders := ∅; templateEnv := envMap |} in
                    let '(reached, panicked) := rerender_reach now st rerender_inputs in
                    let '(_, calls2, r) := rerender_loop X tm now st reached in
                    (RunnerStart :: calls1 ++ [CloseUnblockCh] ++ calls2,
                     if panicked then Crashed else if r then Returned else Waiting)
              end
        end
  end.

End Running.

(** A call on the task lifecycle or on the event emitter, the only
    collaborators the loops talk to. *)
Definition is_task_call (c : Call) : bool :=
  match c with
  | Kill _ | Restart _ _ | Signal _ _ | Exec _ _ _ | EmitEvent _ => true
  | _ => false
  end.

Definition is_CloseUnblockCh (c : Call) : bool :=
  match c with CloseUnblockCh => true | _ => false end.
Definition is_RunnerStart (c : Call) : bool :=
  match c with RunnerStart => true | _ => false end.
Definition is_Kill (c : Call) : bool :=
  match c with Kill _ => true | _ => false end.
Definition is_EmitEvent (c : Call) : bool :=
  match c with EmitEvent _ => true | _ => false end.

Definition is_signal (tmpl : structs.Template) : bool :=
  match structs.ChangeMode tmpl with
  | structs.TemplateChangeModeSignal => true
  | _ => false
  end.

(** The signal table knows the [ChangeSignal] of every template of the
    lookup with change mode signal. *)
Definition signals_known (tm : TaskTemplateManager) : Prop :=
  forall id tmpls t,
    lookup tm !! id = Some tmpls -> t ∈ tmpls -> is_signal t = true ->
    is_Some (signals tm !! structs.ChangeSignal t).

Definition is_script (tmpl : structs.Template) : bool :=
  match structs.ChangeMode tmpl with
  | structs.TemplateChangeModeScript => true
  | _ => false
  end.

(** The script fails: [Exec] returns an error or a non-zero exit code. *)
Definition script_fails (w : World) (script : structs.ChangeScriptT) : bool :=
  match Lifecycle_Exec w script with
  | (_, Some _) => true
  | (exitCode, None) => negb (exitCode =? 0)
  end.

(** The value of a string of octal digits. *)
Fixpoint octal_value (s : string) (acc : Z) : Z :=
  match s with
  | EmptyString => acc
  | String a rest => octal_value rest (acc * 8 + default 0 (octal_digit a))
  end.

Fixpoint all_octal (s : string) : bool :=
  match s with
  | EmptyString => true
  | String a rest => bool_decide (is_Some (octal_digit a)) && all_octal rest
  end.

(** ** The engine configuration *)

(** Sequencing of fallible steps: the first error (or panic) is the
    result. *)
Global Instance result_bind : MBind result := fun A B f m =>
  match m with
  | Ok a => f a
  | Err e => Err e
  | Panic => Panic
  end.

Module structsc.

(** [structsc.ConsulConfig], with the fields [newRunnerConfig] reads. *)
Module Consul.
Record ConsulConfig := {
  Addr : string;
  Namespace : string;
  EnableSSL : option bool;
  VerifySSL : option bool;
  CertFile : string;
  KeyFile : string;
  CAFile : string;
  Auth : string
}.
End Consul.

(** [structsc.VaultConfig], with the fields [newRunnerConfig] reads;
    [IsEnabled] is what the method of that name returns. *)
Module Vault.
Record VaultConfig := {
  IsEnabled : bool;
  Addr : string;
  Namespace : string;
  TLSCertFile : string;
  TLSKeyFile : string;
  TLSCaFile : string;
  TLSCaPath : string;
  TLSServerName : string;
  TLSSkipVerify : option bool
}.
End Vault.

End structsc.

(** The fields of [TaskTemplateManagerConfig] that only [newRunnerConfig]
    reads. *)
Record TaskCredentials := {
  ConsulNamespace : string;
  ConsulToken : string;
  ConsulConfig : option structsc.Consul.ConsulConfig;
  VaultToken : string;
  VaultConfig : option structsc.Vault.VaultConfig;
  VaultNamespace : string;
  NomadNamespace : string;
  NomadToken : string;
  TaskID : string
}.

(** The fields of the client configuration that only [newRunnerConfig]
    reads: [TemplateDialer] of [config.Config], the others of its
    [TemplateConfig].  A retry configuration and the dialer are named by a
    handle: [newRunnerConfig] only passes them on. *)
Record ClientRunnerSettings := {
  BlockQueryWaitTime : option Duration;
  MaxStale : option Duration;
  ClientWait : option structs.WaitConfig;
  WaitBounds : option structs.WaitConfig;
  ConsulRetry : option nat;
  VaultRetry : option nat;
  NomadRetry : option nat;
  TemplateDialer : option nat
}.

Module runnercfg.

Record SSLConfig := {
  Enabled : bool;
  Verify : bool;
  Cert : string;
  Key : string;
  CaCert : string;
  CaPath : option string;
  ServerName : option string
}.

(** An [AuthConfig] with [Enabled] set. *)
Record AuthConfig := {
  Username : string;
  Password : string
}.

(** The section of the engine configuration for one backend (Consul,
    Vault or Nomad); a field is [None] when the pointer is nil. *)
Record Backend := {
  Address : option string;
  Token : option string;
  RenewToken : option bool;
  Namespace : option string;
  SSL : option SSLConfig;
  Auth : option AuthConfig;
  Retry : option nat;
  CustomDialer : option nat
}.

(** The engine configuration, with the fields [newRunnerConfig] writes.
    [ReaderFunc] and [RendererFunc] are kept by the arguments they are
    built from: the task id, the sandbox directory and whether the sandbox
    is enabled. *)
Record Config := {
  Templates : list ctconf.TemplateConfig;
  BlockQueryWaitTime : option Duration;
  MaxStale : option Duration;
  Wait : option (bool * option Duration * option Duration);
  Consul : Backend;
  Vault : Backend;
  Nomad : Backend;
  Once : bool;
  ReaderFunc : string * string * bool;
  RendererFunc : string * string * bool
}.

End runnercfg.

(** Functions of the client configuration package, of the engine's
    configuration package and of [path/filepath]. *)
Record RunnerOutside := {
  (** [WaitConfig.Validate] of the client configuration *)
  ClientWait_Validate : structs.WaitConfig -> option Error;
  (** [WaitConfig.ToConsulTemplate] *)
  ClientWait_ToConsulTemplate :
    structs.WaitConfig -> Error + (bool * option Duration * option Duration);
  (** [RetryConfig.Validate] *)
  Retry_Validate : nat -> option Error;
  (** [RetryConfig.ToConsulTemplate] *)
  Retry_ToConsulTemplate : nat -> Error + nat;
  (** [filepath.Dir] *)
  filepath_Dir : string -> string;
  (** [ctconf.DefaultConfig()]: it may hold settings read from the process
      environment.  [newRunnerConfig] overwrites [Templates], [Once] and
      the two functions. *)
  ctconf_DefaultConfig : runnercfg.Config;
  (** [ctconf.Config.Finalize]: the configuration with the fields that are
      still nil given their defaults. *)
  Config_Finalize : runnercfg.Config -> runnercfg.Config
}.

Section RunnerConfig.

Variable Y : RunnerOutside.

Definition set_Wait (wait : option (bool * option Duration * option Duration))
    (ct : ctconf.TemplateConfig) : ctconf.TemplateConfig :=
  {| ctconf.Source := ctconf.Source ct;
     ctconf.Destination := ctconf.Destination ct;
     ctconf.Contents := ctconf.Contents ct;
     ctconf.LeftDelim := ctconf.LeftDelim ct;
     ctconf.RightDelim := ctconf.RightDelim ct;
     ctconf.ErrMissingKey := ctconf.ErrMissingKey ct;
     ctconf.FunctionDenylist := ctconf.FunctionDenylist ct;
     ctconf.SandboxPath := ctconf.SandboxPath ct;
     ctconf.Wait := wait;
     ctconf.Perms := ctconf.Perms ct;
     ctconf.Uid := ctconf.Uid ct;
     ctconf.Gid := ctconf.Gid ct |}.

(** The body of the loop "check and override with bounds". *)
Definition clamp_wait (bounds : structs.WaitConfig) (ct : ctconf.TemplateConfig)
  : ctconf.TemplateConfig :=
  match ctconf.Wait ct with
  | Some (true, lo, hi) =>
      let lo' :=
        match structs.Min bounds, lo with
        | Some b, Some m => if m <? b then Some b else lo
        | _, _ => lo
        end in
      let hi' :=
        match structs.Max bounds, hi with
        | Some b, Some m => if b <? m then Some b else hi
        | _, _ => hi
        end in
      set_Wait (Some (true, lo', hi')) ct
  | _ => ct
  end.

(** A retry configuration of the client: validated, then converted; without
    one the setting stays as it is. *)
Definition convert_retry (current : option nat) (r : option nat) : result (option nat) :=
  match r with
  | None => Ok current
  | Some r =>
      match Retry_Validate Y r with
      | Some e => Err e
      | None =>
          match Retry_ToConsulTemplate Y r with
          | inl e => Err e
          | inr r' => Ok (Some r')
          end
      end
  end.

(** "Set up the Consul config", with the namespace of the job or group
    applied last; [d] is the section as [DefaultConfig()] made it. *)
Definition consul_backend (cred : TaskCredentials) (cs : ClientRunnerSettings)
  : result runnercfg.Backend :=
  let d := runnercfg.Consul (ctconf_DefaultConfig Y) in
  b ← match ConsulConfig cred with
      | None => Ok d
      | Some cc =>
          auth ← (if decide (structsc.Consul.Auth cc = "") then Ok (runnercfg.Auth d)
                  else match cut ":"%char (structsc.Consul.Auth cc) with
                       | Some (user, pass) =>
                           Ok (Some {| runnercfg.Username := user;
                                       runnercfg.Password := pass |})
                       | None =>
                           Err (fmt_Errorf "Failed to parse Consul Auth config" [])
                       end);
          retry ← convert_retry (runnercfg.Retry d) (ConsulRetry cs);
          Ok {| runnercfg.Address := Some (structsc.Consul.Addr cc);
                runnercfg.Token := Some (ConsulToken cred);
                runnercfg.RenewToken := runnercfg.RenewToken d;
                runnercfg.Namespace :=
                  if decide (structsc.Consul.Namespace cc = "") then runnercfg.Namespace d
                  else Some (structsc.Consul.Namespace cc);
                runnercfg.SSL :=
                  match structsc.Consul.EnableSSL cc with
                  | Some true =>
                      Some {| runnercfg.Enabled := true;
                              runnercfg.Verify :=
                                match structsc.Consul.VerifySSL cc with
                                | Some v => v
                                | None => false
                                end;
                              runnercfg.Cert := structsc.Consul.CertFile cc;
                              runnercfg.Key := structsc.Consul.KeyFile cc;
                              runnercfg.CaCert := structsc.Consul.CAFile cc;
                              runnercfg.CaPath := None;
                              runnercfg.ServerName := None |}
                  | _ => runnercfg.SSL d
                  end;
                runnercfg.Auth := auth;
                runnercfg.Retry := retry;
                runnercfg.CustomDialer := runnercfg.CustomDialer d |}
      end;
  Ok {| runnercfg.Address := runnercfg.Address b;
        runnercfg.Token := runnercfg.Token b;
        runnercfg.RenewToken := runnercfg.RenewToken b;
        runnercfg.Namespace :=
          if decide (ConsulNamespace cred = "") then runnercfg.Namespace b
          else Some (ConsulNamespace cred);
        runnercfg.SSL := runnercfg.SSL b;
        runnercfg.Auth := runnercfg.Auth b;
        runnercfg.Retry := runnercfg.Retry b;
        runnercfg.CustomDialer := runnercfg.CustomDialer b |}.

(** "Set up the Vault config"; [d] is the section as [DefaultConfig()]
    made it. *)
Definition vault_backend (cred : TaskCredentials) (cs : ClientRunnerSettings)
  : result runnercfg.Backend :=
  let d := runnercfg.Vault (ctconf_DefaultConfig Y) in
  let disabled :=
    {| runnercfg.Address := runnercfg.Address d; runnercfg.Token := Some "";
       runnercfg.RenewToken := Some false;
       runnercfg.Namespace := runnercfg.Namespace d;
       runnercfg.SSL := runnercfg.SSL d; runnercfg.Auth := runnercfg.Auth d;
       runnercfg.Retry := runnercfg.Retry d;
       runnercfg.CustomDialer := runnercfg.CustomDialer d |} in
  match VaultConfig cred with
  | Some vc =>
      if structsc.Vault.IsEnabled vc then
        retry ← convert_retry (runnercfg.Retry d) (VaultRetry cs);
        Ok {| runnercfg.Address := Some (structsc.Vault.Addr vc);
              runnercfg.Token := Some (VaultToken cred);
              runnercfg.RenewToken := Some false;
              runnercfg.Namespace :=
                if decide (VaultNamespace cred = "") then
                  if decide (structsc.Vault.Namespace vc = "") then runnercfg.Namespace d
                  else Some (structsc.Vault.Namespace vc)
                else Some (VaultNamespace cred);
              runnercfg.SSL :=
                Some (if String.prefix "https" (structsc.Vault.Addr vc)
                         || negb (bool_decide (structsc.Vault.TLSCertFile vc = ""))
                      then
                        {| runnercfg.Enabled := true;
                           runnercfg.Verify :=
                             negb match structsc.Vault.TLSSkipVerify vc with
                                  | Some skip => skip
                                  | None => false
                                  end;
                           runnercfg.Cert := structsc.Vault.TLSCertFile vc;
                           runnercfg.Key := structsc.Vault.TLSKeyFile vc;
                           runnercfg.CaCert := structsc.Vault.TLSCaFile vc;
                           runnercfg.CaPath := Some (structsc.Vault.TLSCaPath vc);
                           runnercfg.ServerName :=
                             Some (structsc.Vault.TLSServerName vc) |}
                      else
                        {| runnercfg.Enabled := false; runnercfg.Verify := false;
                           runnercfg.Cert := ""; runnercfg.Key := "";
                           runnercfg.CaCert := ""; runnercfg.CaPath := Some "";
                           runnercfg.ServerName := Some "" |});
              runnercfg.Auth := runnercfg.Auth d;
              runnercfg.Retry := retry;
              runnercfg.CustomDialer := runnercfg.CustomDialer d |}
      else Ok disabled
  | None => Ok disabled
  end.

(** "Set up Nomad"; [d] is the section as [DefaultConfig()] made it. *)
Definition nomad_backend (cred : TaskCredentials) (cs : ClientRunnerSettings)
  : result runnercfg.Backend :=
  let d := runnercfg.Nomad (ctconf_DefaultConfig Y) in
  retry ← convert_retry (runnercfg.Retry d) (NomadRetry cs);
  Ok {| runnercfg.Address := runnercfg.Address d;
        runnercfg.Token := Some (NomadToken cred);
        runnercfg.RenewToken := runnercfg.RenewToken d;
        runnercfg.Namespace := Some (NomadNamespace cred);
        runnercfg.SSL := runnercfg.SSL d; runnercfg.Auth := runnercfg.Auth d;
        runnercfg.Retry := retry;
        runnercfg.CustomDialer := TemplateDialer cs |}.

(** [newRunnerConfig] up to its call of [Finalize]: the configuration
    [DefaultConfig()] made, with the settings of the function.  [cred] and
    [cs] hold the fields of the two configurations that only this function
    reads; [ctmpls] lists the descriptors of the template mapping in the
    order the range over it yields them. *)
Definition newRunnerConfig_settings (c : TaskTemplateManagerConfig)
    (cred : TaskCredentials) (cs : ClientRunnerSettings)
    (ctmpls : list ctconf.TemplateConfig) : result runnercfg.Config :=
  let d := ctconf_DefaultConfig Y in
  match ClientConfig c with
  | None => Panic
  | Some cc =>
      match config.TemplateConfig cc with
      | None => Panic
      | Some _ =>
          wait ← match ClientWait cs with
                 | None => Ok (runnercfg.Wait d)
                 | Some w =>
                     match ClientWait_Validate Y w with
                     | Some e => Err e
                     | None =>
                         match ClientWait_ToConsulTemplate Y w with
                         | inl e => Err e
                         | inr w' => Ok (Some w')
                         end
                     end
                 end;
          templates ← match WaitBounds cs with
                      | None => Ok ctmpls
                      | Some bounds =>
                          match ClientWait_Validate Y bounds with
                          | Some e => Err e
                          | None => Ok (clamp_wait bounds <$> ctmpls)
                          end
                      end;
          consul ← consul_backend cred cs;
          vault ← vault_backend cred cs;
          nomad ← nomad_backend cred cs;
          Ok {| runnercfg.Templates := templates;
                runnercfg.BlockQueryWaitTime :=
                  match BlockQueryWaitTime cs with
                  | Some t => Some t
                  | None => runnercfg.BlockQueryWaitTime d
                  end;
                runnercfg.MaxStale :=
                  match MaxStale cs with
                  | Some t => Some t
                  | None => runnercfg.MaxStale d
                  end;
                runnercfg.Wait := wait;
                runnercfg.Consul := consul;
                runnercfg.Vault := vault;
                runnercfg.Nomad := nomad;
                runnercfg.Once := OnceModeEnabled c;
                runnercfg.ReaderFunc :=
                  (TaskID cred, filepath_Dir Y (TaskDir c), isSandboxEnabled c);
                runnercfg.RendererFunc :=
                  (TaskID cred, filepath_Dir Y (TaskDir c), isSandboxEnabled c) |}
      end
  end.

(** [newRunnerConfig] *)
Definition newRunnerConfig (c : TaskTemplateManagerConfig) (cred : TaskCredentials)
    (cs : ClientRunnerSettings) (ctmpls : list ctconf.TemplateConfig)
  : result runnercfg.Config :=
  conf ← newRunnerConfig_settings c cred cs ctmpls;
  Ok (Config_Finalize Y conf).

(** [newRunnerConfig] as the construction uses it: only its error. *)
Definition newRunnerConfig_error (cred : TaskCredentials) (cs : ClientRunnerSettings)
    (c : TaskTemplateManagerConfig) (ctmpls : list ctconf.TemplateConfig)
  : option Error :=
  match newRunnerConfig c cred cs ctmpls with
  | Err e => Some e
  | _ => None
  end.

End RunnerConfig.

(** The condition of "Set up the Vault config": the task uses Vault and
    Vault is enabled. *)
Definition vault_enabled (cred : TaskCredentials) : bool :=
  match VaultConfig cred with
  | Some vc => structsc.Vault.IsEnabled vc
  | None => false
  end.

(** ** More concrete instances *)

Module Demo2.

Definition signal_hup_too : structs.Template :=
  Demo.tmpl "d.conf" structs.TemplateChangeModeSignal "SIGHUP" 0 "".
Definition script_reload : structs.Template :=
  Demo.tmpl "e.conf" structs.TemplateChangeModeScript "" 0 "".

(** Two signal templates that share a signal, and a script template. *)
Definition tm_signals_script : TaskTemplateManager :=
  Demo.tm_of [Demo.signal_hup; signal_hup_too; script_reload]
    {[ "b" := [Demo.signal_hup]; "d" := [signal_hup_too]; "e" := [script_reload] ]}
    (Some Demo.engine).

Definition three_renders : list (string * manager.RenderEvent) :=
  [("b", Demo.event "b" 10); ("d", Demo.event "d" 10); ("e", Demo.event "e" 10)].

(** Only noop templates. *)
Definition tm_noop : TaskTemplateManager :=
  Demo.tm_of [Demo.noop_splayed] {[ "c" := [Demo.noop_splayed] ]} (Some Demo.engine).

End Demo2.

Module Demo3.

Definition unset : runnercfg.Backend :=
  {| runnercfg.Address := None; runnercfg.Token := None;
     runnercfg.RenewToken := None; runnercfg.Namespace := None;
     runnercfg.SSL := None; runnercfg.Auth := None; runnercfg.Retry := None;
     runnercfg.CustomDialer := None |}.

(** [DefaultConfig()] for the examples, in a process whose environment
    sets [VAULT_ADDR] and [VAULT_TOKEN]. *)
Definition DefaultConfig : runnercfg.Config :=
  {| runnercfg.Templates := [];
     runnercfg.BlockQueryWaitTime := None; runnercfg.MaxStale := None;
     runnercfg.Wait := None;
     runnercfg.Consul := unset;
     runnercfg.Vault :=
       {| runnercfg.Address := Some "https://vault.host:8200";
          runnercfg.Token := Some "host-token";
          runnercfg.RenewToken := None; runnercfg.Namespace := None;
          runnercfg.SSL := None; runnercfg.Auth := None; runnercfg.Retry := None;
          runnercfg.CustomDialer := None |};
     runnercfg.Nomad := unset;
     runnercfg.Once := false;
     runnercfg.ReaderFunc := ("", "", false);
     runnercfg.RendererFunc := ("", "", false) |}.

Definition finalize_backend (b : runnercfg.Backend) : runnercfg.Backend :=
  {| runnercfg.Address := Some (default "" (runnercfg.Address b));
     runnercfg.Token := Some (default "" (runnercfg.Token b));
     runnercfg.RenewToken := Some (default false (runnercfg.RenewToken b));
     runnercfg.Namespace := Some (default "" (runnercfg.Namespace b));
     runnercfg.SSL := runnercfg.SSL b; runnercfg.Auth := runnercfg.Auth b;
     runnercfg.Retry := runnercfg.Retry b;
     runnercfg.CustomDialer := runnercfg.CustomDialer b |}.

(** [Finalize] for the examples: a string or flag left unset gets its zero
    value; the other fields are kept. *)
Definition Finalize (conf : runnercfg.Config) : runnercfg.Config :=
  {| runnercfg.Templates := runnercfg.Templates conf;
     runnercfg.BlockQueryWaitTime := runnercfg.BlockQueryWaitTime conf;
     runnercfg.MaxStale := runnercfg.MaxStale conf;
     runnercfg.Wait := runnercfg.Wait conf;
     runnercfg.Consul := finalize_backend (runnercfg.Consul conf);
     runnercfg.Vault := finalize_backend (runnercfg.Vault conf);
     runnercfg.Nomad := finalize_backend (runnercfg.Nomad conf);
     runnercfg.Once := runnercfg.Once conf;
     runnercfg.ReaderFunc := runnercfg.ReaderFunc conf;
     runnercfg.RendererFunc := runnercfg.RendererFunc conf |}.

(** The client configuration package for the examples: a wait
    configuration is valid when its minimum is not above its maximum. *)
Definition Y : RunnerOutside :=
  {| ClientWait_Validate := fun w =>
       match structs.Min w, structs.Max w with
       | Some lo, Some hi =>
           if hi <? lo then Some (external_error "wait min greater than max") else None
       | _, _ => None
       end;
     ClientWait_ToConsulTemplate := fun w => inr (true, structs.Min w, structs.Max w);
     Retry_Validate := fun _ => None;
     Retry_ToConsulTemplate := fun r => inr r;
     filepath_Dir := fun _ => "/alloc";
     ctconf_DefaultConfig := DefaultConfig;
     Config_Finalize := Finalize |}.

Definition consul (auth : string) : structsc.Consul.ConsulConfig :=
  {| structsc.Consul.Addr := "127.0.0.1:8500";
     structsc.Consul.Namespace := "agent-ns";
     structsc.Consul.EnableSSL := None; structsc.Consul.VerifySSL := None;
     structsc.Consul.CertFile := ""; structsc.Consul.KeyFile := "";
     structsc.Consul.CAFile := ""; structsc.Consul.Auth := auth |}.

Definition vault (enabled : bool) : structsc.Vault.VaultConfig :=
  {| structsc.Vault.IsEnabled := enabled;
     structsc.Vault.Addr := "https://vault.service:8200";
     structsc.Vault.Namespace := "agent-vault-ns";
     structsc.Vault.TLSCertFile := ""; structsc.Vault.TLSKeyFile := "";
     structsc.Vault.TLSCaFile := ""; structsc.Vault.TLSCaPath := "";
     structsc.Vault.TLSServerName := ""; structsc.Vault.TLSSkipVerify := None |}.

Definition cred (auth : string) (vault_enabled : bool) (consul_ns : string)
  : TaskCredentials :=
  {| ConsulNamespace := consul_ns; ConsulToken := "consul-token";
     ConsulConfig := Some (consul auth);
     VaultToken := "vault-token"; VaultConfig := Some (vault vault_enabled);
     VaultNamespace := ""; NomadNamespace := "default"; NomadToken := "nomad-token";
     TaskID := "web" |}.

Definition settings (bounds : option structs.WaitConfig) : ClientRunnerSettings :=
  {| BlockQueryWaitTime := None; MaxStale := None; ClientWait := None;
     WaitBounds := bounds; ConsulRetry := None; VaultRetry := None;
     NomadRetry := None; TemplateDialer := None |}.

(** A descriptor that waits between [lo] and [hi]. *)
Definition waiting (lo hi : Duration) : ctconf.TemplateConfig :=
  {| ctconf.Source := ""; ctconf.Destination := "/alloc/web/a.conf";
     ctconf.Contents := "{{ key }}"; ctconf.LeftDelim := "{{";
     ctconf.RightDelim := "}}"; ctconf.ErrMissingKey := false;
     ctconf.FunctionDenylist := ["plugin"];
     ctconf.SandboxPath := Some "/alloc/web";
     ctconf.Wait := Some (true, Some lo, Some hi);
     ctconf.Perms := None; ctconf.Uid := None; ctconf.Gid := None |}.

(** A restart template whose wait has a minimum of ten and no maximum. *)
Definition waits_ten : structs.Template :=
  {| structs.SourcePath := ""; structs.DestPath := "a.conf";
     structs.EmbeddedTmpl := "{{ key }}";
     structs.ChangeMode := structs.TemplateChangeModeRestart;
     structs.ChangeSignal := ""; structs.ChangeScript := Demo.script0;
     structs.Splay := 0; structs.Perms := ""; structs.Uid := None;
     structs.Gid := None; structs.LeftDelim := "{{"; structs.RightDelim := "}}";
     structs.Envvars := false; structs.ErrMissingKey := false;
     structs.Wait := Some {| structs.Min := Some 10; structs.Max := None |};
     structs.Once := false |}.

End Demo3.

(** * Properties *)

(** ** The definitions at work *)

Example SplitN_two_parts : SplitN_eq_2 "TOKEN=a=b" = ["TOKEN"; "a=b"].
Proof. reflexivity. Qed.

Example SplitN_no_separator : SplitN_eq_2 "TOKEN" = ["TOKEN"].
Proof. reflexivity. Qed.

Example ParseUint_0644 : ParseUint_8_12 "0644" = inr 420.
Proof. reflexivity. Qed.

Example ParseUint_not_octal : ParseUint_8_12 "688" = inl ErrSyntax.
Proof. reflexivity. Qed.

Example ParseUint_too_large : ParseUint_8_12 "17777" = inl ErrRange.
Proof. reflexivity. Qed.

Example Sprintf_unknown_id :
  Sprintf (quote Demo.X) "Template runner returned unknown template id %q" ["x"]
  = "Template runner returned unknown template id " +:+ Demo.dquote +:+ "x"
    +:+ Demo.dquote.
Proof. reflexivity. Qed.

Example mask_host_environment :
  Mask.maskProcessEnv (os_Environ Demo.X) (TaskEnv_All Demo.X ∅)
  = {[ "NOMAD_TASK_NAME" := "web"; "HOME" := ""; "SECRET" := "" ]}.
Proof. reflexivity. Qed.

Example Validate_accepts :
  Validate (Some (Demo.cfg [Demo.restart_now; Demo.signal_hup])) = None.
Proof. reflexivity. Qed.

Example Validate_rejects_zero_rate :
  Validate (Some (Demo.cfg_no_rate [Demo.restart_now]))
  = Some (fmt_Errorf "Invalid max template event rate given" []).
Proof. reflexivity. Qed.

Example build_two_templates :
  (NewTaskTemplateManager Demo.X Demo.nrc
     (Some (Demo.cfg [Demo.restart_now; Demo.signal_hup]))).2 = [NewRunner]
  /\ exists tm,
      (NewTaskTemplateManager Demo.X Demo.nrc
         (Some (Demo.cfg [Demo.restart_now; Demo.signal_hup]))).1 = Ok tm
      /\ signals tm = {[ "SIGHUP" := 1 ]}
      /\ lookup tm = {[ "/alloc/web/a.conf" := [Demo.restart_now];
                        "/alloc/web/b.conf" := [Demo.signal_hup] ]}
      /\ manager.Env <$> runner tm
         = Some {[ "NOMAD_TASK_NAME" := "web"; "HOME" := ""; "SECRET" := "" ]}.
Proof. split; [reflexivity|]. eexists. repeat split. Qed.

(** ** Environment masking *)

Section MaskFacts.

Import Mask.

Lemma cut_entry_key e k v : cut "="%char e = Some (k, v) -> entry_key e = k.
Proof. intros H. unfold entry_key, SplitN_eq_2. by rewrite H. Qed.

Lemma mask_entry_keeps env e k v :
  env !! k = Some v -> mask_entry env e !! k = Some v.
Proof.
  intros Hk. unfold mask_entry.
  destruct (env !! entry_key e) eqn:He; [done|].
  rewrite lookup_insert_ne; [done|]. congruence.
Qed.

Lemma mask_keeps procEnvs : forall env k v,
  env !! k = Some v -> maskProcessEnv procEnvs env !! k = Some v.
Proof.
  unfold maskProcessEnv.
  induction procEnvs as [|e l IH]; intros env k v Hk; simpl; [done|].
  apply IH. by apply mask_entry_keeps.
Qed.

Lemma mask_entry_own env e :
  env !! entry_key e = None -> mask_entry env e !! entry_key e = Some "".
Proof. intros He. unfold mask_entry. rewrite He. apply lookup_insert_eq. Qed.

Lemma mask_entry_cases env e k :
  env !! k = None ->
  mask_entry env e !! k = None \/ mask_entry env e !! k = Some "".
Proof.
  intros Hk. unfold mask_entry.
  destruct (env !! entry_key e) eqn:He; [by left|].
  destruct (decide (entry_key e = k)) as [Heq|Hne].
  - subst k. right. apply lookup_insert_eq.
  - left. by rewrite lookup_insert_ne.
Qed.

Lemma mask_blanks procEnvs : forall env e,
  e ∈ procEnvs -> env !! entry_key e = None ->
  maskProcessEnv procEnvs env !! entry_key e = Some "".
Proof.
  unfold maskProcessEnv.
  induction procEnvs as [|a l IH]; intros env e Hin Hnone; simpl.
  - by apply elem_of_nil in Hin.
  - apply elem_of_cons in Hin as [-> | Hin].
    + apply (mask_keeps l). by apply mask_entry_own.
    + destruct (mask_entry_cases env a _ Hnone) as [Hn|Hs].
      * by apply IH.
      * by apply (mask_keeps l).
Qed.

Lemma mask_only_blanks procEnvs : forall env k v,
  maskProcessEnv procEnvs env !! k = Some v -> env !! k = Some v \/ v = "".
Proof.
  unfold maskProcessEnv.
  induction procEnvs as [|a l IH]; intros env k v Hk; simpl in *; [by left|].
  destruct (IH _ _ _ Hk) as [Hm| ->]; [|by right].
  unfold mask_entry in Hm. destruct (env !! entry_key a) eqn:Ha; [by left|].
  destruct (decide (entry_key a = k)) as [Heq|Hne].
  - subst k. rewrite lookup_insert_eq in Hm. right. congruence.
  - rewrite lookup_insert_ne in Hm by done. by left.
Qed.

Lemma Getenv_unmasked procEnvs env k :
  maskProcessEnv procEnvs env !! k = None -> os_Getenv procEnvs k = "".
Proof.
  intros Hnone. unfold os_Getenv. destruct (decide (k = "")); [done|].
  destruct (List.find _ procEnvs) as [e|] eqn:Hfind; [|done].
  apply List.find_some in Hfind as [Hin Hkey].
  destruct (cut "="%char e) as [[k' v]|] eqn:Hcut; [|done].
  apply bool_decide_eq_true in Hkey. subst k'.
  apply cut_entry_key in Hcut. apply list_elem_of_In in Hin.
  destruct (env !! k) eqn:Henv.
  - by rewrite (mask_keeps procEnvs _ _ _ Henv) in Hnone.
  - subst k. by rewrite (mask_blanks procEnvs env e Hin Henv) in Hnone.
Qed.

Lemma engine_env_masked procEnvs env k :
  env !! k = None -> engine_env (maskProcessEnv procEnvs env) procEnvs k = "".
Proof.
  intros Henv. unfold engine_env.
  destruct (maskProcessEnv procEnvs env !! k) as [v|] eqn:Hm.
  - destruct (mask_only_blanks _ _ _ _ Hm) as [?|?]; [congruence|done].
  - by apply (Getenv_unmasked procEnvs env).
Qed.

End MaskFacts.

Lemma templateRunner_Env X nrc c r lk calls :
  templateRunner X nrc c = (Ok (Some r, lk), calls) ->
  exists tenv, EnvBuilder c = Some tenv
    /\ manager.Env r = Mask.maskProcessEnv (os_Environ X) (TaskEnv_All X tenv).
Proof.
  unfold templateRunner. intros H.
  destruct (Templates c); [congruence|].
  destruct (parseTemplateConfigs X c); try congruence.
  destruct (nrc c _); [congruence|].
  destruct (manager_NewRunner X _); [congruence|].
  destruct (EnvBuilder c) as [tenv|]; [|congruence].
  exists tenv. split; [done|]. by simplify_eq.
Qed.

Lemma templateRunner_builds X nrc c m idMap tenv :
  Templates c <> [] ->
  parseTemplateConfigs X c = Ok m ->
  nrc c m.*1 = None ->
  manager_NewRunner X m.*1 = inr idMap ->
  EnvBuilder c = Some tenv ->
  templateRunner X nrc c
  = (Ok (Some {| manager.Env :=
                   Mask.maskProcessEnv (os_Environ X) (TaskEnv_All X tenv);
                 manager.TemplateConfigMapping := idMap |},
         build_lookup m idMap), [NewRunner]).
Proof.
  intros Hne Hp Hn Hr He. unfold templateRunner. rewrite Hp, Hn, Hr, He.
  by destruct (Templates c).
Qed.

(** C2.  The environment handed to the engine is the task environment
    masked by [maskProcessEnv]: every variable of the task keeps its task
    value, every variable of the process environment that the task does not
    define is mapped to the empty string, and a template that asks for a
    variable the task does not define reads the empty string, whatever the
    process environment holds.  An engine that [templateRunner] returns has
    this map as its environment; and [templateRunner] does return an engine
    with it, after one call that creates the engine, whenever there are
    templates, they translate, the engine configuration is built and the
    engine is created (and so does the constructor, for a configuration that
    passes [Validate] and whose signals parse). *)
Theorem engine_env_is_masked_task_env :
  (forall (procEnvs : list string) (env : gmap string string),
      (forall k v, env !! k = Some v ->
                   Mask.maskProcessEnv procEnvs env !! k = Some v)
      /\ (forall e, e ∈ procEnvs -> env !! Mask.entry_key e = None ->
                    Mask.maskProcessEnv procEnvs env !! Mask.entry_key e = Some "")
      /\ (forall k, env !! k = None ->
                    Mask.engine_env (Mask.maskProcessEnv procEnvs env) procEnvs k = ""))
  /\ (forall X nrc c r lk calls,
         templateRunner X nrc c = (Ok (Some r, lk), calls) ->
         exists tenv, EnvBuilder c = Some tenv
           /\ manager.Env r
              = Mask.maskProcessEnv (os_Environ X) (TaskEnv_All X tenv))
  /\ (forall X nrc c m idMap tenv,
         Templates c <> [] ->
         parseTemplateConfigs X c = Ok m ->
         nrc c m.*1 = None ->
         manager_NewRunner X m.*1 = inr idMap ->
         EnvBuilder c = Some tenv ->
         templateRunner X nrc c
         = (Ok (Some {| manager.Env :=
                          Mask.maskProcessEnv (os_Environ X) (TaskEnv_All X tenv);
                        manager.TemplateConfigMapping := idMap |},
                build_lookup m idMap), [NewRunner])
         /\ forall table,
              Validate (Some c) = None ->
              parse_signals X (Templates c) ∅ = inr table ->
              NewTaskTemplateManager X nrc (Some c)
              = (Ok {| config_ := c; lookup := build_lookup m idMap;
                       runner :=
                         Some {| manager.Env :=
                                   Mask.maskProcessEnv (os_Environ X)
                                     (TaskEnv_All X tenv);
                                 manager.TemplateConfigMapping := idMap |};
                       signals := table; shutdown := false |}, [NewRunner])).
Proof.
  split; [|split].
  - intros procEnvs env. split; [|split].
    + apply mask_keeps.
    + apply mask_blanks.
    + intros k. apply engine_env_masked.
  - apply templateRunner_Env.
  - intros X nrc c m idMap tenv Hne Hp Hn Hr He.
    pose proof (templateRunner_builds X nrc c m idMap tenv Hne Hp Hn Hr He) as Ht.
    split; [exact Ht|]. intros table Hv Hs.
    unfold NewTaskTemplateManager. by rewrite Hv, Hs, Ht.
Qed.

(** The manager built for one template, with the engine configuration of
    [newRunnerConfig], in a process whose environment holds [HOME],
    [SECRET] and [NOMAD_TASK_NAME]: the engine gets the name of the task as
    the task defines it, and the two other variables blanked. *)
Lemma engine_env_is_masked_task_env_witness :
  os_Environ Demo.X = ["HOME=/root"; "SECRET=hunter2"; "NOMAD_TASK_NAME=host"]
  /\ exists tm,
       NewTaskTemplateManager Demo.X
         (newRunnerConfig_error Demo3.Y (Demo3.cred "user:pass" false "")
            (Demo3.settings None))
         (Some (Demo.cfg [Demo.restart_now]))
       = (Ok tm, [NewRunner])
       /\ (manager.Env <$> runner tm)
          = Some {[ "NOMAD_TASK_NAME" := "web"; "HOME" := ""; "SECRET" := "" ]}.
Proof.
  split; [reflexivity|].
  destruct engine_env_is_masked_task_env as (_ & _ & Hbuilt).
  destruct (parseTemplateConfigs Demo.X (Demo.cfg [Demo.restart_now]))
    as [m| |] eqn:Ep; [|vm_compute in Ep; discriminate..].
  destruct (manager_NewRunner Demo.X m.*1) as [e|idMap] eqn:Er;
    [vm_compute in Er; discriminate|].
  destruct (Hbuilt Demo.X
              (newRunnerConfig_error Demo3.Y (Demo3.cred "user:pass" false "")
                 (Demo3.settings None))
              (Demo.cfg [Demo.restart_now]) m idMap ∅)
    as [_ Hnew]; [discriminate|exact Ep| |exact Er|reflexivity|].
  { vm_compute in Ep. injection Ep as <-. vm_compute. reflexivity. }
  eexists. split; [apply (Hnew ∅); reflexivity|]. vm_compute. reflexivity.
Defined.

(** ** Stop *)

Lemma Stop_noop tm : shutdown tm = true -> Stop tm = (tm, []).
Proof. intros H. unfold Stop. by rewrite H. Qed.

Lemma Stop_times_noop n : forall tm,
  shutdown tm = true -> Stop_times n tm = (tm, []).
Proof.
  induction n as [|n IH]; intros tm H; simpl; [done|].
  rewrite (Stop_noop tm H), (IH tm H). done.
Qed.

Lemma Stop_first tm :
  shutdown tm = false ->
  shutdown (Stop tm).1 = true
  /\ runner (Stop tm).1 = runner tm
  /\ (Stop tm).2 = CloseShutdownCh :: match runner tm with
                                      | Some _ => [RunnerStop]
                                      | None => []
                                      end.
Proof. intros H. unfold Stop. rewrite H. simpl. done. Qed.

Lemma Stop_times_calls n tm :
  shutdown tm = false -> (1 <= n)%nat ->
  (Stop_times n tm).2 = (Stop tm).2 /\ shutdown (Stop_times n tm).1 = true.
Proof.
  intros Hs Hn. destruct n as [|n]; [lia|]. simpl.
  destruct (Stop_first tm Hs) as (Hsh & _ & _).
  destruct (Stop tm) as [tm1 calls1] eqn:E. simpl in *.
  rewrite (Stop_times_noop n tm1 Hsh). simpl. by rewrite app_nil_r.
Qed.

(** C8, as amended.  [n >= 1] calls of [Stop] on a manager that has not
    been stopped close the shutdown channel exactly once, and stop the
    engine exactly once when the manager has an engine and never when it has
    none (a manager built without templates); every call after the first
    does nothing. *)
Theorem Stop_idempotent (n : nat) (tm : TaskTemplateManager) :
  shutdown tm = false -> (1 <= n)%nat ->
  count_calls is_CloseShutdownCh (Stop_times n tm).2 = 1%nat
  /\ count_calls is_RunnerStop (Stop_times n tm).2
     = match runner tm with Some _ => 1%nat | None => 0%nat end
  /\ (Stop_times n tm).2 = (Stop tm).2
  /\ forall m, Stop_times m (Stop_times n tm).1 = ((Stop_times n tm).1, []).
Proof.
  intros Hs Hn. destruct (Stop_times_calls n tm Hs Hn) as [Hc Hsh].
  destruct (Stop_first tm Hs) as (_ & _ & Hfirst).
  rewrite Hc, Hfirst. repeat split.
  - unfold count_calls. simpl. by destruct (runner tm).
  - unfold count_calls. simpl. by destruct (runner tm).
  - intros m. by apply Stop_times_noop.
Qed.

(** Four calls of [Stop] on a manager with an engine. *)
Lemma Stop_idempotent_witness :
  shutdown (Demo.tm_of [] ∅ (Some {| manager.Env := ∅;
                                     manager.TemplateConfigMapping := [] |})) = false
  /\ (1 <= 4)%nat
  /\ count_calls is_RunnerStop
       (Stop_times 4 (Demo.tm_of [] ∅ (Some {| manager.Env := ∅;
                                               manager.TemplateConfigMapping := [] |}))).2
     = 1%nat.
Proof.
  split; [reflexivity|]. split; [lia|].
  apply (Stop_idempotent 4
           (Demo.tm_of [] ∅ (Some {| manager.Env := ∅;
                                     manager.TemplateConfigMapping := [] |})));
    [reflexivity | lia].
Defined.

(** C8 fails as stated: a manager built for a task without templates has no
    engine, and stopping it three times stops no engine. *)
Lemma Stop_without_engine :
  (NewTaskTemplateManager Demo.X Demo.nrc (Some (Demo.cfg []))).1
    = Ok Demo.tm_without_templates
  /\ shutdown Demo.tm_without_templates = false
  /\ count_calls is_CloseShutdownCh (Stop_times 3 Demo.tm_without_templates).2 = 1%nat
  /\ count_calls is_RunnerStop (Stop_times 3 Demo.tm_without_templates).2 = 0%nat.
Proof. repeat split. Qed.

(** ** Construction *)

Section ConstructionFacts.

Variable X : Outside.
Variable nrc : TaskTemplateManagerConfig -> list ctconf.TemplateConfig -> option Error.

(** *** The signal table *)


Lemma parse_signals_fails : forall ts table tmpl,
  tmpl ∈ ts -> structs.ChangeSignal tmpl <> "" ->
  signals_Parse X (structs.ChangeSignal tmpl) = None ->
  exists tmpl', tmpl' ∈ ts /\ structs.ChangeSignal tmpl' <> ""
    /\ signals_Parse X (structs.ChangeSignal tmpl') = None
    /\ parse_signals X ts table
       = inl (fmt_Errorf "Failed to parse signal %q" [structs.ChangeSignal tmpl']).
Proof.
  induction ts as [|t ts IH]; intros table tmpl Hin Hne Hbad.
  - by apply elem_of_nil in Hin.
  - simpl. destruct (decide (structs.ChangeSignal t = "")) as [He|He].
    + apply elem_of_cons in Hin as [Heq|Hin]; [congruence|].
      destruct (IH table tmpl Hin Hne Hbad) as (t' & ? & ? & ? & ?).
      exists t'. repeat split; try done. by apply elem_of_cons; right.
    + destruct (signals_Parse X (structs.ChangeSignal t)) as [sig|] eqn:Hp.
      * apply elem_of_cons in Hin as [Heq|Hin]; [congruence|].
        destruct (IH (<[structs.ChangeSignal t := sig]> table) tmpl Hin Hne Hbad)
          as (t' & ? & ? & ? & ?).
        exists t'. repeat split; try done. by apply elem_of_cons; right.
      * exists t. repeat split; try done. by apply elem_of_cons; left.
Qed.





End ConstructionFacts.



(** *** The sandbox check *)

Section SandboxFacts.

Variable X : Outside.
Variable nrc : TaskTemplateManagerConfig -> list ctconf.TemplateConfig -> option Error.









End SandboxFacts.



(** ** Formatting facts *)

Lemma append_empty_r (s : string) : s +:+ "" = s.
Proof.
  induction s as [|a s IH]; [reflexivity|].
  change (String a (s +:+ "") = String a s). by f_equal.
Qed.

Lemma Sprintf_Missing q (x : string) :
  Sprintf q "Missing: %s" [x] = "Missing: " +:+ x.
Proof. simpl. rewrite append_empty_r. reflexivity. Qed.

Lemma Sprintf_and_more q (n : string) :
  Sprintf q "and %d more" [n] = "and " +:+ n +:+ " more".
Proof. reflexivity. Qed.

Lemma Sprintf_Template_failed q (err : string) :
  Sprintf q "Template failed: %v" [err] = "Template failed: " +:+ err.
Proof. simpl. rewrite append_empty_r. reflexivity. Qed.

(** ** Sorting *)

Lemma sort_Strings_Sorted l : Sorted String.le (sort_Strings l).
Proof. apply Sorted_merge_sort. apply _. Qed.

Lemma sort_Strings_Permutation l : sort_Strings l ≡ₚ l.
Proof. apply merge_sort_Permutation. Qed.

Lemma sort_Strings_order l1 l2 : l1 ≡ₚ l2 -> sort_Strings l1 = sort_Strings l2.
Proof.
  intros Hp. apply (Sorted_unique String.le).
  - apply sort_Strings_Sorted.
  - apply sort_Strings_Sorted.
  - by rewrite !sort_Strings_Permutation.
Qed.

(** ** The first-render gate: missing dependencies *)

Section GateFacts.

Variable X : Outside.
Variable tm : TaskTemplateManager.

Lemma missing_slice_shown (keys : list string) :
  missing_slice X keys
  = if bool_decide (3 < length keys)%nat then
      (take 3 (sort_Strings keys)
       ++ ["and " +:+ pretty (length keys - 3)%nat +:+ " more"])%list
    else sort_Strings keys.
Proof.
  unfold missing_slice, missingDepEventLimit.
  assert (Hlen : length (sort_Strings keys) = length keys).
  { by rewrite sort_Strings_Permutation. }
  rewrite Hlen. case_bool_decide as Hl; [|done].
  rewrite Sprintf_and_more.
  destruct (sort_Strings keys) as [|a [|b [|c [|d rest]]]]; simpl in Hlen; try lia.
  reflexivity.
Qed.

(** C5.  At a timer tick with a missing-dependency set [S] that is not nil,
    the gate emits exactly one event, of source [Template], whose message is
    [Missing: ] followed by the names joined by [, ]: all of them in
    ascending order when there are at most three, and otherwise the first
    three in ascending order followed by [and (L-3) more]; the loop goes on
    with the outstanding flag cleared. *)
Theorem missing_dependencies_event
    (keys_of : gset string -> list string) (st : GateState) (S : gset string) :
  missingDependencies st = Some S ->
  keys_of S ≡ₚ elements S ->
  let sorted := sort_Strings (elements S) in
  let shown :=
    if bool_decide (3 < size S)%nat then
      (take 3 sorted ++ ["and " +:+ pretty (size S - 3)%nat +:+ " more"])%list
    else sorted in
  Sorted String.le sorted
  /\ sorted ≡ₚ elements S
  /\ exists st',
      gate_step X tm keys_of st GTimer
      = (st',
         [EmitEvent {| structs.Type_ := structs.TaskEventOf "Template";
                       structs.FailsTask := false;
                       structs.TaskSignal := None;
                       structs.DisplayMessage := "Missing: " +:+ Join shown ", " |}],
         false)
      /\ outstandingEvent st' = false
      /\ missingDependencies st' = Some S.
Proof.
  intros Hm Hk sorted shown.
  split; [apply sort_Strings_Sorted|]. split; [apply sort_Strings_Permutation|].
  exists {| missingDependencies := Some S; timer_armed := false;
            dirtyEvents := dirtyEvents st; outstandingEvent := false;
            gate_env := gate_env st |}.
  split; [|done].
  unfold gate_step. rewrite Hm. f_equal. f_equal. f_equal. f_equal.
  unfold missing_event. rewrite Sprintf_Missing, missing_slice_shown.
  unfold structs.SetDisplayMessage, structs.NewTaskEvent, consulTemplateSourceName.
  simpl. f_equal. f_equal.
  assert (Hlen : length (keys_of S) = size S).
  { rewrite Hk. reflexivity. }
  rewrite Hlen. unfold shown, sorted.
  by rewrite (sort_Strings_order _ _ Hk).
Qed.

(** ** Engine errors *)

Lemma template_failed_event (err : string) :
  template_failed X err
  = {| structs.Type_ := structs.TaskKilling; structs.FailsTask := true;
       structs.TaskSignal := None;
       structs.DisplayMessage := "Template failed: " +:+ err |}.
Proof.
  unfold template_failed, killing. rewrite Sprintf_Template_failed. reflexivity.
Qed.

Lemma gate_loop_errors keys_of (errs : list string) : forall st,
  gate_loop X tm keys_of st ((fun e => GErr (Some e)) <$> errs)
  = (st, (fun e => Kill (template_failed X e)) <$> errs, false).
Proof.
  induction errs as [|e errs IH]; intros st; simpl; [done|].
  by rewrite IH.
Qed.

Lemma rerender_loop_errors art (errs : list string) : forall st,
  rerender_loop X tm art st ((fun e => RErr (Some e)) <$> errs)
  = (st, (fun e => Kill (template_failed X e)) <$> errs, false).
Proof.
  induction errs as [|e errs IH]; intros st; simpl; [done|].
  by rewrite IH.
Qed.

Lemma mark_dirty_all_rendered events : forall dirty,
  (mark_dirty events dirty).2
  = forallb (fun p => negb (IsZero (manager.LastWouldRender p.2))) events.
Proof.
  induction events as [|[id e] rest IH]; intros dirty; simpl; [done|].
  destruct (IsZero (manager.LastWouldRender e)); simpl; [done|].
  destruct (IsZero (manager.LastDidRender e)); simpl; apply IH.
Qed.

Lemma gate_step_rendered keys_of st events isRunning w :
  (gate_step X tm keys_of st (GTemplateRendered events isRunning w)).2
  = negb (bool_decide (length events < size (lookup tm))%nat)
    && forallb (fun p => negb (IsZero (manager.LastWouldRender p.2))) events.
Proof.
  simpl. destruct (bool_decide (length events < size (lookup tm))%nat); simpl; [done|].
  rewrite <- (mark_dirty_all_rendered events (dirtyEvents st)).
  destruct (mark_dirty events (dirtyEvents st)) as [dirty all_rendered]. simpl.
  destruct all_rendered; simpl; [|done].
  destruct (negb (bool_decide (size dirty = 0%nat)) && isRunning); [|done].
  by destruct (onTemplateRendered X tm w _ 0 (range_events keys_of dirty))
    as [[d calls] o].
Qed.

Lemma gate_step_left keys_of st i :
  (gate_step X tm keys_of st i).2 = true <-> is_gate_exit tm i.
Proof.
  destruct i as [|[e|]|events isRunning w|events|].
  - done.
  - done.
  - done.
  - rewrite gate_step_rendered, andb_true_iff, negb_true_iff, bool_decide_eq_false,
      forallb_forall. simpl.
    split; intros [H1 H2]; (split; [lia|]).
    + intros id e Hin. apply list_elem_of_In in Hin. specialize (H2 _ Hin). simpl in H2.
      unfold IsZero in H2. apply negb_true_iff, Z.eqb_neq in H2. done.
    + intros [id e] Hin. apply list_elem_of_In in Hin. simpl.
      apply negb_true_iff, Z.eqb_neq. by apply (H2 id).
  - simpl. by destruct (negb _).
  - simpl. by destruct (missingDependencies st).
Qed.

Lemma gate_loop_left keys_of inputs : forall st,
  (gate_loop X tm keys_of st inputs).2 = true <->
  exists i, i ∈ inputs /\ is_gate_exit tm i.
Proof.
  induction inputs as [|i inputs IH]; intros st; simpl.
  - split; [done|]. intros (i & Hi & _). by apply elem_of_nil in Hi.
  - pose proof (gate_step_left keys_of st i) as Hexit.
    destruct (gate_step X tm keys_of st i) as [[st1 calls1] returned] eqn:Hs.
    simpl in Hexit. destruct returned.
    + simpl. split; [|done]. intros _. exists i.
      split; [by apply elem_of_cons; left|by apply Hexit].
    + destruct (gate_loop X tm keys_of st1 inputs) as [[st2 calls2] r] eqn:Hl.
      simpl. specialize (IH st1). rewrite Hl in IH. simpl in IH. rewrite IH.
      split.
      * intros (j & Hj & He). exists j. split; [by apply elem_of_cons; right|done].
      * intros (j & Hj & He). apply elem_of_cons in Hj as [Heq|Hj].
        -- subst j. apply Hexit in He. done.
        -- by exists j.
Qed.

Lemma rerender_step_left art st i :
  (rerender_step X tm art st i).2 = true
  <-> is_rerender_exit i \/ rerender_panics X tm art st i = true.
Proof.
  destruct i as [| |[e|]|events w]; simpl.
  - split; [by left|done].
  - split; [by left|done].
  - split; [done|by intros [?|?]].
  - split; [done|by intros [?|?]].
  - destruct (onTemplateRendered X tm w st art events) as [[st' calls] o]. simpl.
    split; [by right|by intros [?|?]].
Qed.

Lemma rerender_loop_left art inputs : forall st,
  (rerender_loop X tm art st inputs).2 = true
  <-> (exists i, i ∈ inputs /\ is_rerender_exit i)
      \/ (rerender_reach X tm art st inputs).2 = true.
Proof.
  induction inputs as [|i inputs IH]; intros st; simpl.
  - split; [done|]. intros [(i & Hi & _)|?]; [by apply elem_of_nil in Hi|done].
  - pose proof (rerender_step_left art st i) as Hleft.
    destruct (rerender_step X tm art st i) as [[st1 calls1] returned] eqn:Hs.
    simpl in Hleft.
    destruct (rerender_panics X tm art st i) eqn:Hp.
    + assert (returned = true) as -> by (apply Hleft; by right).
      simpl. split; [by right|done].
    + destruct returned.
      * simpl. split; [|done]. intros _. left. exists i.
        split; [by apply elem_of_cons; left|].
        by destruct (proj1 Hleft eq_refl).
      * destruct (rerender_loop X tm art st1 inputs) as [[st2 calls2] r] eqn:Hl.
        specialize (IH st1). rewrite Hl in IH.
        destruct (rerender_reach X tm art st1 inputs) as [reached panicked] eqn:Hr.
        simpl in *. rewrite IH. split.
        -- intros [(j & Hj & He)|?]; [left|by right].
           exists j. split; [by apply elem_of_cons; right|done].
        -- intros [(j & Hj & He)|?]; [|by right].
           apply elem_of_cons in Hj as [Heq|Hj].
           ++ subst j. assert (false = true) as Habs by (apply Hleft; by left).
              discriminate Habs.
           ++ left. by exists j.
Qed.

(** C7, as amended.  On an error received from the engine, the first-render
    gate and the steady-state loop both call [Kill] with a [TaskKilling]
    event that fails the task and carries the error text, and go on with
    the next pass of the loop.  Errors alone never end either loop: over
    any sequence of errors the loop makes one such [Kill] per error and is
    still waiting.  The gate is left exactly when it receives the shutdown
    channel or a "template rendered" notification that reports all
    templates rendered, whether or not an error came before.  The
    steady-state loop is left exactly when it receives the shutdown or the
    done channel, or when a call of [onTemplateRendered] panics. *)
Theorem engine_error_kills_and_loops :
  (forall keys_of st err,
      gate_step X tm keys_of st (GErr (Some err))
      = (st,
         [Kill {| structs.Type_ := structs.TaskKilling; structs.FailsTask := true;
                  structs.TaskSignal := None;
                  structs.DisplayMessage := "Template failed: " +:+ err |}],
         false))
  /\ (forall art st err,
        rerender_step X tm art st (RErr (Some err))
        = (st,
           [Kill {| structs.Type_ := structs.TaskKilling; structs.FailsTask := true;
                    structs.TaskSignal := None;
                    structs.DisplayMessage := "Template failed: " +:+ err |}],
           false))
  /\ (forall keys_of st errs,
        gate_loop X tm keys_of st ((fun e => GErr (Some e)) <$> errs)
        = (st, (fun e => Kill (template_failed X e)) <$> errs, false))
  /\ (forall art st errs,
        rerender_loop X tm art st ((fun e => RErr (Some e)) <$> errs)
        = (st, (fun e => Kill (template_failed X e)) <$> errs, false))
  /\ (forall keys_of st inputs,
        (gate_loop X tm keys_of st inputs).2 = true <->
        exists i, i ∈ inputs
          /\ (i = GShutdown
              \/ exists events isRunning w,
                   i = GTemplateRendered events isRunning w
                   /\ (size (lookup tm) <= length events)%nat
                   /\ forall id e, (id, e) ∈ events ->
                                   manager.LastWouldRender e <> 0))
  /\ (forall art st inputs,
        (rerender_loop X tm art st inputs).2 = true <->
        (exists i, i ∈ inputs /\ (i = RShutdown \/ i = RDone))
        \/ (rerender_reach X tm art st inputs).2 = true).
Proof.
  split; [|split; [|split; [|split; [|split]]]].
  - intros. simpl. by rewrite template_failed_event.
  - intros. simpl. by rewrite template_failed_event.
  - intros. apply gate_loop_errors.
  - intros. apply rerender_loop_errors.
  - intros. rewrite gate_loop_left. split.
    + intros (i & Hi & He). exists i. split; [done|].
      destruct i as [|err|events isRunning w|events|]; try done; [by left|].
      right. by exists events, isRunning, w.
    + intros (i & Hi & [-> | (events & isRunning & w & -> & He)]);
        eexists; (split; [exact Hi|done]).
  - intros. rewrite rerender_loop_left. split.
    + intros [(i & Hi & He)|?]; [left|by right]. exists i. split; [done|].
      destruct i; try done; [by left|by right].
    + intros [(i & Hi & [-> | ->])|?]; [left|left|by right];
        eexists; (split; [exact Hi|done]).
Qed.

End GateFacts.

(** Five missing dependencies, yielded in reverse order. *)
Lemma missing_dependencies_event_witness :
  missingDependencies Demo.gate_blocked = Some Demo.five_missing
  /\ reverse (elements Demo.five_missing) ≡ₚ elements Demo.five_missing
  /\ (gate_step Demo.X Demo.tm_without_templates (fun S => reverse (elements S))
        Demo.gate_blocked GTimer).1.2
     = [EmitEvent {| structs.Type_ := structs.TaskEventOf "Template";
                     structs.FailsTask := false;
                     structs.TaskSignal := None;
                     structs.DisplayMessage := "Missing: a, b, c, and 2 more" |}].
Proof.
  split; [reflexivity|]. split; [apply reverse_Permutation|].
  destruct (missing_dependencies_event Demo.X Demo.tm_without_templates
              (fun S => reverse (elements S)) Demo.gate_blocked Demo.five_missing
              eq_refl (reverse_Permutation _))
    as (_ & _ & st' & Hstep & _).
  rewrite Hstep. vm_compute. reflexivity.
Defined.

(** C7 fails as stated for the gate: after an engine error, and without
    any shutdown, a "template rendered" notification that reports both
    templates rendered ends the gate, and [Run] goes on to unblock the
    task. *)
Lemma gate_released_after_error :
  Forall (fun i => i <> GShutdown)
    [GErr (Some "boom");
     GTemplateRendered [("a", Demo.event "a" 3); ("b", Demo.event "b" 4)] false
       (Demo.world 0 false)]
  /\ handleFirstRender Demo.X Demo.tm_restart_signal (fun s => elements s) ∅
       [GErr (Some "boom");
        GTemplateRendered [("a", Demo.event "a" 3); ("b", Demo.event "b" 4)] false
          (Demo.world 0 false)]
     = ({| missingDependencies := None; timer_armed := false;
           dirtyEvents := {[ "a" := Demo.event "a" 3; "b" := Demo.event "b" 4 ]};
           outstandingEvent := false; gate_env := ∅ |},
        [Kill (template_failed Demo.X "boom")], true)
  /\ Run Demo.X Demo.tm_restart_signal (fun s => elements s) ∅
       [GErr (Some "boom");
        GTemplateRendered [("a", Demo.event "a" 3); ("b", Demo.event "b" 4)] false
          (Demo.world 0 false)]
       false (Demo.world 0 false) 10 []
     = ([RunnerStart; Kill (template_failed Demo.X "boom"); CloseUnblockCh], Waiting).
Proof.
  split; [by repeat constructor|]. split; vm_compute; reflexivity.
Qed.

(** ** The dispatcher *)

Section DispatcherFacts.

Variable X : Outside.
Variable tm : TaskTemplateManager.

(** *** Classification of the templates of one event *)

Lemma classify_one_set_handling ids b t :
  classify_one (set_handling ids b) t = set_handling ids (classify_one b t).
Proof.
  unfold classify_one, raise_splay, set_handling.
  destruct (structs.ChangeMode t); simpl; try done;
    by destruct (splay b <? structs.Splay t).
Qed.

Lemma classify_handling ts : forall ids b,
  classify ts (set_handling ids b) = set_handling ids (classify ts b).
Proof.
  unfold classify. induction ts as [|t ts IH]; intros ids b; simpl; [done|].
  by rewrite classify_one_set_handling, IH.
Qed.

Lemma add_handling_set id b :
  add_handling id b = set_handling (handling b ++ [id]) b.
Proof. done. Qed.

Lemma set_handling_twice ids ids' b :
  set_handling ids (set_handling ids' b) = set_handling ids b.
Proof. done. Qed.

Lemma set_handling_self b : set_handling (handling b) b = b.
Proof. by destruct b. Qed.

Lemma classify_keeps_handling ts : forall b, handling (classify ts b) = handling b.
Proof.
  unfold classify. induction ts as [|t ts IH]; intros b; simpl; [done|].
  rewrite IH. unfold classify_one, raise_splay.
  destruct (structs.ChangeMode t); simpl; try done;
    by destruct (_ <? _).
Qed.

Lemma classify_app ts1 ts2 b :
  classify (ts1 ++ ts2) b = classify ts2 (classify ts1 b).
Proof. unfold classify. apply foldl_app. Qed.

Lemma classify_one_restart b t :
  restart (classify_one b t) = restart b || is_restart t.
Proof.
  unfold classify_one, raise_splay, is_restart.
  destruct (structs.ChangeMode t); simpl;
    try (destruct (_ <? _); simpl); by rewrite ?orb_false_r, ?orb_true_r.
Qed.

Lemma classify_restart ts : forall b,
  restart (classify ts b) = restart b || existsb is_restart ts.
Proof.
  unfold classify. induction ts as [|t ts IH]; intros b; simpl.
  - by rewrite orb_false_r.
  - by rewrite IH, classify_one_restart, orb_assoc.
Qed.

Lemma classify_one_splay b t :
  splay (classify_one b t)
  = if is_noop t then splay b else Z.max (splay b) (structs.Splay t).
Proof.
  unfold classify_one, raise_splay, is_noop.
  destruct (structs.ChangeMode t); simpl; try done;
    (destruct (splay b <? structs.Splay t) eqn:E; simpl;
     [apply Z.ltb_lt in E | apply Z.ltb_ge in E]; lia).
Qed.

Lemma classify_splay ts : forall b,
  splay (classify ts b) = max_splay_from (splay b) (actionable ts).
Proof.
  unfold classify, max_splay_from, actionable.
  induction ts as [|t ts IH]; intros b; simpl; [done|].
  rewrite IH, classify_one_splay. by destruct (is_noop t).
Qed.

Lemma size_singleton_union (x : string) (s : gset string) :
  size ({[x]} ∪ s) <> 0%nat.
Proof.
  intros H. apply size_empty_inv in H. set_solver.
Qed.

Lemma classify_one_shouldHandle b t :
  shouldHandle (classify_one b t) = shouldHandle b || negb (is_noop t).
Proof.
  unfold classify_one, raise_splay, is_noop, shouldHandle.
  destruct (structs.ChangeMode t); simpl.
  - by rewrite orb_false_r.
  - assert (Hs : bool_decide (size ({[structs.ChangeSignal t]} ∪ signal_set b) = 0%nat)
                 = false).
    { apply bool_decide_eq_false. apply size_singleton_union. }
    destruct (_ <? _); simpl; rewrite Hs; simpl;
      by rewrite ?orb_true_r.
  - destruct (_ <? _); simpl; by rewrite ?orb_true_r.
  - assert (Hs : bool_decide (length (scripts b ++ [structs.ChangeScript t]) = 0%nat)
                 = false).
    { apply bool_decide_eq_false. rewrite length_app. simpl. lia. }
    destruct (_ <? _); simpl; rewrite Hs; simpl;
      by rewrite ?orb_true_r.
Qed.

Lemma classify_shouldHandle ts : forall b,
  shouldHandle (classify ts b)
  = shouldHandle b || existsb (fun t => negb (is_noop t)) ts.
Proof.
  unfold classify. induction ts as [|t ts IH]; intros b; simpl.
  - by rewrite orb_false_r.
  - by rewrite IH, classify_one_shouldHandle, orb_assoc.
Qed.

Lemma shouldHandle_set_handling ids b :
  shouldHandle (set_handling ids b) = shouldHandle b.
Proof. done. Qed.

Lemma max_splay_from_ge start ts : start <= max_splay_from start ts.
Proof.
  unfold max_splay_from. revert start.
  induction ts as [|t ts IH]; intros start; simpl; [lia|].
  specialize (IH (Z.max start (structs.Splay t))). lia.
Qed.

(** *** The loop over the events *)

Lemma eligible_ids_cons art h id e rest :
  eligible_ids art h ((id, e) :: rest)
  = (if eligible art h id e then [id] else []) ++ eligible_ids art h rest.
Proof. unfold eligible_ids. simpl. by destruct (eligible art h id e). Qed.

Lemma dirty_templates_cons art h id e rest :
  dirty_templates tm art h ((id, e) :: rest)
  = (if eligible art h id e then default [] (lookup tm !! id) else [])
    ++ dirty_templates tm art h rest.
Proof. done. Qed.

Lemma gate_writes_cons art h id e rest :
  gate_writes art ((id, e) :: rest) h
  = gate_writes art rest (if first_time art e then <[id := art]> h else h).
Proof. done. Qed.

Lemma eligible_insert_other art h id id' t e :
  id <> id' -> eligible art (<[id := t]> h) id' e = eligible art h id' e.
Proof.
  intros Hne. unfold eligible, already_handled. by rewrite lookup_insert_ne.
Qed.

Lemma eligible_ids_fresh art h id t events :
  id ∉ events.*1 ->
  eligible_ids art (<[id := t]> h) events = eligible_ids art h events.
Proof.
  induction events as [|[id' e] rest IH]; intros Hnin; [done|].
  rewrite !eligible_ids_cons. simpl in Hnin.
  apply not_elem_of_cons in Hnin as [Hne Hnin].
  by rewrite eligible_insert_other, IH.
Qed.

Lemma dirty_templates_fresh art h id t events :
  id ∉ events.*1 ->
  dirty_templates tm art (<[id := t]> h) events = dirty_templates tm art h events.
Proof.
  induction events as [|[id' e] rest IH]; intros Hnin; [done|].
  rewrite !dirty_templates_cons. simpl in Hnin.
  apply not_elem_of_cons in Hnin as [Hne Hnin].
  by rewrite eligible_insert_other, IH.
Qed.

Lemma scan_Scanned w art events : forall h tenv b h' tenv' b',
  NoDup events.*1 ->
  scan X tm w art events h tenv b = Scanned h' tenv' b' ->
  h' = gate_writes art events h
  /\ b' = set_handling (handling b ++ eligible_ids art h events)
            (classify (dirty_templates tm art h events) b).
Proof.
  induction events as [|[id e] rest IH]; intros h tenv b h' tenv' b' Hnd Hscan.
  - simpl in Hscan. simplify_eq. split; [done|].
    unfold eligible_ids, dirty_templates, classify. simpl.
    by rewrite app_nil_r, set_handling_self.
  - simpl in Hnd. apply NoDup_cons in Hnd as [Hnin Hnd].
    rewrite gate_writes_cons, eligible_ids_cons, dirty_templates_cons.
    simpl in Hscan. unfold eligible.
    destruct (first_time art e) eqn:Hft; simpl.
    + destruct (IH _ _ _ _ _ _ Hnd Hscan) as [-> ->].
      by rewrite eligible_ids_fresh, dirty_templates_fresh.
    + destruct (already_handled h id e) eqn:Hah; simpl.
      * by apply (IH _ _ _ _ _ _ Hnd Hscan).
      * destruct (lookup tm !! id) as [tmpls|] eqn:Hl; [|done].
        destruct (loadTemplateEnv X w tenv (Templates (config_ tm)) ∅)
          as [err|envMap]; [done|].
        destruct (IH _ _ _ _ _ _ Hnd Hscan) as [-> ->].
        split; [done|]. simpl.
        rewrite add_handling_set, classify_handling, set_handling_twice.
        rewrite classify_app. simpl.
        rewrite classify_keeps_handling. by rewrite <- app_assoc.
Qed.

Lemma gate_writes_fresh art events : forall h id,
  id ∉ events.*1 -> gate_writes art events h !! id = h !! id.
Proof.
  induction events as [|[id' e] rest IH]; intros h id Hnin; [done|].
  rewrite gate_writes_cons. simpl in Hnin.
  apply not_elem_of_cons in Hnin as [Hne Hnin].
  rewrite IH by done. destruct (first_time art e); [|done].
  by rewrite lookup_insert_ne.
Qed.

Lemma gate_writes_lookup art events : forall h id e,
  NoDup events.*1 -> (id, e) ∈ events ->
  gate_writes art events h !! id
  = if first_time art e then Some art else h !! id.
Proof.
  induction events as [|[id' e'] rest IH]; intros h id e Hnd Hin.
  - by apply elem_of_nil in Hin.
  - simpl in Hnd. apply NoDup_cons in Hnd as [Hnin Hnd].
    rewrite gate_writes_cons.
    apply elem_of_cons in Hin as [Heq|Hin].
    + simplify_eq. rewrite gate_writes_fresh by done.
      destruct (first_time art _); [|done]. apply lookup_insert_eq.
    + rewrite (IH _ id e Hnd Hin).
      destruct (first_time art e); [done|].
      destruct (first_time art e'); [|done].
      rewrite lookup_insert_ne; [done|].
      intros ->. apply Hnin. apply list_elem_of_fmap. by exists (id, e).
Qed.

Lemma eligible_after_gate_writes art events h id e :
  NoDup events.*1 -> (id, e) ∈ events ->
  eligible art (gate_writes art events h) id e = eligible art h id e.
Proof.
  intros Hnd Hin. unfold eligible, already_handled.
  rewrite (gate_writes_lookup art events h id e Hnd Hin).
  by destruct (first_time art e).
Qed.

(** *** The ways a call of the dispatcher can end *)

Lemma dirty_templates_elem art h events t :
  t ∈ dirty_templates tm art h events <->
  exists id e tmpls, (id, e) ∈ events /\ eligible art h id e = true
                     /\ lookup tm !! id = Some tmpls /\ t ∈ tmpls.
Proof.
  induction events as [|[id e] rest IH].
  - split; [intros H; by apply elem_of_nil in H|].
    intros (id & e & tmpls & H & _). by apply elem_of_nil in H.
  - rewrite dirty_templates_cons, elem_of_app, IH. split.
    + intros [Hhead|(id' & e' & tmpls & Hin & ?)].
      * destruct (eligible art h id e) eqn:He; [|by apply elem_of_nil in Hhead].
        destruct (lookup tm !! id) as [tmpls|] eqn:Hl;
          [|by apply elem_of_nil in Hhead].
        exists id, e, tmpls. split; [by apply elem_of_cons; left|done].
      * exists id', e', tmpls. split; [by apply elem_of_cons; right|done].
    + intros (id' & e' & tmpls & Hin & He & Hl & Ht).
      apply elem_of_cons in Hin as [Heq|Hin].
      * simplify_eq. left. by rewrite He, Hl.
      * right. by exists id', e', tmpls.
Qed.

Lemma existsb_elem {A} (p : A -> bool) (l : list A) x :
  x ∈ l -> p x = true -> existsb p l = true.
Proof.
  intros Hin Hp. apply existsb_exists. exists x. split; [|done].
  by apply list_elem_of_In.
Qed.

Lemma scanned_splay_nonneg art h events ids :
  0 <= splay (set_handling ids (classify (dirty_templates tm art h events) empty_batch)).
Proof.
  simpl. rewrite classify_splay. apply (max_splay_from_ge 0).
Qed.

Lemma apply_batch_Ending w events h' tenv b slept st' calls outcome :
  shouldHandle b = true ->
  (splay b = 0 /\ slept = None
   \/ 0 < splay b /\ shutdown_fires w = false
      /\ slept = Some (rand_Int63 w mod splay b)) ->
  apply_batch X tm w events h' tenv b slept = (st', calls, outcome) ->
  Ending X tm w events h' b (handledRenders st') calls outcome.
Proof.
  intros Hsh Hslept. unfold apply_batch.
  destruct (restart b) eqn:Hr.
  - intros H. injection H as <- <- <-. cbn [handledRenders].
    pose proof (End_applied X tm w events h' b slept Hsh Hslept) as He.
    rewrite Hr in He. by apply He.
  - destruct (handleChangeModeSignal_panics tm w (signal_set b)) eqn:Hp.
    + intros H. injection H as <- <- <-. cbn [handledRenders].
      apply End_nil_signal; try done.
      destruct Hslept as [[? _]|(? & ? & _)]; [by left|by right].
    + intros H. injection H as <- <- <-. cbn [handledRenders].
      pose proof (End_applied X tm w events h' b slept Hsh Hslept) as He.
      rewrite Hr, Hp in He. by apply He.
Qed.

Lemma onTemplateRendered_inv w st art events st' calls outcome :
  NoDup events.*1 ->
  onTemplateRendered X tm w st art events = (st', calls, outcome) ->
  (exists tenv' ev,
      scan X tm w art events (handledRenders st) (templateEnv st) empty_batch
      = Killed (handledRenders st') tenv' ev
      /\ calls = [Kill ev] /\ outcome = Aborted)
  \/ (exists b,
         b = set_handling (eligible_ids art (handledRenders st) events)
               (classify (dirty_templates tm art (handledRenders st) events)
                  empty_batch)
         /\ Ending X tm w events (gate_writes art events (handledRenders st)) b
              (handledRenders st') calls outcome).
Proof.
  intros Hnd. unfold onTemplateRendered.
  destruct (scan X tm w art events (handledRenders st) (templateEnv st) empty_batch)
    as [h' tenv' b|h' tenv' ev] eqn:Hscan.
  - destruct (scan_Scanned _ _ _ _ _ _ _ _ _ Hnd Hscan) as [Hh Hb].
    simpl in Hb. intros H. right. exists b. split; [exact Hb|].
    assert (Hnn : 0 <= splay b).
    { rewrite Hb. apply scanned_splay_nonneg. }
    clear Hb Hscan. subst h'.
    destruct (shouldHandle b) eqn:Hsh; cbn [negb] in H.
    + destruct (splay b =? 0) eqn:Hz; cbn [negb] in H.
      * apply Z.eqb_eq in Hz.
        apply (apply_batch_Ending _ _ _ _ _ _ _ _ _ Hsh) in H; [done|]. by left.
      * apply Z.eqb_neq in Hz. unfold Int63n in H.
        destruct (splay b <=? 0) eqn:Hle; [apply Z.leb_le in Hle; lia|].
        destruct (shutdown_fires w) eqn:Hf.
        -- injection H as <- <- <-. cbn [handledRenders].
           apply End_dropped; [done|lia|done].
        -- apply (apply_batch_Ending _ _ _ _ _ _ _ _ _ Hsh) in H; [done|].
           right. split; [lia|done].
    + injection H as <- <- <-. cbn [handledRenders]. by apply End_nothing.
  - intros H. injection H as <- <- <-. left. cbn [handledRenders].
    by exists tenv', ev.
Qed.

(** *** The handle times *)

Lemma events_at_NoDup events : forall id e,
  NoDup events.*1 -> (id, e) ∈ events -> events_at events id = Some e.
Proof.
  unfold events_at.
  induction events as [|[id' e'] rest IH]; intros id e Hnd Hin.
  - by apply elem_of_nil in Hin.
  - simpl in Hnd. apply NoDup_cons in Hnd as [Hnin Hnd]. simpl.
    apply elem_of_cons in Hin as [Heq|Hin].
    + simplify_eq. by rewrite bool_decide_eq_true_2.
    + rewrite bool_decide_eq_false_2; [by apply IH|].
      intros ->. apply Hnin. apply list_elem_of_fmap. by exists (id, e).
Qed.

Lemma commit_lookup events ids : forall h id,
  commit events ids h !! id
  = if decide (id ∈ ids) then
      match events_at events id with
      | Some e => Some (manager.LastDidRender e)
      | None => h !! id
      end
    else h !! id.
Proof.
  unfold commit. induction ids as [|x xs IH]; intros h id.
  - cbn [foldl]. destruct (decide (id ∈ [])) as [Hin|_]; [by apply elem_of_nil in Hin|done].
  - cbn [foldl]. rewrite IH. clear IH.
    assert (Hx : (match events_at events x with
                  | Some e => <[x := manager.LastDidRender e]> h
                  | None => h
                  end) !! id
                 = if decide (x = id) then
                     match events_at events id with
                     | Some e => Some (manager.LastDidRender e)
                     | None => h !! id
                     end
                   else h !! id).
    { destruct (decide (x = id)) as [->|Hne].
      - destruct (events_at events id); [apply lookup_insert_eq|done].
      - destruct (events_at events x); [by rewrite lookup_insert_ne|done]. }
    rewrite Hx. clear Hx.
    destruct (decide (id ∈ xs)) as [Hin|Hnin];
      destruct (decide (x = id)) as [Heq|Hne];
      destruct (decide (id ∈ x :: xs)) as [Hin'|Hnin'];
      try subst x; try done;
      try (by destruct (events_at events id));
      try (exfalso; apply Hnin'; apply elem_of_cons; first [by left | by right]);
      try (apply elem_of_cons in Hin' as [?|?]; congruence).
Qed.

Lemma eligible_ids_elem art h (events : list (string * manager.RenderEvent)) id :
  id ∈ eligible_ids art h events <->
  exists e, (id, e) ∈ events /\ eligible art h id e = true.
Proof.
  induction events as [|[id' e'] rest IH].
  - split; [intros H; by apply elem_of_nil in H|].
    intros (e & H & _). by apply elem_of_nil in H.
  - rewrite eligible_ids_cons, elem_of_app, IH. split.
    + intros [Hhead|(e & Hin & He)].
      * destruct (eligible art h id' e') eqn:He; [|by apply elem_of_nil in Hhead].
        apply list_elem_of_singleton in Hhead as ->.
        exists e'. split; [by apply elem_of_cons; left|done].
      * exists e. split; [by apply elem_of_cons; right|done].
    + intros (e & Hin & He). apply elem_of_cons in Hin as [Heq|Hin].
      * simplify_eq. left. rewrite He. by apply list_elem_of_singleton.
      * right. by exists e.
Qed.

Lemma NoDup_same_event (events : list (string * manager.RenderEvent)) id e e' :
  NoDup events.*1 -> (id, e) ∈ events -> (id, e') ∈ events -> e = e'.
Proof.
  intros Hnd H1 H2.
  pose proof (events_at_NoDup events id e Hnd H1) as E1.
  pose proof (events_at_NoDup events id e' Hnd H2) as E2. congruence.
Qed.

(** After the handle times are updated, every event of the batch is one the
    loop skips. *)
Lemma committed_lookup art h events id e :
  NoDup events.*1 -> (id, e) ∈ events ->
  commit events (eligible_ids art h events) (gate_writes art events h) !! id
  = if first_time art e then Some art
    else if already_handled h id e then h !! id
    else Some (manager.LastDidRender e).
Proof.
  intros Hnd Hin. rewrite commit_lookup.
  rewrite (events_at_NoDup events id e Hnd Hin).
  rewrite (gate_writes_lookup art events h id e Hnd Hin).
  destruct (decide (id ∈ eligible_ids art h events)) as [Hel|Hnel].
  - apply eligible_ids_elem in Hel as (e' & Hin' & He').
    rewrite (NoDup_same_event events id e e' Hnd Hin Hin').
    unfold eligible in He'. apply andb_prop in He' as [H1 H2].
    apply negb_true_iff in H1, H2. by rewrite H1, H2.
  - destruct (first_time art e) eqn:Hft; [done|].
    destruct (already_handled h id e) eqn:Hah; [done|].
    exfalso. apply Hnel. apply eligible_ids_elem. exists e. split; [done|].
    unfold eligible. by rewrite Hft, Hah.
Qed.

Lemma scan_all_skipped w art events : forall h tenv b,
  (forall id e, (id, e) ∈ events ->
     first_time art e = true /\ h !! id = Some art
     \/ first_time art e = false /\ already_handled h id e = true) ->
  scan X tm w art events h tenv b = Scanned h tenv b.
Proof.
  induction events as [|[id e] rest IH]; intros h tenv b Hall; [done|].
  simpl. assert (Hrest : forall id e, (id, e) ∈ rest ->
     first_time art e = true /\ h !! id = Some art
     \/ first_time art e = false /\ already_handled h id e = true).
  { intros id' e' Hin. apply Hall. by apply elem_of_cons; right. }
  destruct (Hall id e) as [[Hft Hh]|[Hft Hah]]; [by apply elem_of_cons; left| |].
  - rewrite Hft. rewrite (insert_id h id art Hh). by apply IH.
  - rewrite Hft, Hah. by apply IH.
Qed.

Lemma DState_eta st :
  {| handledRenders := handledRenders st; templateEnv := templateEnv st |} = st.
Proof. by destruct st. Qed.

Lemma Ending_applied w events h' b h'' calls slept :
  Ending X tm w events h' b h'' calls (Applied slept) ->
  shouldHandle b = true
  /\ h'' = commit events (handling b) h'
  /\ calls = (if restart b then [Restart restart_event false]
              else handleChangeModeSignal X tm w (signal_set b)
                   ++ handleChangeModeScript X w (scripts b))
  /\ (splay b = 0 /\ slept = None
      \/ 0 < splay b /\ shutdown_fires w = false
         /\ slept = Some (rand_Int63 w mod splay b)).
Proof. intros H. inversion H; subst. done. Qed.

Lemma Ending_dropped w events h' b h'' calls offset :
  Ending X tm w events h' b h'' calls (Dropped offset) ->
  shouldHandle b = true /\ h'' = h' /\ calls = [] /\ 0 < splay b
  /\ shutdown_fires w = true /\ offset = rand_Int63 w mod splay b.
Proof. intros H. inversion H; subst. done. Qed.

Lemma Ending_nothing w events h' b h'' calls :
  Ending X tm w events h' b h'' calls NothingToDo ->
  shouldHandle b = false /\ h'' = h' /\ calls = [].
Proof. intros H. inversion H; subst. done. Qed.

Lemma Ending_not_handled w events h' b h'' calls outcome :
  Ending X tm w events h' b h'' calls outcome -> shouldHandle b = false ->
  h'' = h' /\ calls = [] /\ outcome = NothingToDo.
Proof. intros H Hsh. inversion H; subst; try congruence. done. Qed.

Ltac split_ifs H :=
  repeat match type of H with
         | context [if ?c then _ else _] => destruct c eqn:?
         | context [match Int63n ?a ?b with _ => _ end] => destruct (Int63n a b) eqn:?
         end.

(** An aborted scan stopped at an event that is not skipped: its id is
    unknown, or the environment templates could not be read. *)
Lemma scan_Killed w art events : forall h tenv b h' tenv' ev,
  scan X tm w art events h tenv b = Killed h' tenv' ev ->
  exists pre id e post,
    events = (pre ++ (id, e) :: post)%list
    /\ h' = gate_writes art pre h
    /\ eligible art h' id e = true
    /\ (lookup tm !! id = None
        /\ ev = killing (Sprintf (quote X)
                           "Template runner returned unknown template id %q" [id])
        \/ is_Some (lookup tm !! id)
           /\ exists err,
                loadTemplateEnv X w tenv' (Templates (config_ tm)) ∅ = inl err
                /\ ev = killing (Sprintf (quote X)
                                   "Template failed to read environment variables: %v"
                                   [Error_text X err])).
Proof.
  induction events as [|[id e] rest IH]; intros h tenv b h' tenv' ev Hscan;
    simpl in Hscan; [done|].
  assert (Hrest : forall h0 tenv0 b0,
             h0 = (if first_time art e then <[id := art]> h else h) ->
             scan X tm w art rest h0 tenv0 b0 = Killed h' tenv' ev ->
             exists pre id0 e0 post,
               (id, e) :: rest = (pre ++ (id0, e0) :: post)%list
               /\ h' = gate_writes art pre h
               /\ eligible art h' id0 e0 = true
               /\ (lookup tm !! id0 = None
                   /\ ev = killing (Sprintf (quote X)
                                      "Template runner returned unknown template id %q"
                                      [id0])
                   \/ is_Some (lookup tm !! id0)
                      /\ exists err,
                           loadTemplateEnv X w tenv' (Templates (config_ tm)) ∅
                           = inl err
                           /\ ev = killing
                                     (Sprintf (quote X)
                                        "Template failed to read environment variables: %v"
                                        [Error_text X err]))).
  { intros h0 tenv0 b0 Hh0 H0.
    destruct (IH _ _ _ _ _ _ H0) as (pre & id0 & e0 & post & -> & Hh' & Hel & Hcase).
    exists ((id, e) :: pre), id0, e0, post. split; [done|].
    split; [by rewrite gate_writes_cons, <- Hh0|]. done. }
  destruct (first_time art e) eqn:Hft; [by apply (Hrest _ _ _ eq_refl Hscan)|].
  destruct (already_handled h id e) eqn:Hah; [by apply (Hrest _ _ _ eq_refl Hscan)|].
  destruct (lookup tm !! id) as [tmpls|] eqn:Hl.
  - destruct (loadTemplateEnv X w tenv (Templates (config_ tm)) ∅) as [err|envMap] eqn:Hload.
    + injection Hscan as <- <- <-. exists [], id, e, rest.
      split; [done|]. split; [done|].
      split; [unfold eligible; by rewrite Hft, Hah|].
      right. rewrite Hl. split; [by eexists|]. by exists err.
    + by apply (Hrest _ _ _ eq_refl Hscan).
  - injection Hscan as <- <- <-. exists [], id, e, rest.
    split; [done|]. split; [done|].
    split; [unfold eligible; by rewrite Hft, Hah|]. by left.
Qed.

Lemma onTemplateRendered_Aborted w st art events st' calls :
  onTemplateRendered X tm w st art events = (st', calls, Aborted) ->
  exists ev,
    scan X tm w art events (handledRenders st) (templateEnv st) empty_batch
    = Killed (handledRenders st') (templateEnv st') ev
    /\ calls = [Kill ev].
Proof.
  unfold onTemplateRendered, apply_batch.
  destruct (scan X tm w art events (handledRenders st) (templateEnv st) empty_batch)
    as [h' tenv' b|h' tenv' ev]; intros H.
  - split_ifs H; discriminate H.
  - injection H as <- <-. by exists ev.
Qed.

(** What an aborted call reports, in terms of the batch it was given. *)
Lemma aborted_call w st art events st' calls :
  NoDup events.*1 ->
  onTemplateRendered X tm w st art events = (st', calls, Aborted) ->
  exists id e ev,
    calls = [Kill ev]
    /\ (id, e) ∈ events
    /\ eligible art (handledRenders st) id e = true
    /\ (lookup tm !! id = None
        /\ ev = killing (Sprintf (quote X)
                           "Template runner returned unknown template id %q" [id])
        \/ is_Some (lookup tm !! id)
           /\ exists err,
                loadTemplateEnv X w (templateEnv st') (Templates (config_ tm)) ∅
                = inl err
                /\ ev = killing (Sprintf (quote X)
                                   "Template failed to read environment variables: %v"
                                   [Error_text X err])).
Proof.
  intros Hnd Hrun.
  destruct (onTemplateRendered_Aborted _ _ _ _ _ _ Hrun) as (ev & Hscan & ->).
  destruct (scan_Killed _ _ _ _ _ _ _ _ _ Hscan)
    as (pre & id & e & post & -> & Hh' & Hel & Hcase).
  exists id, e, ev. split; [done|].
  split; [apply elem_of_app; right; by apply elem_of_cons; left|].
  split; [|done].
  rewrite fmap_app in Hnd. apply NoDup_app in Hnd as (_ & Hdisj & _).
  assert (Hnin : id ∉ pre.*1).
  { intros Hin. apply (Hdisj id Hin). simpl. by apply elem_of_cons; left. }
  unfold eligible, already_handled in *.
  by rewrite Hh', gate_writes_fresh in Hel.
Qed.

(** *** Restart *)

Lemma batch_of_scan art h events :
  let b := set_handling (eligible_ids art h events)
             (classify (dirty_templates tm art h events) empty_batch) in
  handling b = eligible_ids art h events
  /\ restart b = existsb is_restart (dirty_templates tm art h events)
  /\ splay b = max_splay (actionable (dirty_templates tm art h events))
  /\ shouldHandle b
     = existsb (fun t => negb (is_noop t)) (dirty_templates tm art h events).
Proof.
  simpl. rewrite classify_restart, classify_splay, shouldHandle_set_handling,
    classify_shouldHandle. done.
Qed.

(** C3, as amended.  Take a batch in which an event that is not skipped has
    a template with change mode restart.  Whatever else the batch holds, the
    dispatcher makes no [Signal] and no [Exec] call for it.  The call ends
    in one of three ways.  The scan is aborted at an event of the batch that
    is not skipped, and the only call is one [Kill]: the id of that event is
    not in the lookup table and the [Kill] names it, or the id is known,
    [loadTemplateEnv] returned an error for the environment templates, and
    the [Kill] carries that error.  Or the shutdown channel fires during the
    splay sleep and there is no call at all.  Or the actions are applied,
    and then the calls are exactly one [Restart] with a [TaskRestartSignal]
    event and the display message
    [Template with change_mode restart re-rendered]. *)
Theorem restart_supersedes
    (w : World) (st : DState) (art : Time)
    (events : list (string * manager.RenderEvent))
    (id : string) (event : manager.RenderEvent)
    (tmpls : list structs.Template) (tmpl : structs.Template)
    (st' : DState) (calls : list Call) (outcome : Outcome) :
  NoDup events.*1 ->
  (id, event) ∈ events ->
  eligible art (handledRenders st) id event = true ->
  lookup tm !! id = Some tmpls -> tmpl ∈ tmpls -> is_restart tmpl = true ->
  onTemplateRendered X tm w st art events = (st', calls, outcome) ->
  Forall (fun c => is_Signal c = false /\ is_Exec c = false) calls
  /\ (forall slept, outcome = Applied slept ->
        calls = [Restart restart_event false])
  /\ ((outcome = Aborted
       /\ exists id' event' ev,
            calls = [Kill ev]
            /\ (id', event') ∈ events
            /\ eligible art (handledRenders st) id' event' = true
            /\ (lookup tm !! id' = None
                /\ ev = killing
                          (Sprintf (quote X)
                             "Template runner returned unknown template id %q"
                             [id'])
                \/ is_Some (lookup tm !! id')
                   /\ exists err,
                        loadTemplateEnv X w (templateEnv st')
                          (Templates (config_ tm)) ∅ = inl err
                        /\ ev = killing
                                  (Sprintf (quote X)
                                     "Template failed to read environment variables: %v"
                                     [Error_text X err])))
      \/ (exists offset, outcome = Dropped offset /\ shutdown_fires w = true
                         /\ calls = [])
      \/ (exists slept, outcome = Applied slept)).
Proof.
  intros Hnd Hin Hel Hl Ht Hr Hrun.
  assert (Hrestart : existsb is_restart
                       (dirty_templates tm art (handledRenders st) events) = true).
  { apply (existsb_elem _ _ tmpl); [|done].
    apply dirty_templates_elem. by exists id, event, tmpls. }
  destruct (onTemplateRendered_inv _ _ _ _ _ _ _ Hnd Hrun)
    as [(tenv' & ev & Hscan & -> & ->)|(b & Hb & Hend)].
  - split; [|split].
    + by repeat constructor.
    + done.
    + left. split; [done|].
      destruct (aborted_call _ _ _ _ _ _ Hnd Hrun) as (id' & e' & ev' & ? & ? & ? & ?).
      by exists id', e', ev'.
  - destruct (batch_of_scan art (handledRenders st) events) as (_ & Hres & _ & _).
    rewrite <- Hb in Hres. rewrite Hrestart in Hres.
    assert (Hsh : shouldHandle b = true).
    { unfold shouldHandle. by rewrite Hres. }
    inversion Hend; subst outcome calls; try congruence.
    + split; [|split]; [constructor|done|].
      right; left. eexists. by repeat split.
    + rewrite Hres. split; [|split].
      * by repeat constructor.
      * done.
      * right; right. by eexists.
Qed.

(** *** Splay *)

(** C6, as amended.  When a batch is applied, the sleep between the scan and
    the actions is [rand.Int63n(maxSplay)] nanoseconds, a value in
    [0, maxSplay), where [maxSplay] is the largest splay among the templates
    with a change mode other than noop of the events that are not skipped;
    when that maximum is zero there is no sleep.  The argument of
    [rand.Int63n] is always positive.  A batch dropped by the shutdown
    channel was sleeping such a duration. *)
Theorem splay_delay
    (w : World) (st : DState) (art : Time)
    (events : list (string * manager.RenderEvent))
    (st' : DState) (calls : list Call) (outcome : Outcome) :
  NoDup events.*1 ->
  onTemplateRendered X tm w st art events = (st', calls, outcome) ->
  let maxSplay :=
    max_splay (actionable (dirty_templates tm art (handledRenders st) events)) in
  0 <= maxSplay
  /\ outcome <> Panicked
  /\ (forall slept, outcome = Applied slept ->
        existsb (fun t => negb (is_noop t))
          (dirty_templates tm art (handledRenders st) events) = true
        /\ (maxSplay = 0 /\ slept = None
            \/ 0 < maxSplay /\ slept = Some (rand_Int63 w mod maxSplay)
               /\ 0 <= rand_Int63 w mod maxSplay < maxSplay))
  /\ (forall offset, outcome = Dropped offset ->
        0 < maxSplay /\ offset = rand_Int63 w mod maxSplay
        /\ 0 <= offset < maxSplay).
Proof.
  intros Hnd Hrun maxSplay.
  assert (Hnn : 0 <= maxSplay) by apply (max_splay_from_ge 0).
  split; [done|].
  destruct (onTemplateRendered_inv _ _ _ _ _ _ _ Hnd Hrun)
    as [(tenv' & ev & _ & -> & ->)|(b & Hb & Hend)].
  - by repeat split.
  - destruct (batch_of_scan art (handledRenders st) events) as (_ & _ & Hsp & Hsh).
    rewrite <- Hb in Hsp, Hsh. fold maxSplay in Hsp.
    split; [|split].
    + by inversion Hend.
    + intros slept ->. apply Ending_applied in Hend as (Hs & _ & _ & Hcase).
      split; [by rewrite <- Hsh|]. rewrite Hsp in Hcase.
      destruct Hcase as [[? ?]|(Hpos & _ & ->)]; [by left|].
      right. split; [done|]. split; [done|]. by apply Z.mod_pos_bound.
    + intros offset ->. apply Ending_dropped in Hend as (_ & _ & _ & Hpos & _ & ->).
      rewrite Hsp in *. split; [done|]. split; [done|]. by apply Z.mod_pos_bound.
Qed.

(** *** A batch dropped by the shutdown channel *)




(** *** Feeding the same events again *)

(** C4, as amended.  Feed the dispatcher a batch, then the same events again
    (in any order) with the state the first call left.  If the first call
    applied its actions, then it set [handledRenders[id]] to the
    last-did-render time of every event it handled, every event of the batch
    is now skipped, and the second call makes no call on the collaborators
    and leaves the state as it is.  If the first call found nothing to
    handle, the second makes no [Restart], [Signal] or [Exec] call either:
    it again finds nothing to handle, or it is aborted by a [Kill] because
    the environment templates cannot be read. *)
Theorem refeed_same_events
    (w1 w2 : World) (st : DState) (art : Time)
    (events events' : list (string * manager.RenderEvent))
    (st1 : DState) (calls1 : list Call) (o1 : Outcome) :
  NoDup events.*1 -> events' ≡ₚ events ->
  onTemplateRendered X tm w1 st art events = (st1, calls1, o1) ->
  (forall slept, o1 = Applied slept ->
      (forall id e, (id, e) ∈ events ->
         eligible art (handledRenders st) id e = true ->
         handledRenders st1 !! id = Some (manager.LastDidRender e))
      /\ (forall id e, (id, e) ∈ events ->
            eligible art (handledRenders st1) id e = false)
      /\ onTemplateRendered X tm w2 st1 art events' = (st1, [], NothingToDo))
  /\ (o1 = NothingToDo ->
      forall st2 calls2 o2,
        onTemplateRendered X tm w2 st1 art events' = (st2, calls2, o2) ->
        Forall (fun c => is_change_action c = false) calls2
        /\ (o2 = NothingToDo /\ calls2 = []
            \/ o2 = Aborted /\ exists ev, calls2 = [Kill ev])).
Proof.
  intros Hnd Hperm Hrun.
  destruct (onTemplateRendered_inv _ _ _ _ _ _ _ Hnd Hrun)
    as [(tenv' & ev & _ & -> & ->)|(b & Hb & Hend)]; [done|].
  destruct (batch_of_scan art (handledRenders st) events) as (Hhd & _ & _ & Hsh).
  rewrite <- Hb in Hhd, Hsh. split.
  - intros slept ->. apply Ending_applied in Hend as (_ & Hh1 & _ & _).
    rewrite Hhd in Hh1.
    assert (Hlk : forall id e, (id, e) ∈ events ->
               handledRenders st1 !! id
               = if first_time art e then Some art
                 else if already_handled (handledRenders st) id e
                      then handledRenders st !! id
                      else Some (manager.LastDidRender e)).
    { intros id e Hin. rewrite Hh1. by apply committed_lookup. }
    assert (Hskip : forall id e, (id, e) ∈ events ->
               first_time art e = true /\ handledRenders st1 !! id = Some art
               \/ first_time art e = false
                  /\ already_handled (handledRenders st1) id e = true).
    { intros id e Hin. specialize (Hlk id e Hin).
      destruct (first_time art e) eqn:Hft; [by left|]. right. split; [done|].
      destruct (already_handled (handledRenders st) id e) eqn:Hah.
      - unfold already_handled in *. by rewrite Hlk.
      - unfold already_handled, Equal. rewrite Hlk. simpl.
        rewrite Z.eqb_refl. by rewrite orb_true_r. }
    split; [|split].
    + intros id e Hin Hel. rewrite (Hlk id e Hin).
      unfold eligible in Hel. apply andb_prop in Hel as [H1 H2].
      apply negb_true_iff in H1, H2. by rewrite H1, H2.
    + intros id e Hin. unfold eligible.
      destruct (Hskip id e Hin) as [[-> _]|[-> ->]]; [done|by simpl].
    + unfold onTemplateRendered.
      rewrite (scan_all_skipped w2 art events').
      * simpl. by rewrite DState_eta.
      * intros id e Hin. apply Hskip. by rewrite <- Hperm.
  - intros ->. apply Ending_nothing in Hend as (Hnot & Hh1 & _).
    rewrite Hsh in Hnot.
    intros st2 calls2 o2 Hrun2.
    assert (Hnd' : NoDup events'.*1) by (by rewrite Hperm).
    destruct (onTemplateRendered_inv _ _ _ _ _ _ _ Hnd' Hrun2)
      as [(tenv' & ev & _ & -> & ->)|(b2 & Hb2 & Hend2)].
    + split; [by repeat constructor|]. right. split; [done|by exists ev].
    + destruct (batch_of_scan art (handledRenders st1) events') as (_ & _ & _ & Hsh2).
      rewrite <- Hb2 in Hsh2.
      assert (Hnot2 : shouldHandle b2 = false).
      { rewrite Hsh2. destruct (existsb _ (dirty_templates tm art _ events')) eqn:Hex;
          [|done].
        apply existsb_exists in Hex as (t & Hin & Hp).
        apply list_elem_of_In in Hin.
        apply dirty_templates_elem in Hin as (id & e & tmpls & Hin & Hel & Hl & Ht).
        rewrite Hperm in Hin. rewrite Hh1 in Hel.
        rewrite (eligible_after_gate_writes art events _ id e Hnd Hin) in Hel.
        rewrite <- Hnot. symmetry. apply (existsb_elem _ _ t); [|done].
        apply dirty_templates_elem. by exists id, e, tmpls. }
      destruct (Ending_not_handled _ _ _ _ _ _ _ Hend2 Hnot2) as (_ & -> & ->).
      split; [constructor|]. by left.
Qed.

End DispatcherFacts.

(** ** The statements above on concrete batches *)

Ltac two_distinct_ids :=
  apply NoDup_cons; split;
  [ let H := fresh in intros H; apply list_elem_of_singleton in H; discriminate H
  | apply NoDup_singleton ].

(** A restart template and a signal template re-rendered in one batch. *)
Lemma restart_supersedes_witness :
  NoDup [("a", Demo.event "a" 20); ("b", Demo.event "b" 30)].*1
  /\ eligible 10 ∅ "a" (Demo.event "a" 20) = true
  /\ is_restart Demo.restart_now = true
  /\ onTemplateRendered Demo.X Demo.tm_restart_signal (Demo.world 7 false) Demo.fresh 10
       [("a", Demo.event "a" 20); ("b", Demo.event "b" 30)]
     = ({| handledRenders := {[ "a" := 20; "b" := 30 ]}; templateEnv := ∅ |},
        [Restart restart_event false], Applied None)
  /\ Forall (fun c => is_Signal c = false /\ is_Exec c = false)
       [Restart restart_event false].
Proof.
  assert (Hnd : NoDup [("a", Demo.event "a" 20); ("b", Demo.event "b" 30)].*1).
  { two_distinct_ids. }
  split; [exact Hnd|]. split; [reflexivity|]. split; [reflexivity|].
  assert (Hrun : onTemplateRendered Demo.X Demo.tm_restart_signal (Demo.world 7 false)
                   Demo.fresh 10 [("a", Demo.event "a" 20); ("b", Demo.event "b" 30)]
                 = ({| handledRenders := {[ "a" := 20; "b" := 30 ]}; templateEnv := ∅ |},
                    [Restart restart_event false], Applied None)).
  { vm_compute. reflexivity. }
  split; [exact Hrun|].
  destruct (restart_supersedes Demo.X Demo.tm_restart_signal (Demo.world 7 false)
              Demo.fresh 10 [("a", Demo.event "a" 20); ("b", Demo.event "b" 30)]
              "a" (Demo.event "a" 20) [Demo.restart_now] Demo.restart_now
              {| handledRenders := {[ "a" := 20; "b" := 30 ]}; templateEnv := ∅ |}
              [Restart restart_event false] (Applied None) Hnd) as (Hnone & _ & _).
  - apply elem_of_cons. by left.
  - reflexivity.
  - reflexivity.
  - apply list_elem_of_singleton. reflexivity.
  - reflexivity.
  - exact Hrun.
  - exact Hnone.
Defined.

(** C3 fails as stated: the batch holds a restart template that is not
    skipped, the shutdown channel fires during the splay sleep, and no
    [Restart] is issued. *)
Lemma restart_not_issued_when_dropped :
  eligible 10 ∅ "a" (Demo.event "a" 20) = true
  /\ lookup Demo.tm_restart_splayed !! "a" = Some [Demo.restart_splayed]
  /\ is_restart Demo.restart_splayed = true
  /\ onTemplateRendered Demo.X Demo.tm_restart_splayed (Demo.world 12345678901 true)
       Demo.fresh 10 [("a", Demo.event "a" 20)]
     = (Demo.fresh, [], Dropped 2345678901)
  /\ count_calls is_Restart [] = 0%nat.
Proof. repeat split. Qed.

(** A restart template with a splay of five seconds. *)
Lemma splay_delay_witness :
  NoDup [("a", Demo.event "a" 20)].*1
  /\ onTemplateRendered Demo.X Demo.tm_restart_splayed (Demo.world 12345678901 false)
       Demo.fresh 10 [("a", Demo.event "a" 20)]
     = ({| handledRenders := {[ "a" := 20 ]}; templateEnv := ∅ |},
        [Restart restart_event false], Applied (Some 2345678901))
  /\ max_splay (actionable (dirty_templates Demo.tm_restart_splayed 10 ∅
                              [("a", Demo.event "a" 20)])) = 5000000000
  /\ 0 <= 2345678901 < 5000000000.
Proof.
  assert (Hnd : NoDup [("a", Demo.event "a" 20)].*1) by apply NoDup_singleton.
  assert (Hrun : onTemplateRendered Demo.X Demo.tm_restart_splayed
                   (Demo.world 12345678901 false) Demo.fresh 10
                   [("a", Demo.event "a" 20)]
                 = ({| handledRenders := {[ "a" := 20 ]}; templateEnv := ∅ |},
                    [Restart restart_event false], Applied (Some 2345678901))).
  { vm_compute. reflexivity. }
  split; [exact Hnd|]. split; [exact Hrun|]. split; [reflexivity|].
  destruct (splay_delay Demo.X Demo.tm_restart_splayed (Demo.world 12345678901 false)
              Demo.fresh 10 [("a", Demo.event "a" 20)] _ _ _ Hnd Hrun)
    as (_ & _ & Happlied & _).
  destruct (Happlied (Some 2345678901) eq_refl) as [_ [[Hz _]|(_ & _ & Hbound)]].
  - discriminate Hz.
  - exact Hbound.
Defined.

(** C6 fails as stated: the batch holds a noop template with a splay of ten
    seconds, so the largest splay over the templates of the batch is not
    zero, yet the actions are applied without any sleep. *)
Lemma noop_splay_not_counted :
  max_splay (dirty_templates Demo.tm_restart_noop 10 ∅
               [("a", Demo.event "a" 20); ("c", Demo.event "c" 20)]) = 10000000000
  /\ max_splay (actionable (dirty_templates Demo.tm_restart_noop 10 ∅
                              [("a", Demo.event "a" 20); ("c", Demo.event "c" 20)])) = 0
  /\ onTemplateRendered Demo.X Demo.tm_restart_noop (Demo.world 12345678901 false)
       Demo.fresh 10 [("a", Demo.event "a" 20); ("c", Demo.event "c" 20)]
     = ({| handledRenders := {[ "a" := 20; "c" := 20 ]}; templateEnv := ∅ |},
        [Restart restart_event false], Applied None).
Proof. repeat split. Qed.


(** The same two events fed twice, the second time in the other order. *)
Lemma refeed_same_events_witness :
  NoDup [("a", Demo.event "a" 20); ("b", Demo.event "b" 30)].*1
  /\ [("b", Demo.event "b" 30); ("a", Demo.event "a" 20)]
     ≡ₚ [("a", Demo.event "a" 20); ("b", Demo.event "b" 30)]
  /\ onTemplateRendered Demo.X Demo.tm_restart_signal (Demo.world 7 false) Demo.fresh 10
       [("a", Demo.event "a" 20); ("b", Demo.event "b" 30)]
     = ({| handledRenders := {[ "a" := 20; "b" := 30 ]}; templateEnv := ∅ |},
        [Restart restart_event false], Applied None)
  /\ onTemplateRendered Demo.X Demo.tm_restart_signal (Demo.world_readable 9 false)
       {| handledRenders := {[ "a" := 20; "b" := 30 ]}; templateEnv := ∅ |} 10
       [("b", Demo.event "b" 30); ("a", Demo.event "a" 20)]
     = ({| handledRenders := {[ "a" := 20; "b" := 30 ]}; templateEnv := ∅ |},
        [], NothingToDo).
Proof.
  assert (Hnd : NoDup [("a", Demo.event "a" 20); ("b", Demo.event "b" 30)].*1).
  { two_distinct_ids. }
  assert (Hrun : onTemplateRendered Demo.X Demo.tm_restart_signal (Demo.world 7 false)
                   Demo.fresh 10 [("a", Demo.event "a" 20); ("b", Demo.event "b" 30)]
                 = ({| handledRenders := {[ "a" := 20; "b" := 30 ]}; templateEnv := ∅ |},
                    [Restart restart_event false], Applied None)).
  { vm_compute. reflexivity. }
  split; [exact Hnd|]. split; [apply Permutation_swap|]. split; [exact Hrun|].
  destruct (refeed_same_events Demo.X Demo.tm_restart_signal (Demo.world 7 false)
              (Demo.world_readable 9 false) Demo.fresh 10
              [("a", Demo.event "a" 20); ("b", Demo.event "b" 30)]
              [("b", Demo.event "b" 30); ("a", Demo.event "a" 20)]
              _ _ _ Hnd (Permutation_swap _ _ _) Hrun) as (Hsilent & _).
  destruct (Hsilent None eq_refl) as (_ & _ & Hsecond). exact Hsecond.
Defined.

(** C4 fails as stated: the environment template cannot be read, the first
    feed is aborted by a [Kill] and records nothing, and feeding the same
    events again makes the same [Kill] call; once the file can be read, the
    same events fed again restart the task. *)
Lemma refeed_after_abort_acts_again :
  onTemplateRendered Demo.X Demo.tm_restart_env (Demo.world 7 false) Demo.fresh 10
    [("a", Demo.event "a" 20)]
  = (Demo.fresh,
     [Kill (killing
              "Template failed to read environment variables: error opening env template: no such file or directory")],
     Aborted)
  /\ (onTemplateRendered Demo.X Demo.tm_restart_env (Demo.world 7 false) Demo.fresh 10
        [("a", Demo.event "a" 20)]).1.2 <> []
  /\ onTemplateRendered Demo.X Demo.tm_restart_env (Demo.world_readable 7 false)
       Demo.fresh 10 [("a", Demo.event "a" 20)]
     = ({| handledRenders := {[ "a" := 20 ]};
           templateEnv := {[ "KEY" := "value" ]} |},
        [Restart restart_event false], Applied None).
Proof. split; [|split]; [reflexivity|discriminate|reflexivity]. Qed.

(** * Further properties of the manager *)

(** ** Validation *)

Lemma once_uniform_spec once ts :
  once_uniform once ts = true <-> forall t, t ∈ ts -> structs.Once t = once.
Proof.
  induction ts as [|t ts IH]; simpl.
  - split; [|done]. intros _ t Ht. by apply elem_of_nil in Ht.
  - destruct (Bool.eqb (structs.Once t) once) eqn:E.
    + apply Bool.eqb_prop in E. rewrite IH. split.
      * intros H u Hu. apply elem_of_cons in Hu as [-> | Hu]; [done|]. by apply H.
      * intros H u Hu. apply H. by right.
    + split; [done|]. intros H. specialize (H t (proj2 (elem_of_cons _ _ _) (or_introl eq_refl))).
      rewrite H in E. by destruct once.
Qed.

Lemma Validate_None_iff (c : TaskTemplateManagerConfig) :
  Validate (Some c) = None <->
  UnblockCh c = true /\ Lifecycle c = true /\ Events c = true
  /\ is_Some (ClientConfig c) /\ TaskDir c <> "" /\ is_Some (EnvBuilder c)
  /\ MaxTemplateEventRate c <> 0
  /\ (forall t u, t ∈ Templates c -> u ∈ Templates c ->
        structs.Once t = structs.Once u).
Proof.
  unfold Validate.
  destruct (UnblockCh c); simpl; [|split; [done|intros (? & _); done]].
  destruct (Lifecycle c); simpl; [|split; [done|intros (_ & ? & _); done]].
  destruct (Events c); simpl; [|split; [done|intros (_ & _ & ? & _); done]].
  destruct (bool_decide (is_Some (ClientConfig c))) eqn:Ecc; simpl;
    [apply bool_decide_eq_true in Ecc
    |apply bool_decide_eq_false in Ecc; split; [done|intros (_ & _ & _ & ? & _); done]].
  destruct (bool_decide (TaskDir c = "")) eqn:Etd; simpl;
    [apply bool_decide_eq_true in Etd; split; [done|intros (_ & _ & _ & _ & ? & _); done]
    |apply bool_decide_eq_false in Etd].
  destruct (bool_decide (is_Some (EnvBuilder c))) eqn:Eeb; simpl;
    [apply bool_decide_eq_true in Eeb
    |apply bool_decide_eq_false in Eeb;
     split; [done|intros (_ & _ & _ & _ & _ & ? & _); done]].
  destruct (MaxTemplateEventRate c =? 0) eqn:Er;
    [apply Z.eqb_eq in Er; split; [done|intros (_ & _ & _ & _ & _ & _ & ? & _); done]
    |apply Z.eqb_neq in Er].
  destruct (Templates c) as [|t rest] eqn:Ets.
  - split; [|done]. intros _. repeat (split; [done|]).
    intros t u Ht. by apply elem_of_nil in Ht.
  - destruct (once_uniform (structs.Once t) rest) eqn:Eu.
    + split; [|done]. intros _. repeat (split; [done|]).
      pose proof (proj1 (once_uniform_spec _ _) Eu) as Hu.
      assert (forall v, v ∈ t :: rest -> structs.Once v = structs.Once t) as Hall.
      { intros v Hv. apply elem_of_cons in Hv as [-> | Hv]; [done|]. by apply Hu. }
      intros v u Hv Hu'. by rewrite (Hall v Hv), (Hall u Hu').
    + split; [done|]. intros (_ & _ & _ & _ & _ & _ & _ & Hsame). exfalso.
      assert (once_uniform (structs.Once t) rest = true) as Hyes; [|congruence].
      apply once_uniform_spec. intros u Hu. apply Hsame; [by right | by left].
Qed.

(** X1.  [Validate] accepts a configuration exactly when the three hooks, the
    client configuration and the environment builder are given, the task
    directory is not empty, the event rate is not zero and all templates
    have the same [Once] value. *)
Theorem Validate_accepts_iff (c : TaskTemplateManagerConfig) :
  Validate (Some c) = None <->
  UnblockCh c = true /\ Lifecycle c = true /\ Events c = true
  /\ is_Some (ClientConfig c) /\ TaskDir c <> "" /\ is_Some (EnvBuilder c)
  /\ MaxTemplateEventRate c <> 0
  /\ (forall t u, t ∈ Templates c -> u ∈ Templates c ->
        structs.Once t = structs.Once u).
Proof. apply Validate_None_iff. Qed.

(** X2.  For a configuration [Validate] accepts, the engine runs in once mode
    exactly when there is a template and every template asks for it. *)
Theorem OnceModeEnabled_all_once (c : TaskTemplateManagerConfig) :
  Validate (Some c) = None ->
  (OnceModeEnabled c = true
   <-> Templates c <> [] /\ forall t, t ∈ Templates c -> structs.Once t = true).
Proof.
  intros Hv. apply Validate_None_iff in Hv as (_ & _ & _ & _ & _ & _ & _ & Hv).
  unfold OnceModeEnabled. destruct (Templates c) as [|t rest].
  - split; [done|]. by intros [? _].
  - split.
    + intros Ho. split; [done|]. intros u Hu. rewrite <- Ho. apply Hv; [done | by left].
    + intros [_ H]. apply H. by left.
Qed.

Lemma OnceModeEnabled_all_once_witness :
  Validate (Some (Demo.cfg [Demo.restart_now; Demo.signal_hup])) = None
  /\ (OnceModeEnabled (Demo.cfg [Demo.restart_now; Demo.signal_hup]) = true
      <-> Templates (Demo.cfg [Demo.restart_now; Demo.signal_hup]) <> []
          /\ forall t, t ∈ Templates (Demo.cfg [Demo.restart_now; Demo.signal_hup]) ->
                       structs.Once t = true).
Proof.
  split; [reflexivity|].
  apply (OnceModeEnabled_all_once (Demo.cfg [Demo.restart_now; Demo.signal_hup])).
  reflexivity.
Defined.

(** ** Construction *)

Section ConstructionMore.

Variable X : Outside.
Variable nrc : TaskTemplateManagerConfig -> list ctconf.TemplateConfig -> option Error.

Lemma translate_all_templates se dl td tenv : forall ts acc m,
  translate_all X se dl td tenv ts acc = Ok m ->
  m.*2 = acc.*2 ++ ts
  /\ exists new, m = acc ++ new
       /\ Forall (fun p => translate X se dl td tenv p.2 = Ok p.1) new.
Proof.
  induction ts as [|t ts IH]; intros acc m H; simpl in H.
  - injection H as <-. rewrite app_nil_r. split; [done|].
    exists []. by rewrite app_nil_r.
  - destruct (translate X se dl td tenv t) as [ct|e|] eqn:Et; try done.
    apply IH in H as [H2 (new & -> & Hnew)]. split.
    + rewrite H2, fmap_app. simpl. by rewrite <- app_assoc.
    + exists ((ct, t) :: new). split; [by rewrite <- app_assoc|].
      constructor; [done|done].
Qed.

Lemma parseTemplateConfigs_inv c m :
  parseTemplateConfigs X c = Ok m ->
  exists cc tc tenv,
    ClientConfig c = Some cc /\ config.TemplateConfig cc = Some tc
    /\ EnvBuilder c = Some tenv
    /\ m.*2 = Templates c
    /\ Forall (fun p => translate X (negb (config.DisableSandbox tc))
                          (config.FunctionDenylist tc) (TaskDir c) tenv p.2 = Ok p.1) m.
Proof.
  unfold parseTemplateConfigs. intros H.
  destruct (ClientConfig c) as [cc|]; [|done].
  destruct (config.TemplateConfig cc) as [tc|] eqn:Etc; [|done].
  destruct (EnvBuilder c) as [tenv|]; [|done].
  apply translate_all_templates in H as [H2 (new & -> & Hnew)].
  exists cc, tc, tenv. repeat (split; [done|]). done.
Qed.

Lemma build_lookup_from_mapping (m : list (ctconf.TemplateConfig * structs.Template))
    idMap id tmpls t :
  build_lookup m idMap !! id = Some tmpls -> t ∈ tmpls -> t ∈ m.*2.
Proof.
  unfold build_lookup.
  set (P := fun lk : gmap string (list structs.Template) =>
              forall id tmpls t, lk !! id = Some tmpls -> t ∈ tmpls -> t ∈ m.*2).
  set (inner := fun (id : string) (lookup : gmap string (list structs.Template))
                    (ctmpl : nat) =>
                  match m !! ctmpl with
                  | Some (_, tmpl) =>
                      <[id := (default [] (lookup !! id) ++ [tmpl])%list]> lookup
                  | None => lookup
                  end).
  assert (forall id ctmpls lk, P lk -> P (foldl (inner id) lk ctmpls)) as Hinner.
  { intros id0 ctmpls. induction ctmpls as [|i ctmpls IH]; intros lk HP; [done|].
    simpl. apply IH. unfold inner.
    destruct (m !! i) as [[ct u]|] eqn:Ei; [|done].
    intros id1 tmpls1 t1 Hl Ht.
    destruct (decide (id0 = id1)) as [->|Hne].
    - rewrite lookup_insert_eq in Hl. injection Hl as <-.
      apply elem_of_app in Ht as [Ht|Ht].
      + destruct (lk !! id1) as [old|] eqn:Eo; simpl in Ht.
        * by apply (HP id1 old).
        * by apply elem_of_nil in Ht.
      + apply list_elem_of_singleton in Ht as ->.
        apply list_elem_of_fmap. exists (ct, u). split; [done|].
        by apply list_elem_of_lookup_2 with i.
    - rewrite lookup_insert_ne in Hl by done. by apply (HP id1 tmpls1). }
  assert (forall idm lk, P lk ->
            P (foldl (fun lookup '(id, ctmpls) => foldl (inner id) lookup ctmpls)
                     lk idm)) as Houter.
  { induction idm as [|[id0 cts] idm IH]; intros lk HP; [done|].
    simpl. apply IH. by apply Hinner. }
  intros Hl Ht. refine (Houter idMap ∅ _ id tmpls t Hl Ht).
  intros ? ? ? Hempty. by rewrite lookup_empty in Hempty.
Qed.

Lemma templateRunner_Ok c r lk calls :
  templateRunner X nrc c = (Ok (r, lk), calls) ->
  (Templates c = [] /\ r = None /\ lk = ∅ /\ calls = [])
  \/ (Templates c <> [] /\ is_Some r /\ calls = [NewRunner]
      /\ exists m idMap, parseTemplateConfigs X c = Ok m
           /\ nrc c m.*1 = None
           /\ manager_NewRunner X m.*1 = inr idMap
           /\ lk = build_lookup m idMap).
Proof.
  unfold templateRunner. intros H.
  destruct (Templates c) as [|t ts] eqn:Ets.
  - left. by simplify_eq.
  - right. destruct (parseTemplateConfigs X c) as [m|e|] eqn:Ep; try done.
    destruct (nrc c m.*1) eqn:En; [done|].
    destruct (manager_NewRunner X m.*1) as [e|idMap] eqn:Er; [done|].
    destruct (EnvBuilder c) as [tenv|]; [|done].
    injection H as <- <- <-. split; [done|]. split; [by eexists|]. split; [done|].
    by exists m, idMap.
Qed.

Lemma NewTaskTemplateManager_Ok c tm calls :
  NewTaskTemplateManager X nrc (Some c) = (Ok tm, calls) ->
  Validate (Some c) = None
  /\ exists table r lk,
       parse_signals X (Templates c) ∅ = inr table
       /\ templateRunner X nrc c = (Ok (r, lk), calls)
       /\ tm = {| config_ := c; lookup := lk; runner := r; signals := table;
                  shutdown := false |}.
Proof.
  unfold NewTaskTemplateManager. intros H.
  destruct (Validate (Some c)); [done|]. split; [done|].
  destruct (parse_signals X (Templates c) ∅) as [e|table]; [done|].
  destruct (templateRunner X nrc c) as [[[r lk]|e|] calls'] eqn:Et; try done.
  injection H as <- <-. by exists table, r, lk.
Qed.

(** X3.  The manager [NewTaskTemplateManager] returns keeps the configuration it
    was given and is not shut down; it has an engine exactly when the
    configuration has templates, and the engine was then created by one
    call; every template found in its lookup is a template of the
    configuration. *)
Theorem constructed_manager (c : TaskTemplateManagerConfig)
    (tm : TaskTemplateManager) (calls : list Call) :
  NewTaskTemplateManager X nrc (Some c) = (Ok tm, calls) ->
  config_ tm = c /\ shutdown tm = false
  /\ (runner tm = None <-> Templates c = [])
  /\ calls = match Templates c with [] => [] | _ => [NewRunner] end
  /\ (forall id tmpls t, lookup tm !! id = Some tmpls -> t ∈ tmpls ->
        t ∈ Templates c).
Proof.
  intros H. apply NewTaskTemplateManager_Ok in H as (_ & table & r & lk & _ & Ht & ->).
  simpl. split; [done|]. split; [done|].
  apply templateRunner_Ok in Ht
    as [(Hts & -> & -> & ->)|(Hts & [r' ->] & -> & m & idMap & Hp & _ & _ & ->)].
  - rewrite Hts. split; [done|]. split; [done|].
    intros id tmpls t Hl. by rewrite lookup_empty in Hl.
  - split; [split; [done|done]|]. split; [by destruct (Templates c)|].
    intros id tmpls t Hl Hin.
    apply parseTemplateConfigs_inv in Hp as (_ & _ & _ & _ & _ & _ & <- & _).
    by apply (build_lookup_from_mapping m idMap id tmpls).
Qed.

Lemma ParseUint_digits_value : forall s n v,
  0 <= n <= 4095 ->
  ParseUint_digits s n = inr v ->
  0 <= v <= 4095 /\ all_octal s = true /\ v = octal_value s n.
Proof.
  induction s as [|a s IH]; intros n v Hn H; simpl in H.
  - injection H as <-. done.
  - simpl. destruct (octal_digit a) as [d|] eqn:Ed; [|done].
    destruct (4095 <? n * 8 + d) eqn:Er; [done|]. apply Z.ltb_ge in Er.
    assert (0 <= d) as Hd.
    { unfold octal_digit in Ed.
      destruct ((48 <=? Z.of_N (N_of_ascii a)) && (Z.of_N (N_of_ascii a) <=? 55)) eqn:E;
        [|done].
      apply andb_true_iff in E as [E1 _]. apply Z.leb_le in E1.
      injection Ed as <-. lia. }
    apply IH in H as (Hv & Ho & ->); [|lia].
    split; [done|]. split; [|done].
    rewrite Ho. rewrite bool_decide_eq_true_2; [done|by eexists].
Qed.

Lemma translate_descriptor se dl td tenv t ct :
  translate X se dl td tenv t = Ok ct ->
  (se = true -> source_escapes X tenv t = false /\ dest_escapes X tenv t = false)
  /\ exists ct0,
       ct = TemplateConfig_Finalize X ct0
       /\ ctconf.SandboxPath ct0
          = (if se then Some td
             else ctconf.SandboxPath (ctconf_DefaultTemplateConfig X))
       /\ ctconf.FunctionDenylist ct0 = dl
       /\ (structs.Perms t = "" ->
           ctconf.Perms ct0 = ctconf.Perms (ctconf_DefaultTemplateConfig X))
       /\ (structs.Perms t <> "" ->
           exists v, ctconf.Perms ct0 = Some v
             /\ 0 <= v <= 4095 /\ all_octal (structs.Perms t) = true
             /\ v = octal_value (structs.Perms t) 0)
       /\ (forall u, structs.Uid t = Some u -> 0 <= u -> ctconf.Uid ct0 = Some u)
       /\ (structs.Uid t = None \/ (exists u, structs.Uid t = Some u /\ u < 0) ->
           ctconf.Uid ct0 = ctconf.Uid (ctconf_DefaultTemplateConfig X))
       /\ (forall g, structs.Gid t = Some g -> 0 <= g -> ctconf.Gid ct0 = Some g)
       /\ (structs.Gid t = None \/ (exists g, structs.Gid t = Some g /\ g < 0) ->
           ctconf.Gid ct0 = ctconf.Gid (ctconf_DefaultTemplateConfig X))
       /\ (structs.Wait t = None ->
           ctconf.Wait ct0 = ctconf.Wait (ctconf_DefaultTemplateConfig X))
       /\ (forall w, structs.Wait t = Some w ->
           WaitConfig_Validate X w = None
           /\ ctconf.Wait ct0 = Some (true, structs.Min w, structs.Max w)).
Proof.
  unfold translate, source_escapes, dest_escapes. intros H.
  destruct (if decide (structs.SourcePath t = "") then ("", false)
            else ClientPath X tenv (structs.SourcePath t) false)
    as [src srcEscapes] eqn:Es.
  destruct (srcEscapes && se) eqn:E1; [done|].
  destruct (if decide (structs.DestPath t = "") then ("", false)
            else ClientPath X tenv (structs.DestPath t) true)
    as [dest destEscapes] eqn:Ed.
  destruct (destEscapes && se) eqn:E2; [done|].
  destruct (match structs.Wait t with
            | Some w => match WaitConfig_Validate X w with
                        | Some e => inl e
                        | None => inr (Some (true, structs.Min w, structs.Max w))
                        end
            | None => inr (ctconf.Wait (ctconf_DefaultTemplateConfig X))
            end) as [e|wait] eqn:Ew; [done|].
  destruct (if decide (structs.Perms t = "")
            then inr (ctconf.Perms (ctconf_DefaultTemplateConfig X))
            else match ParseUint_8_12 (structs.Perms t) with
                 | inl cause =>
                     inl (fmt_Errorf "Failed to parse %q as octal: %v"
                            [structs.Perms t;
                             NumError_Error (quote X) (structs.Perms t) cause])
                 | inr v => inr (Some v)
                 end) as [e|perms] eqn:Ep; [done|].
  injection H as <-.
  split.
  { intros ->. rewrite andb_true_r in E1, E2. subst srcEscapes destEscapes.
    split.
    - destruct (decide (structs.SourcePath t = "")); [done|]. by rewrite Es.
    - destruct (decide (structs.DestPath t = "")); [done|]. by rewrite Ed. }
  eexists. split; [reflexivity|]. cbn [ctconf.SandboxPath ctconf.FunctionDenylist
    ctconf.Perms ctconf.Uid ctconf.Gid ctconf.Wait].
  split; [done|]. split; [done|].
  split.
  { intros He. destruct (decide (structs.Perms t = "")) as [_|Hne]; [|done].
    by injection Ep as <-. }
  split.
  { intros Hne. destruct (decide (structs.Perms t = "")) as [He|_]; [done|].
    destruct (ParseUint_8_12 (structs.Perms t)) as [|v'] eqn:Ev; [done|].
    injection Ep as <-. exists v'. split; [done|]. unfold ParseUint_8_12 in Ev.
    destruct (structs.Perms t) as [|a s] eqn:Eperms; [done|].
    by apply ParseUint_digits_value in Ev. }
  split.
  { intros u -> Hu. destruct (0 <=? u) eqn:E; [done|]. apply Z.leb_gt in E. lia. }
  split.
  { intros [->|(u & -> & Hu)]; [done|].
    destruct (0 <=? u) eqn:E; [apply Z.leb_le in E; lia|done]. }
  split.
  { intros g -> Hg. destruct (0 <=? g) eqn:E; [done|]. apply Z.leb_gt in E. lia. }
  split.
  { intros [->|(g & -> & Hg)]; [done|].
    destruct (0 <=? g) eqn:E; [apply Z.leb_le in E; lia|done]. }
  split.
  - intros Hw. rewrite Hw in Ew. by injection Ew as <-.
  - intros w Hw. rewrite Hw in Ew.
    destruct (WaitConfig_Validate X w); [done|]. by injection Ew as <-.
Qed.

Lemma isSandboxEnabled_parse c cc tc :
  ClientConfig c = Some cc -> config.TemplateConfig cc = Some tc ->
  isSandboxEnabled c = negb (config.DisableSandbox tc).
Proof. unfold isSandboxEnabled. by intros -> ->. Qed.

(** X5.  What a successful [parseTemplateConfigs] guarantees: one descriptor per
    template, in the order of the templates; with the sandbox enabled (as
    [isSandboxEnabled] tells) neither path of a template escapes.  Every
    descriptor is what [Finalize] returns for a record built from
    [DefaultTemplateConfig()] as follows.  Its sandbox path is the task
    directory with the sandbox enabled, and the default's otherwise.  Its
    permissions are the default's for an empty [Perms]; a non-empty [Perms]
    is a string of octal digits whose value, at most 0o7777, is the
    permissions.  A user or group id that is given and not negative is
    taken over; otherwise the default's stays.  The wait configuration is
    the default's when the template has none, and otherwise the template's
    bounds, which [Validate] accepted, with [Enabled] set. *)
Theorem parsed_descriptors (c : TaskTemplateManagerConfig)
    (m : list (ctconf.TemplateConfig * structs.Template)) :
  parseTemplateConfigs X c = Ok m ->
  m.*2 = Templates c
  /\ exists tenv, EnvBuilder c = Some tenv
     /\ forall ct t, (ct, t) ∈ m ->
        (isSandboxEnabled c = true ->
           source_escapes X tenv t = false /\ dest_escapes X tenv t = false)
        /\ exists ct0,
             ct = TemplateConfig_Finalize X ct0
             /\ ctconf.SandboxPath ct0
                = (if isSandboxEnabled c then Some (TaskDir c)
                   else ctconf.SandboxPath (ctconf_DefaultTemplateConfig X))
             /\ (structs.Perms t = "" ->
                 ctconf.Perms ct0 = ctconf.Perms (ctconf_DefaultTemplateConfig X))
             /\ (structs.Perms t <> "" ->
                 exists v, ctconf.Perms ct0 = Some v
                   /\ 0 <= v <= 4095 /\ all_octal (structs.Perms t) = true
                   /\ v = octal_value (structs.Perms t) 0)
             /\ (forall u, structs.Uid t = Some u -> 0 <= u ->
                   ctconf.Uid ct0 = Some u)
             /\ (structs.Uid t = None \/ (exists u, structs.Uid t = Some u /\ u < 0) ->
                 ctconf.Uid ct0 = ctconf.Uid (ctconf_DefaultTemplateConfig X))
             /\ (forall g, structs.Gid t = Some g -> 0 <= g ->
                   ctconf.Gid ct0 = Some g)
             /\ (structs.Gid t = None \/ (exists g, structs.Gid t = Some g /\ g < 0) ->
                 ctconf.Gid ct0 = ctconf.Gid (ctconf_DefaultTemplateConfig X))
             /\ (structs.Wait t = None ->
                 ctconf.Wait ct0 = ctconf.Wait (ctconf_DefaultTemplateConfig X))
             /\ (forall w, structs.Wait t = Some w ->
                   WaitConfig_Validate X w = None
                   /\ ctconf.Wait ct0 = Some (true, structs.Min w, structs.Max w)).
Proof.
  intros H.
  apply parseTemplateConfigs_inv in H as (cc & tc & tenv & Hcc & Htc & He & H2 & Hall).
  split; [done|]. exists tenv. split; [done|]. intros ct t Hin.
  rewrite (isSandboxEnabled_parse c cc tc Hcc Htc).
  rewrite Forall_forall in Hall. specialize (Hall _ Hin). simpl in Hall.
  apply translate_descriptor in Hall
    as (H1 & ct0 & Hct & Hs & _ & Hp & Hv & Hu & Hu' & Hg & Hg' & Hw & Hw').
  split; [done|]. exists ct0. done.
Qed.

End ConstructionMore.

(** One template with permissions [0644], no owner and no wait
    configuration: the descriptor as the example [Finalize] leaves it. *)
Lemma parsed_descriptors_witness :
  parseTemplateConfigs Demo.X
    (Demo.cfg [Demo.tmpl "a.conf" structs.TemplateChangeModeRestart "" 0 "0644"])
  = Ok [({| ctconf.Source := ""; ctconf.Destination := "/alloc/web/a.conf";
            ctconf.Contents := "{{ key }}"; ctconf.LeftDelim := "{{";
            ctconf.RightDelim := "}}"; ctconf.ErrMissingKey := false;
            ctconf.FunctionDenylist := ["plugin"];
            ctconf.SandboxPath := Some "/alloc/web";
            ctconf.Wait := Some (false, Some 0, Some 0);
            ctconf.Perms := Some 420; ctconf.Uid := None; ctconf.Gid := None |},
         Demo.tmpl "a.conf" structs.TemplateChangeModeRestart "" 0 "0644")]
  /\ octal_value "0644" 0 = 420.
Proof.
  split; [reflexivity|].
  destruct (parsed_descriptors Demo.X
              (Demo.cfg [Demo.tmpl "a.conf" structs.TemplateChangeModeRestart "" 0 "0644"])
              _ eq_refl) as (_ & tenv & _ & H).
  destruct (H _ _ (proj2 (elem_of_cons _ _ _) (or_introl eq_refl)))
    as (_ & ct0 & Hct & _ & _ & Hv & _).
  destruct Hv as (v & Hp & _ & _ & Heq); [discriminate|].
  apply (f_equal ctconf.Perms) in Hct. cbn in Hct. rewrite Hp in Hct.
  cbn in Hct. injection Hct as Hct.
  change (octal_value "0644" 0) with
    (octal_value
       (structs.Perms (Demo.tmpl "a.conf" structs.TemplateChangeModeRestart "" 0 "0644"))
       0).
  rewrite <- Heq. symmetry. exact Hct.
Defined.

Lemma constructed_manager_witness :
  exists tm calls,
    NewTaskTemplateManager Demo.X Demo.nrc
      (Some (Demo.cfg [Demo.restart_now; Demo.signal_hup])) = (Ok tm, calls)
    /\ calls = [NewRunner]
    /\ lookup tm !! "/alloc/web/b.conf" = Some [Demo.signal_hup].
Proof.
  destruct (NewTaskTemplateManager Demo.X Demo.nrc
              (Some (Demo.cfg [Demo.restart_now; Demo.signal_hup])))
    as [[tm|e|] calls] eqn:E; [|vm_compute in E; discriminate..].
  exists tm, calls. split; [reflexivity|].
  destruct (constructed_manager Demo.X Demo.nrc _ tm calls E) as (_ & _ & _ & Hc & _).
  split; [exact Hc|].
  vm_compute in E. injection E as <- _. reflexivity.
Defined.

(** ** Environment masking *)

Section MaskMore.

Import Mask.

Lemma mask_entry_dom env e :
  dom (mask_entry env e) = dom env ∪ {[entry_key e]}.
Proof.
  unfold mask_entry. destruct (env !! entry_key e) eqn:E.
  - apply elem_of_dom_2 in E. apply set_eq. intros x.
    rewrite elem_of_union, elem_of_singleton. split; [by left|].
    intros [Hx | ->]; done.
  - rewrite dom_insert_L. apply set_eq. intros x.
    rewrite !elem_of_union, elem_of_singleton. tauto.
Qed.

Lemma maskProcessEnv_dom procEnvs : forall env,
  dom (maskProcessEnv procEnvs env) = dom env ∪ list_to_set (entry_key <$> procEnvs).
Proof.
  unfold maskProcessEnv.
  induction procEnvs as [|e rest IH]; intros env; simpl.
  - apply set_eq. intros x. rewrite elem_of_union, elem_of_empty. tauto.
  - rewrite IH, mask_entry_dom. apply set_eq. intros x.
    rewrite !elem_of_union, elem_of_singleton. tauto.
Qed.

Lemma maskProcessEnv_defined procEnvs : forall env,
  (forall e, e ∈ procEnvs -> is_Some (env !! entry_key e)) ->
  maskProcessEnv procEnvs env = env.
Proof.
  unfold maskProcessEnv.
  induction procEnvs as [|e rest IH]; intros env H; simpl; [done|].
  assert (mask_entry env e = env) as ->.
  { unfold mask_entry. destruct (H e) as [v ->]; [by left|done]. }
  apply IH. intros e' He'. apply H. by right.
Qed.

(** X6.  [maskProcessEnv] defines exactly the variables of the task environment
    and the names of the process environment, keeps the task environment
    as a part of its result, and masking a second time changes nothing. *)
Theorem maskProcessEnv_idempotent (procEnvs : list string) (env : gmap string string) :
  dom (maskProcessEnv procEnvs env) = dom env ∪ list_to_set (entry_key <$> procEnvs)
  /\ env ⊆ maskProcessEnv procEnvs env
  /\ maskProcessEnv procEnvs (maskProcessEnv procEnvs env) = maskProcessEnv procEnvs env.
Proof.
  split; [apply maskProcessEnv_dom|]. split.
  - apply map_subseteq_spec. intros k v H. by apply mask_keeps.
  - apply maskProcessEnv_defined. intros e He.
    apply elem_of_dom. rewrite maskProcessEnv_dom.
    apply elem_of_union_r, elem_of_list_to_set, list_elem_of_fmap. by exists e.
Qed.

End MaskMore.

(** ** Harvest of the environment templates *)

Section HarvestFacts.

Variable X : Outside.

Lemma loadTemplateEnv_app w tenv l1 : forall l2 all,
  loadTemplateEnv X w tenv (l1 ++ l2) all
  = match loadTemplateEnv X w tenv l1 all with
    | inl e => inl e
    | inr a => loadTemplateEnv X w tenv l2 a
    end.
Proof.
  induction l1 as [|t l1 IH]; intros l2 all; simpl; [done|].
  destruct (structs.Envvars t); simpl; [|apply IH].
  destruct (os_Open w _) as [err|contents]; [done|].
  destruct (envparse_Parse X contents) as [err|vars]; [done|]. apply IH.
Qed.

(** X7.  [loadTemplateEnv] goes through the templates in order: an error of an
    earlier template is the result whatever follows, and the variables of
    the last environment template override those harvested before it. *)
Theorem loadTemplateEnv_in_order (w : World) (tenv : gmap string string)
    (tmpls : list structs.Template) (all : gmap string string) :
  (forall e more, loadTemplateEnv X w tenv tmpls all = inl e ->
     loadTemplateEnv X w tenv (tmpls ++ more) all = inl e)
  /\ (forall t m, structs.Envvars t = true ->
        loadTemplateEnv X w tenv (tmpls ++ [t]) all = inr m ->
        exists prev contents vars,
          loadTemplateEnv X w tenv tmpls all = inr prev
          /\ os_Open w (ClientPath X tenv (structs.DestPath t) true).1 = inr contents
          /\ envparse_Parse X contents = inr vars
          /\ m = vars ∪ prev
          /\ (forall k v, vars !! k = Some v -> m !! k = Some v)).
Proof.
  split.
  - intros e more H. by rewrite loadTemplateEnv_app, H.
  - intros t m Ht H. rewrite loadTemplateEnv_app in H.
    destruct (loadTemplateEnv X w tenv tmpls all) as [e|prev]; [done|].
    simpl in H. rewrite Ht in H. simpl in H.
    destruct (os_Open w _) as [err|contents] eqn:Eo; [done|].
    destruct (envparse_Parse X contents) as [err|vars] eqn:Ep; [done|].
    injection H as <-. exists prev, contents, vars.
    repeat (split; [done|]). intros k v Hk. by apply lookup_union_Some_l.
Qed.

(** X8.  [loadTemplateEnv] reads the destinations of the templates with
    [Envvars] set and nothing else: templates without it can be left out,
    and two worlds that agree on those files give the same result. *)
Theorem loadTemplateEnv_reads_env_templates_only (w w' : World)
    (tenv : gmap string string) (tmpls : list structs.Template)
    (all : gmap string string) :
  loadTemplateEnv X w tenv tmpls all
  = loadTemplateEnv X w tenv (List.filter structs.Envvars tmpls) all
  /\ ((forall t, t ∈ tmpls -> structs.Envvars t = true ->
         os_Open w (ClientPath X tenv (structs.DestPath t) true).1
         = os_Open w' (ClientPath X tenv (structs.DestPath t) true).1) ->
      loadTemplateEnv X w tenv tmpls all = loadTemplateEnv X w' tenv tmpls all).
Proof.
  split.
  - revert all. induction tmpls as [|t ts IH]; intros all; simpl; [done|].
    destruct (structs.Envvars t) eqn:Et; simpl; [|apply IH].
    rewrite Et. simpl.
    destruct (os_Open w _) as [err|contents]; [done|].
    destruct (envparse_Parse X contents) as [err|vars]; [done|]. apply IH.
  - revert all. induction tmpls as [|t ts IH]; intros all H; simpl; [done|].
    destruct (structs.Envvars t) eqn:Et; simpl.
    + rewrite <- (H t); [|by left|done].
      destruct (os_Open w _) as [err|contents]; [done|].
      destruct (envparse_Parse X contents) as [err|vars]; [done|].
      apply IH. intros u Hu. apply H. by right.
    + apply IH. intros u Hu. apply H. by right.
Qed.

End HarvestFacts.

(** ** Counting calls *)

Lemma count_calls_app p l1 l2 :
  count_calls p (l1 ++ l2) = (count_calls p l1 + count_calls p l2)%nat.
Proof. unfold count_calls. by rewrite List.filter_app, length_app. Qed.

Lemma count_calls_cons p c l :
  count_calls p (c :: l) = ((if p c then 1 else 0) + count_calls p l)%nat.
Proof. unfold count_calls. simpl. by destruct (p c). Qed.

Lemma count_calls_all p l :
  Forall (fun c => p c = true) l -> count_calls p l = length l.
Proof.
  unfold count_calls. induction 1 as [|c l Hc _ IH]; simpl; [done|].
  rewrite Hc. simpl. by rewrite IH.
Qed.

Lemma count_calls_none p l :
  Forall (fun c => p c = false) l -> count_calls p l = 0%nat.
Proof.
  unfold count_calls. induction 1 as [|c l Hc _ IH]; simpl; [done|].
  by rewrite Hc.
Qed.

Lemma omap_nil_iff {A B} (f : A -> option B) (l : list A) :
  omap f l = [] <-> forall x, x ∈ l -> f x = None.
Proof.
  induction l as [|a l IH]; simpl.
  - split; [|done]. intros _ x Hx. by apply elem_of_nil in Hx.
  - destruct (f a) eqn:E.
    + split; [done|]. intros H. specialize (H a (proj2 (elem_of_cons _ _ _) (or_introl eq_refl))).
      congruence.
    + rewrite IH. split.
      * intros H x Hx. apply elem_of_cons in Hx as [-> | Hx]; [done|]. by apply H.
      * intros H x Hx. apply H. by right.
Qed.

(** ** Signals and scripts *)

Section ActionFacts.

Variable X : Outside.
Variable tm : TaskTemplateManager.

Lemma signal_loop_known w : forall names,
  (forall name, name ∈ names -> is_Some (signals tm !! name)) ->
  signal_loop tm w names
  = ((fun name =>
        Signal (structs.SetDisplayMessage "Template re-rendered"
                  (structs.SetTaskSignal (signals tm !! name)
                     (structs.NewTaskEvent structs.TaskSignaling))) name) <$> names,
     omap (Lifecycle_Signal w) names, false).
Proof.
  induction names as [|name rest IH]; intros Hk; [done|].
  cbn [signal_loop]. destruct (Hk name) as [s Hs]; [by left|].
  rewrite IH by (intros n Hn; apply Hk; by right). rewrite Hs.
  cbn [fmap list_fmap omap list_omap]. rewrite Hs.
  by destruct (Lifecycle_Signal w name).
Qed.

Lemma signal_loop_sent w : forall names,
  Forall (fun c => is_Signal c = true) (signal_loop tm w names).1.1.
Proof.
  induction names as [|name rest IH]; [by constructor|]. cbn [signal_loop].
  destruct (signals tm !! name); [|by constructor].
  destruct (signal_loop tm w rest) as [[sent errs] panicked]. simpl in *.
  by constructor.
Qed.

Lemma handleChangeModeSignal_calls w names :
  Forall (fun c => is_Signal c || is_Kill c = true)
    (handleChangeModeSignal X tm w names).
Proof.
  unfold handleChangeModeSignal.
  pose proof (signal_loop_sent w (elements names)) as Hs.
  destruct (signal_loop tm w (elements names)) as [[sent errs] panicked]. simpl in Hs.
  assert (Forall (fun c => is_Signal c || is_Kill c = true) sent) as Hs'.
  { eapply Forall_impl; [exact Hs|]. intros c Hc. by rewrite Hc. }
  destruct panicked; [done|]. destruct errs; [done|].
  apply Forall_app. split; [done|]. by repeat constructor.
Qed.

Lemma handleChangeModeSignal_panics_known w names :
  (forall name, name ∈ names -> is_Some (signals tm !! name)) ->
  handleChangeModeSignal_panics tm w names = false.
Proof.
  intros Hk. unfold handleChangeModeSignal_panics.
  rewrite signal_loop_known; [done|].
  intros name Hn. apply Hk. by apply elem_of_elements.
Qed.

Lemma handleChangeModeSignal_shape w names :
  (forall name, name ∈ names -> is_Some (signals tm !! name)) ->
  exists sent tail,
    handleChangeModeSignal X tm w names = sent ++ tail
    /\ Forall (fun c => is_Signal c = true) sent
    /\ length sent = size names
    /\ (forall name, name ∈ names <-> exists ev, Signal ev name ∈ sent)
    /\ ((forall name, name ∈ names -> Lifecycle_Signal w name = None) /\ tail = []
        \/ (exists name, name ∈ names /\ is_Some (Lifecycle_Signal w name))
           /\ exists ev, tail = [Kill ev] /\ structs.FailsTask ev = true).
Proof.
  intros Hk. unfold handleChangeModeSignal.
  rewrite signal_loop_known by (intros name Hn; apply Hk; by apply elem_of_elements).
  set (f := fun name =>
              Signal (structs.SetDisplayMessage "Template re-rendered"
                        (structs.SetTaskSignal (signals tm !! name)
                           (structs.NewTaskEvent structs.TaskSignaling))) name).
  exists (f <$> elements names).
  assert (Forall (fun c => is_Signal c = true) (f <$> elements names)) as Hall.
  { apply Forall_fmap, Forall_forall. done. }
  assert (forall name, name ∈ names <-> exists ev, Signal ev name ∈ f <$> elements names)
    as Hnames.
  { intros name. split.
    - intros Hn. eexists. apply list_elem_of_fmap. exists name. split; [reflexivity|].
      by apply elem_of_elements.
    - intros [ev Hev]. apply list_elem_of_fmap in Hev as (n & Heq & Hn).
      unfold f in Heq. injection Heq as _ ->. by apply elem_of_elements. }
  destruct (omap (Lifecycle_Signal w) (elements names)) as [|err errs] eqn:Eo.
  - exists []. rewrite app_nil_r. split; [done|]. split; [done|].
    split; [by rewrite length_fmap|]. split; [done|]. left. split; [|done].
    intros name Hn. apply (proj1 (omap_nil_iff _ _) Eo). by apply elem_of_elements.
  - eexists. split; [reflexivity|]. split; [done|].
    split; [by rewrite length_fmap|]. split; [done|]. right. split.
    + destruct (decide (Forall (fun name => Lifecycle_Signal w name = None)
                          (elements names))) as [Hf|Hf].
      * rewrite Forall_forall in Hf. apply omap_nil_iff in Hf. congruence.
      * apply not_Forall_Exists in Hf; [|intros ?; apply _].
        apply Exists_exists in Hf as (name & Hn & Hsome).
        exists name. split; [by apply elem_of_elements|].
        destruct (Lifecycle_Signal w name) eqn:E; [by eexists|].
        exfalso. apply Hsome. exact E.
    + eexists. split; [reflexivity|done].
Qed.

(** X9.  For names the signal table knows, [handleChangeModeSignal] signals
    every name of the set once; it kills
    the task, once and after the signals, exactly when the task refused one
    of them, and makes no other call. *)
Theorem signals_sent_once (w : World) (names : gset string) :
  (forall name, name ∈ names -> is_Some (signals tm !! name)) ->
  count_calls is_Signal (handleChangeModeSignal X tm w names) = size names
  /\ (forall name, name ∈ names <->
        exists ev, Signal ev name ∈ handleChangeModeSignal X tm w names)
  /\ (count_calls is_Kill (handleChangeModeSignal X tm w names) <= 1)%nat
  /\ (count_calls is_Kill (handleChangeModeSignal X tm w names) = 0%nat
      <-> forall name, name ∈ names -> Lifecycle_Signal w name = None)
  /\ (forall ev, Kill ev ∈ handleChangeModeSignal X tm w names ->
        last (handleChangeModeSignal X tm w names) = Some (Kill ev)
        /\ structs.FailsTask ev = true)
  /\ Forall (fun c => is_Signal c || is_Kill c = true)
       (handleChangeModeSignal X tm w names).
Proof.
  intros Hknown.
  destruct (handleChangeModeSignal_shape w names Hknown)
    as (sent & tail & -> & Hsent & Hlen & Hnames & Htail).
  assert (count_calls is_Kill sent = 0%nat) as Hk.
  { apply count_calls_none. eapply Forall_impl; [exact Hsent|].
    intros c Hc. by destruct c. }
  assert (forall ev, Kill ev ∉ sent) as Hnk.
  { intros ev Hin. rewrite Forall_forall in Hsent. by specialize (Hsent _ Hin). }
  rewrite !count_calls_app, (count_calls_all _ _ Hsent), Hk, Hlen.
  destruct Htail as [[Hnone ->]|[(name & Hn & Hsome) (ev & -> & Hfails)]].
  - rewrite app_nil_r. split; [unfold count_calls; simpl; lia|]. split; [done|].
    split; [unfold count_calls; simpl; lia|]. split; [done|].
    split; [intros ev Hin; by apply Hnk in Hin|].
    eapply Forall_impl; [exact Hsent|]. intros c Hc. by rewrite Hc.
  - split; [unfold count_calls; simpl; lia|]. split.
    { intros n. rewrite Hnames. split.
      - intros [e He]. exists e. apply elem_of_app. by left.
      - intros [e He]. apply elem_of_app in He as [He|He]; [by exists e|].
        apply list_elem_of_singleton in He. done. }
    split; [unfold count_calls; simpl; lia|]. split.
    + unfold count_calls. simpl. split; [lia|].
      intros Hall. rewrite (Hall _ Hn) in Hsome. by destruct Hsome.
    + split.
      * intros ev' Hin. apply elem_of_app in Hin as [Hin|Hin]; [by apply Hnk in Hin|].
        apply list_elem_of_singleton in Hin. injection Hin as ->.
        by rewrite last_snoc.
      * apply Forall_app. split.
        -- eapply Forall_impl; [exact Hsent|]. intros c Hc. by rewrite Hc.
        -- by constructor.
Qed.

Lemma processScript_calls w script :
  count_calls is_Exec (processScript X w script) = 1%nat
  /\ count_calls is_EmitEvent (processScript X w script) = 1%nat
  /\ count_calls is_Kill (processScript X w script)
     = (if script_fails w script && structs.FailOnError script then 1%nat else 0%nat)
  /\ Forall (fun c => is_Exec c || is_EmitEvent c || is_Kill c = true)
       (processScript X w script).
Proof.
  unfold processScript, script_fails, handleScriptError, count_calls.
  destruct (Lifecycle_Exec w script) as [exitCode [err|]]; simpl.
  - destruct (structs.FailOnError script); simpl; repeat split; repeat constructor.
  - destruct (exitCode =? 0); simpl; [repeat split; repeat constructor|].
    destruct (structs.FailOnError script); simpl; repeat split; repeat constructor.
Qed.

Lemma handleChangeModeScript_calls (w : World) (l : list structs.ChangeScriptT) :
  count_calls is_Exec (handleChangeModeScript X w l) = length l
  /\ count_calls is_EmitEvent (handleChangeModeScript X w l) = length l
  /\ count_calls is_Kill (handleChangeModeScript X w l)
     = length (List.filter (fun s => script_fails w s && structs.FailOnError s) l)
  /\ Forall (fun c => is_Exec c || is_EmitEvent c || is_Kill c = true)
       (handleChangeModeScript X w l).
Proof.
  unfold handleChangeModeScript.
  induction l as [|s l (IH1 & IH2 & IH3 & IH4)]; [by repeat split|].
  change (concat (processScript X w <$> s :: l))
    with (processScript X w s ++ concat (processScript X w <$> l)).
  destruct (processScript_calls w s) as (H1 & H2 & H3 & H4).
  rewrite !count_calls_app, H1, H2, H3, IH1, IH2, IH3.
  split; [done|]. split; [done|]. split.
  - simpl. destruct (script_fails w s && structs.FailOnError s); simpl; lia.
  - apply Forall_app. done.
Qed.

(** X10.  [handleChangeModeScript] runs every script of the list, a script
    listed twice is run twice; each run emits one event, and the task is
    killed once for every script that fails with [FailOnError] set. *)
Theorem scripts_run_each (w : World) (l : list structs.ChangeScriptT) :
  count_calls is_Exec (handleChangeModeScript X w l) = length l
  /\ count_calls is_EmitEvent (handleChangeModeScript X w l) = length l
  /\ count_calls is_Kill (handleChangeModeScript X w l)
     = length (List.filter (fun s => script_fails w s && structs.FailOnError s) l)
  /\ Forall (fun c => is_Exec c || is_EmitEvent c || is_Kill c = true)
       (handleChangeModeScript X w l).
Proof. apply handleChangeModeScript_calls. Qed.

End ActionFacts.

Lemma signals_sent_once_witness :
  (forall name, name ∈ ({[ "SIGHUP" ]} : gset string) ->
     is_Some (signals Demo.tm_restart_signal !! name))
  /\ count_calls is_Signal
       (handleChangeModeSignal Demo.X Demo.tm_restart_signal (Demo.world 0 false)
          {[ "SIGHUP" ]}) = 1%nat.
Proof.
  assert (forall name, name ∈ ({[ "SIGHUP" ]} : gset string) ->
            is_Some (signals Demo.tm_restart_signal !! name)) as H.
  { intros name Hn. apply elem_of_singleton in Hn as ->. by eexists. }
  split; [exact H|].
  destruct (signals_sent_once Demo.X Demo.tm_restart_signal (Demo.world 0 false)
              {[ "SIGHUP" ]} H) as (Hc & _).
  rewrite Hc. reflexivity.
Defined.

(** ** The dispatcher *)

Section DispatcherMore.

Variable X : Outside.
Variable tm : TaskTemplateManager.

Lemma scan_batch_ind (P : Batch -> Prop) w art :
  (forall id tmpls b, lookup tm !! id = Some tmpls -> P b ->
     P (add_handling id (classify tmpls b))) ->
  forall events h tenv b h' tenv' b',
    scan X tm w art events h tenv b = Scanned h' tenv' b' -> P b -> P b'.
Proof.
  intros Hstep. induction events as [|[id e] rest IH];
    intros h tenv b h' tenv' b' H Hb; simpl in H.
  - by injection H as _ _ <-.
  - destruct (first_time art e); [by eapply IH|].
    destruct (already_handled h id e); [by eapply IH|].
    destruct (lookup tm !! id) as [tmpls|] eqn:El; [|done].
    destruct (loadTemplateEnv X w tenv (Templates (config_ tm)) ∅); [done|].
    eapply IH; [exact H|]. by apply Hstep.
Qed.

Lemma scan_splay_nonneg w art events h tenv b h' tenv' b' :
  scan X tm w art events h tenv b = Scanned h' tenv' b' ->
  0 <= splay b -> 0 <= splay b'.
Proof.
  apply (scan_batch_ind (fun b => 0 <= splay b)).
  intros id tmpls b0 _ Hb0. simpl. rewrite classify_splay.
  pose proof (max_splay_from_ge (splay b0) (actionable tmpls)). lia.
Qed.

Lemma onTemplateRendered_never_panics w st art events :
  (onTemplateRendered X tm w st art events).2 <> Panicked.
Proof.
  unfold onTemplateRendered.
  destruct (scan X tm w art events (handledRenders st) (templateEnv st) empty_batch)
    as [h' tenv' b|h' tenv' ev] eqn:Hscan; [|done].
  apply scan_splay_nonneg in Hscan; [|done].
  destruct (shouldHandle b); simpl; [|done].
  assert (forall slept, (apply_batch X tm w events h' tenv' b slept).2 <> Panicked)
    as Ha.
  { intros slept. unfold apply_batch. destruct (restart b); [done|].
    by destruct (handleChangeModeSignal_panics tm w (signal_set b)). }
  destruct (splay b =? 0) eqn:E; simpl; [done|]. apply Z.eqb_neq in E.
  unfold Int63n. destruct (splay b <=? 0) eqn:E2; [apply Z.leb_le in E2; lia|].
  by destruct (shutdown_fires w).
Qed.

(** X12.  The splay of a batch is never negative, so the draw of the splay
    offset never panics, whatever the events, the templates and the
    world: [rand.Int63n] is only called with a positive argument. *)
Theorem splay_draw_never_panics (w : World) (st : DState) (allRenderedTime : Time)
    (events : list (string * manager.RenderEvent)) :
  (onTemplateRendered X tm w st allRenderedTime events).2 <> Panicked
  /\ forall h tenv b,
       scan X tm w allRenderedTime events (handledRenders st) (templateEnv st)
         empty_batch = Scanned h tenv b ->
       0 <= splay b /\ (splay b <> 0 -> is_Some (Int63n (rand_Int63 w) (splay b))).
Proof.
  split; [apply onTemplateRendered_never_panics|].
  intros h tenv b Hscan. apply scan_splay_nonneg in Hscan; [|done].
  split; [done|]. intros Hne. unfold Int63n.
  destruct (splay b <=? 0) eqn:E; [apply Z.leb_le in E; lia|]. by eexists.
Qed.

Lemma onTemplateRendered_task_calls w st art events :
  Forall (fun c => is_task_call c = true) (onTemplateRendered X tm w st art events).1.2.
Proof.
  unfold onTemplateRendered.
  destruct (scan X tm w art events (handledRenders st) (templateEnv st) empty_batch)
    as [h' tenv' b|h' tenv' ev]; [|by repeat constructor].
  destruct (shouldHandle b); simpl; [|done].
  assert (Forall (fun c => is_task_call c = true)
            (apply_batch X tm w events h' tenv' b None).1.2
          /\ forall o, (apply_batch X tm w events h' tenv' b (Some o)).1.2
                       = (apply_batch X tm w events h' tenv' b None).1.2) as [Ha Hsame].
  { split; [|intros o; unfold apply_batch; destruct (restart b); [done|];
                by destruct (handleChangeModeSignal_panics tm w (signal_set b))].
    unfold apply_batch.
    assert (Forall (fun c => is_task_call c = true)
              (handleChangeModeSignal X tm w (signal_set b))) as Hsig.
    { eapply Forall_impl; [apply handleChangeModeSignal_calls|].
      intros c Hc. by destruct c. }
    destruct (restart b); [by repeat constructor|].
    destruct (handleChangeModeSignal_panics tm w (signal_set b)); [done|].
    apply Forall_app. split; [done|].
    destruct (handleChangeModeScript_calls X w (scripts b)) as (_ & _ & _ & Hs).
    eapply Forall_impl; [exact Hs|]. intros c Hc. by destruct c. }
  destruct (splay b =? 0); simpl; [done|].
  destruct (Int63n (rand_Int63 w) (splay b)); [|done].
  destruct (shutdown_fires w); [done|]. by rewrite Hsame.
Qed.

Lemma scan_first_pass w art events : forall h tenv b,
  (forall id e, (id, e) ∈ events -> first_time art e = true) ->
  scan X tm w art events h tenv b = Scanned (gate_writes art events h) tenv b.
Proof.
  induction events as [|[id e] rest IH]; intros h tenv b Hall; [done|].
  rewrite gate_writes_cons. simpl.
  rewrite (Hall id e) by (by left). apply IH.
  intros id' e' Hin. apply (Hall id' e'). by right.
Qed.

Lemma gate_writes_first_pass art events : forall h id e,
  (forall id e, (id, e) ∈ events -> first_time art e = true) ->
  (id, e) ∈ events -> gate_writes art events h !! id = Some art.
Proof.
  induction events as [|[id' e'] rest IH]; intros h id e Hall Hin.
  - by apply elem_of_nil in Hin.
  - rewrite gate_writes_cons, (Hall id' e') by (by left).
    destruct (decide (id ∈ rest.*1)) as [Hr|Hr].
    + apply list_elem_of_fmap in Hr as ([id1 e1] & -> & Hin').
      apply (IH _ _ e1); [|done]. intros ? ? ?. eapply Hall. by right.
    + rewrite gate_writes_fresh by done.
      apply elem_of_cons in Hin as [Heq|Hin].
      * injection Heq as -> ->. apply lookup_insert_eq.
      * exfalso. apply Hr. apply list_elem_of_fmap. by exists (id, e).
Qed.

Lemma first_time_le art e :
  first_time art e = true <-> manager.LastDidRender e <= art.
Proof.
  unfold first_time, After, Equal. rewrite orb_true_iff, Z.ltb_lt, Z.eqb_eq. lia.
Qed.

(** X13.  Renders that are not later than the time all templates were rendered
    are never acted on: a batch made of such events ends without any call
    and without reading a file, even for an id the manager does not know;
    it only records the time for each of them. *)
Theorem renders_before_all_rendered_ignored (w : World) (st : DState)
    (allRenderedTime : Time) (events : list (string * manager.RenderEvent)) :
  (forall id e, (id, e) ∈ events -> manager.LastDidRender e <= allRenderedTime) ->
  exists h',
    onTemplateRendered X tm w st allRenderedTime events
    = ({| handledRenders := h'; templateEnv := templateEnv st |}, [], NothingToDo)
    /\ (forall id e, (id, e) ∈ events -> h' !! id = Some allRenderedTime)
    /\ (forall id, id ∉ events.*1 -> h' !! id = handledRenders st !! id).
Proof.
  intros Hle.
  assert (forall id e, (id, e) ∈ events -> first_time allRenderedTime e = true) as Hft.
  { intros id e Hin. apply first_time_le. by apply (Hle id). }
  exists (gate_writes allRenderedTime events (handledRenders st)).
  split; [|split].
  - unfold onTemplateRendered. by rewrite scan_first_pass.
  - intros id e Hin. by apply (gate_writes_first_pass _ _ _ _ e).
  - intros id Hnin. by apply gate_writes_fresh.
Qed.

(** *** Managers whose templates are all noop *)

Lemma existsb_not_noop ts :
  Forall (fun t => is_noop t = true) ts ->
  existsb (fun t => negb (is_noop t)) ts = false.
Proof. induction 1 as [|t ts Ht _ IH]; simpl; [done|]. by rewrite Ht. Qed.

Lemma scan_noop_lookup w art events h tenv b h' tenv' b' :
  (forall id tmpls, lookup tm !! id = Some tmpls ->
     Forall (fun t => is_noop t = true) tmpls) ->
  scan X tm w art events h tenv b = Scanned h' tenv' b' ->
  shouldHandle b = false -> shouldHandle b' = false.
Proof.
  intros Hnoop. apply (scan_batch_ind (fun b => shouldHandle b = false)).
  intros id tmpls b0 Hl Hb0.
  change (shouldHandle (classify tmpls b0) = false).
  rewrite classify_shouldHandle, Hb0. simpl.
  apply existsb_not_noop. by apply (Hnoop id).
Qed.

Lemma noop_lookup_inert w st art events :
  (forall id tmpls, lookup tm !! id = Some tmpls ->
     Forall (fun t => is_noop t = true) tmpls) ->
  ((onTemplateRendered X tm w st art events).2 = NothingToDo
   /\ (onTemplateRendered X tm w st art events).1.2 = [])
  \/ ((onTemplateRendered X tm w st art events).2 = Aborted
      /\ exists ev, (onTemplateRendered X tm w st art events).1.2 = [Kill ev]).
Proof.
  intros Hnoop. unfold onTemplateRendered.
  destruct (scan X tm w art events (handledRenders st) (templateEnv st) empty_batch)
    as [h' tenv' b|h' tenv' ev] eqn:Hscan.
  - left. apply (scan_noop_lookup _ _ _ _ _ _ _ _ _ Hnoop) in Hscan; [|done].
    by rewrite Hscan.
  - right. split; [done|]. by exists ev.
Qed.

End DispatcherMore.

Lemma renders_before_all_rendered_ignored_witness :
  (forall id e, (id, e) ∈ [("a", Demo.event "a" 5); ("zz", Demo.event "zz" 7)] ->
     manager.LastDidRender e <= 7)
  /\ exists h',
       onTemplateRendered Demo.X Demo.tm_restart_signal (Demo.world 0 false)
         Demo.fresh 7 [("a", Demo.event "a" 5); ("zz", Demo.event "zz" 7)]
       = ({| handledRenders := h'; templateEnv := ∅ |}, [], NothingToDo)
       /\ h' !! "zz" = Some 7.
Proof.
  assert (forall id e, (id, e) ∈ [("a", Demo.event "a" 5); ("zz", Demo.event "zz" 7)] ->
            manager.LastDidRender e <= 7) as H.
  { intros id e Hin.
    apply elem_of_cons in Hin as [Heq|Hin]; [injection Heq as -> ->; simpl; lia|].
    apply list_elem_of_singleton in Hin. injection Hin as -> ->. simpl. lia. }
  split; [exact H|].
  destruct (renders_before_all_rendered_ignored Demo.X Demo.tm_restart_signal
              (Demo.world 0 false) Demo.fresh 7 _ H) as (h' & Heq & Hin & _).
  exists h'. split; [exact Heq|].
  apply (Hin "zz" (Demo.event "zz" 7)). right. left.
Defined.

Section ActionCounts.

Variable X : Outside.
Variable tm : TaskTemplateManager.

Lemma classify_one_signal_set b t :
  signal_set (classify_one b t)
  = if is_signal t then {[structs.ChangeSignal t]} ∪ signal_set b else signal_set b.
Proof.
  unfold classify_one, raise_splay, is_signal.
  destruct (structs.ChangeMode t); simpl; try done; by destruct (_ <? _).
Qed.

Lemma classify_signal_set ts : forall b,
  signal_set (classify ts b)
  = list_to_set (structs.ChangeSignal <$> List.filter is_signal ts) ∪ signal_set b.
Proof.
  unfold classify. induction ts as [|t ts IH]; intros b; simpl.
  - by rewrite (left_id_L ∅ (∪)).
  - rewrite IH, classify_one_signal_set. destruct (is_signal t); simpl; [|done].
    apply set_eq. intros x. rewrite !elem_of_union. tauto.
Qed.

Lemma classify_one_scripts b t :
  scripts (classify_one b t)
  = scripts b ++ (if is_script t then [structs.ChangeScript t] else []).
Proof.
  unfold classify_one, raise_splay, is_script.
  destruct (structs.ChangeMode t); simpl; rewrite ?app_nil_r; try done;
    by destruct (_ <? _).
Qed.

Lemma classify_scripts ts : forall b,
  scripts (classify ts b)
  = scripts b ++ (structs.ChangeScript <$> List.filter is_script ts).
Proof.
  unfold classify. induction ts as [|t ts IH]; intros b; simpl.
  - by rewrite app_nil_r.
  - rewrite IH, classify_one_scripts. destruct (is_script t); simpl.
    + by rewrite <- app_assoc.
    + by rewrite app_nil_r.
Qed.

(** X11.  When a batch without a restart template is applied, the task gets one
    signal for each distinct [ChangeSignal] of the signal templates that
    re-rendered (templates that share a signal share one delivery), one
    run for every script template that re-rendered, and no restart. *)
Theorem change_actions_counted (w : World) (st st' : DState) (allRenderedTime : Time)
    (events : list (string * manager.RenderEvent)) (calls : list Call)
    (slept : option Duration) :
  NoDup events.*1 ->
  onTemplateRendered X tm w st allRenderedTime events = (st', calls, Applied slept) ->
  existsb is_restart
    (dirty_templates tm allRenderedTime (handledRenders st) events) = false ->
  (forall t, t ∈ dirty_templates tm allRenderedTime (handledRenders st) events ->
     is_signal t = true -> is_Some (signals tm !! structs.ChangeSignal t)) ->
  count_calls is_Signal calls
  = size (list_to_set
            (structs.ChangeSignal
               <$> List.filter is_signal
                     (dirty_templates tm allRenderedTime (handledRenders st) events))
          : gset string)
  /\ count_calls is_Exec calls
     = length (List.filter is_script
                 (dirty_templates tm allRenderedTime (handledRenders st) events))
  /\ count_calls is_Restart calls = 0%nat.
Proof.
  intros Hnd Hrun Hnr Hknown.
  destruct (onTemplateRendered_inv X tm w st allRenderedTime events st' calls _
              Hnd Hrun) as [(? & ? & _ & _ & Habs)|(b & Hb & Hend)];
    [discriminate Habs|].
  apply Ending_applied in Hend as (_ & _ & -> & _).
  destruct (batch_of_scan tm allRenderedTime (handledRenders st) events)
    as (_ & Hr & _).
  rewrite <- Hb in Hr. rewrite Hr, Hnr.
  assert (signal_set b
          = list_to_set
              (structs.ChangeSignal
                 <$> List.filter is_signal
                       (dirty_templates tm allRenderedTime (handledRenders st) events)))
    as ->.
  { rewrite Hb. simpl. rewrite classify_signal_set. simpl.
    by rewrite (right_id_L ∅ (∪)). }
  assert (scripts b
          = structs.ChangeScript
              <$> List.filter is_script
                    (dirty_templates tm allRenderedTime (handledRenders st) events))
    as ->.
  { rewrite Hb. simpl. by rewrite classify_scripts. }
  set (names := list_to_set _ : gset string).
  set (l := structs.ChangeScript <$> _).
  assert (forall name, name ∈ names -> is_Some (signals tm !! name)) as Hnames.
  { intros name Hn. apply elem_of_list_to_set, list_elem_of_fmap in Hn
      as (t & -> & Ht).
    apply list_elem_of_In, filter_In in Ht as [Ht Hs].
    apply list_elem_of_In in Ht. by apply Hknown. }
  destruct (handleChangeModeSignal_shape X tm w names Hnames)
    as (sent & tail & Heq & Hsent & Hlen & _ & Htail).
  destruct (handleChangeModeScript_calls X w l) as (He & _ & _ & Hscr).
  assert (Forall (fun c => is_Signal c || is_Kill c = true)
            (handleChangeModeSignal X tm w names)) as Hsig.
  { rewrite Heq. apply Forall_app. split.
    - eapply Forall_impl; [exact Hsent|]. intros c Hc. by rewrite Hc.
    - destruct Htail as [[_ ->]|[_ (ev & -> & _)]]; by repeat constructor. }
  rewrite !count_calls_app.
  rewrite (count_calls_none is_Signal (handleChangeModeScript X w l)),
    (count_calls_none is_Exec (handleChangeModeSignal X tm w names)),
    (count_calls_none is_Restart (handleChangeModeSignal X tm w names)),
    (count_calls_none is_Restart (handleChangeModeScript X w l)), He.
  - split; [|split; [|done]].
    + rewrite Heq, count_calls_app, (count_calls_all _ _ Hsent), Hlen.
      rewrite (count_calls_none is_Signal tail); [lia|].
      destruct Htail as [[_ ->]|[_ (ev & -> & _)]]; by repeat constructor.
    + unfold l. by rewrite length_fmap.
  - eapply Forall_impl; [exact Hscr|]. intros c Hc. by destruct c.
  - eapply Forall_impl; [exact Hsig|]. intros c Hc. by destruct c.
  - eapply Forall_impl; [exact Hsig|]. intros c Hc. by destruct c.
  - eapply Forall_impl; [exact Hscr|]. intros c Hc. by destruct c.
Qed.

End ActionCounts.

Lemma change_actions_counted_witness :
  NoDup Demo2.three_renders.*1
  /\ (onTemplateRendered Demo.X Demo2.tm_signals_script (Demo.world 0 false)
        Demo.fresh 5 Demo2.three_renders).2 = Applied None
  /\ count_calls is_Signal
       (onTemplateRendered Demo.X Demo2.tm_signals_script (Demo.world 0 false)
          Demo.fresh 5 Demo2.three_renders).1.2 = 1%nat
  /\ count_calls is_Exec
       (onTemplateRendered Demo.X Demo2.tm_signals_script (Demo.world 0 false)
          Demo.fresh 5 Demo2.three_renders).1.2 = 1%nat.
Proof.
  assert (NoDup Demo2.three_renders.*1) as Hnd.
  { apply (bool_decide_unpack _). vm_compute. exact I. }
  split; [exact Hnd|]. split; [vm_compute; reflexivity|].
  destruct (change_actions_counted Demo.X Demo2.tm_signals_script (Demo.world 0 false)
              Demo.fresh
              (onTemplateRendered Demo.X Demo2.tm_signals_script (Demo.world 0 false)
                 Demo.fresh 5 Demo2.three_renders).1.1
              5 Demo2.three_renders
              (onTemplateRendered Demo.X Demo2.tm_signals_script (Demo.world 0 false)
                 Demo.fresh 5 Demo2.three_renders).1.2
              None Hnd) as (Hs & He & _).
  - vm_compute. reflexivity.
  - vm_compute. reflexivity.
  - intros t Ht Hsig. vm_compute in Ht.
    apply elem_of_cons in Ht as [-> | Ht]; [by eexists|].
    apply elem_of_cons in Ht as [-> | Ht]; [by eexists|].
    apply list_elem_of_singleton in Ht as ->. discriminate Hsig.
  - split; [rewrite Hs; vm_compute; reflexivity|].
    rewrite He. vm_compute. reflexivity.
Defined.

(** *** Managers built from noop templates only *)

Section NoopManagers.

Variable X : Outside.
Variable nrc : TaskTemplateManagerConfig -> list ctconf.TemplateConfig -> option Error.

Lemma NewTaskTemplateManager_lookup c tm calls :
  NewTaskTemplateManager X nrc (Some c) = (Ok tm, calls) ->
  config_ tm = c
  /\ forall id tmpls t, lookup tm !! id = Some tmpls -> t ∈ tmpls -> t ∈ Templates c.
Proof.
  intros H. apply NewTaskTemplateManager_Ok in H as (_ & table & r & lk & _ & Ht & ->).
  simpl. split; [done|].
  apply templateRunner_Ok in Ht
    as [(Hts & -> & -> & ->)|(Hts & _ & -> & m & idMap & Hp & _ & _ & ->)].
  - intros id tmpls t Hl. by rewrite lookup_empty in Hl.
  - intros id tmpls t Hl Hin.
    apply parseTemplateConfigs_inv in Hp as (_ & _ & _ & _ & _ & _ & <- & _).
    by apply (build_lookup_from_mapping m idMap id tmpls).
Qed.

(** X14.  A manager built from templates that are all noop never restarts,
    signals or runs a script: whatever is rendered, a call of
    [onTemplateRendered] makes no call at all, or kills the task because
    the engine named an unknown template or an environment template could
    not be read.  This is what [Run] relies on when it returns without
    entering the re-render loop. *)
Theorem noop_manager_never_acts (c : TaskTemplateManagerConfig)
    (tm : TaskTemplateManager) (calls : list Call) :
  NewTaskTemplateManager X nrc (Some c) = (Ok tm, calls) ->
  allTemplatesNoop tm = true ->
  forall w st allRenderedTime events,
    ((onTemplateRendered X tm w st allRenderedTime events).2 = NothingToDo
     /\ (onTemplateRendered X tm w st allRenderedTime events).1.2 = [])
    \/ ((onTemplateRendered X tm w st allRenderedTime events).2 = Aborted
        /\ exists ev, (onTemplateRendered X tm w st allRenderedTime events).1.2
                      = [Kill ev]).
Proof.
  intros Hnew Hnoop w st art events.
  apply NewTaskTemplateManager_lookup in Hnew as [Hc Hlk].
  apply noop_lookup_inert. intros id tmpls Hl. apply Forall_forall. intros t Ht.
  specialize (Hlk id tmpls t Hl Ht). rewrite <- Hc in Hlk.
  unfold allTemplatesNoop in Hnoop. rewrite forallb_forall in Hnoop.
  apply list_elem_of_In in Hlk. by apply Hnoop in Hlk.
Qed.

End NoopManagers.

Lemma noop_manager_never_acts_witness :
  exists tm calls,
    NewTaskTemplateManager Demo.X Demo.nrc (Some (Demo.cfg [Demo.noop_splayed]))
    = (Ok tm, calls)
    /\ allTemplatesNoop tm = true
    /\ (onTemplateRendered Demo.X tm (Demo.world 0 false) Demo.fresh 5
          [("/alloc/web/c.conf", Demo.event "/alloc/web/c.conf" 10)]).1.2 = [].
Proof.
  destruct (NewTaskTemplateManager Demo.X Demo.nrc (Some (Demo.cfg [Demo.noop_splayed])))
    as [[tm|e|] calls] eqn:E; [|vm_compute in E; discriminate..].
  exists tm, calls. split; [reflexivity|].
  assert (allTemplatesNoop tm = true) as Hn.
  { vm_compute in E. injection E as <- _. reflexivity. }
  split; [exact Hn|].
  destruct (noop_manager_never_acts Demo.X Demo.nrc _ tm calls E Hn
              (Demo.world 0 false) Demo.fresh 5
              [("/alloc/web/c.conf", Demo.event "/alloc/web/c.conf" 10)])
    as [[_ H]|[Habs _]]; [exact H|].
  vm_compute in E. injection E as <- _. vm_compute in Habs. discriminate Habs.
Defined.

(** ** The first-render gate *)

Section GateMore.

Variable X : Outside.
Variable tm : TaskTemplateManager.

(** X15.  A "template rendered" notification opens the gate exactly when the
    engine reports at least as many templates as the lookup holds and every
    reported template would have rendered; a notification that does not
    open it makes no call and leaves the missing dependencies, the timer
    and the environment as they are. *)
Theorem gate_opens_iff (keys_of : gset string -> list string) (st : GateState)
    (events : list (string * manager.RenderEvent)) (isRunning : bool) (w : World) :
  ((gate_step X tm keys_of st (GTemplateRendered events isRunning w)).2 = true
   <-> (size (lookup tm) <= length events)%nat
       /\ forall id e, (id, e) ∈ events -> manager.LastWouldRender e <> 0)
  /\ ((gate_step X tm keys_of st (GTemplateRendered events isRunning w)).2 = false ->
      let st' := (gate_step X tm keys_of st (GTemplateRendered events isRunning w)).1.1 in
      (gate_step X tm keys_of st (GTemplateRendered events isRunning w)).1.2 = []
      /\ missingDependencies st' = missingDependencies st
      /\ timer_armed st' = timer_armed st
      /\ outstandingEvent st' = outstandingEvent st
      /\ gate_env st' = gate_env st).
Proof.
  split.
  - rewrite gate_step_rendered, andb_true_iff, negb_true_iff, bool_decide_eq_false,
      forallb_forall.
    split; intros [H1 H2]; (split; [lia|]).
    + intros id e Hin. apply list_elem_of_In in Hin. specialize (H2 _ Hin). simpl in H2.
      unfold IsZero in H2. apply negb_true_iff, Z.eqb_neq in H2. done.
    + intros [id e] Hin. apply list_elem_of_In in Hin. simpl.
      apply negb_true_iff, Z.eqb_neq. by apply (H2 id).
  - simpl. destruct (bool_decide (length events < size (lookup tm))%nat); [done|].
    destruct (mark_dirty events (dirtyEvents st)) as [dirty all_rendered].
    destruct all_rendered; simpl; [|done].
    destruct (negb (bool_decide (size dirty = 0%nat)) && isRunning); [|done].
    by destruct (onTemplateRendered X tm w _ 0 (range_events keys_of dirty)) as [[d calls] o].
Qed.

(** X16.  A report of missing dependencies never opens the gate and never emits
    by itself.  A report that names the set already known changes nothing
    (so a first report without missing dependencies leaves the gate as it
    started); any other report replaces the set and leaves an event
    outstanding, starting the timer only if none was outstanding. *)
Theorem missing_dependencies_deduplicated (keys_of : gset string -> list string)
    (st : GateState) (events : list (string * manager.RenderEvent)) :
  (gate_step X tm keys_of st (GRenderEvent events)).1.2 = []
  /\ (gate_step X tm keys_of st (GRenderEvent events)).2 = false
  /\ (joined_set events = default ∅ (missingDependencies st) ->
      (gate_step X tm keys_of st (GRenderEvent events)).1.1 = st)
  /\ (joined_set events <> default ∅ (missingDependencies st) ->
      (gate_step X tm keys_of st (GRenderEvent events)).1.1
      = {| missingDependencies := Some (joined_set events);
           timer_armed := if outstandingEvent st then timer_armed st else true;
           dirtyEvents := dirtyEvents st;
           outstandingEvent := true;
           gate_env := gate_env st |}).
Proof.
  simpl.
  destruct (negb (negb (bool_decide (size (joined_set events)
                                     = size (default ∅ (missingDependencies st))))
                  || negb (bool_decide (joined_set events
                                        ⊆ default ∅ (missingDependencies st)))))
    eqn:E; simpl.
  - split; [done|]. split; [done|]. split; [done|]. intros Hne. exfalso. apply Hne.
    apply negb_true_iff, orb_false_iff in E as [E1 E2].
    apply negb_false_iff, bool_decide_eq_true in E1.
    apply negb_false_iff, bool_decide_eq_true in E2.
    apply set_subseteq_size_eq; [done|]. by rewrite E1.
  - split; [done|]. split; [done|]. split; [|done]. intros Heq. exfalso.
    apply negb_false_iff, orb_true_iff in E as [E|E];
      apply negb_true_iff, bool_decide_eq_false in E; apply E; by rewrite Heq.
Qed.

Lemma gate_step_not_running keys_of st i :
  match i with GTemplateRendered _ r _ => r = false | _ => True end ->
  Forall (fun c => is_Kill c || is_EmitEvent c = true)
    (gate_step X tm keys_of st i).1.2
  /\ gate_env (gate_step X tm keys_of st i).1.1 = gate_env st.
Proof.
  destruct i as [|[err|]|events r w|events|]; simpl; intros Hr.
  - done.
  - split; [by repeat constructor|done].
  - done.
  - subst r. destruct (bool_decide (length events < size (lookup tm))%nat); [done|].
    destruct (mark_dirty events (dirtyEvents st)) as [dirty all_rendered].
    destruct all_rendered; simpl; [|done]. by rewrite andb_false_r.
  - by destruct (negb _).
  - destruct (missingDependencies st); simpl; [|done].
    split; [by repeat constructor|done].
Qed.

Lemma gate_loop_not_running keys_of inputs : forall st,
  Forall (fun i => match i with GTemplateRendered _ r _ => r = false | _ => True end)
    inputs ->
  Forall (fun c => is_Kill c || is_EmitEvent c = true)
    (gate_loop X tm keys_of st inputs).1.2
  /\ gate_env (gate_loop X tm keys_of st inputs).1.1 = gate_env st.
Proof.
  induction inputs as [|i rest IH]; intros st Hall; [done|].
  apply Forall_cons in Hall as [Hi Hrest]. simpl.
  destruct (gate_step_not_running keys_of st i Hi) as [Hc He].
  destruct (gate_step X tm keys_of st i) as [[st1 calls1] returned].
  simpl in Hc, He. destruct returned; [done|].
  destruct (IH st1 Hrest) as [Hc2 He2].
  destruct (gate_loop X tm keys_of st1 rest) as [[st2 calls2] r]. simpl in *.
  split; [by apply Forall_app|congruence].
Qed.

(** X17.  As long as the task is not running, the gate never restarts or signals
    the task and never runs a script, whatever is rendered: all it can do
    is kill the task on an engine error and emit the missing-dependency
    event; and it leaves the template environment as it found it. *)
Theorem gate_before_task_runs (keys_of : gset string -> list string)
    (tenv : gmap string string) (inputs : list GateInput) :
  Forall (fun i => match i with GTemplateRendered _ r _ => r = false | _ => True end)
    inputs ->
  Forall (fun c => is_Kill c || is_EmitEvent c = true)
    (handleFirstRender X tm keys_of tenv inputs).1.2
  /\ Forall (fun c => is_change_action c = false)
       (handleFirstRender X tm keys_of tenv inputs).1.2
  /\ gate_env (handleFirstRender X tm keys_of tenv inputs).1.1 = tenv.
Proof.
  intros Hall. unfold handleFirstRender.
  destruct (gate_loop_not_running keys_of inputs (gate_init tenv) Hall) as [Hc He].
  split; [done|]. split; [|done].
  eapply Forall_impl; [exact Hc|]. intros c H. by destruct c.
Qed.

End GateMore.

Lemma gate_before_task_runs_witness :
  Forall (fun i => match i with GTemplateRendered _ r _ => r = false | _ => True end)
    [GErr (Some "boom");
     GTemplateRendered [("a", Demo.event "a" 3); ("b", Demo.event "b" 4)] false
       (Demo.world 0 false)]
  /\ handleFirstRender Demo.X Demo.tm_restart_signal (fun s => elements s) ∅
       [GErr (Some "boom");
        GTemplateRendered [("a", Demo.event "a" 3); ("b", Demo.event "b" 4)] false
          (Demo.world 0 false)]
     = ({| missingDependencies := None; timer_armed := false;
           dirtyEvents := {[ "a" := Demo.event "a" 3; "b" := Demo.event "b" 4 ]};
           outstandingEvent := false; gate_env := ∅ |},
        [Kill (template_failed Demo.X "boom")], true)
  /\ Forall (fun c => is_change_action c = false)
       (handleFirstRender Demo.X Demo.tm_restart_signal (fun s => elements s) ∅
          [GErr (Some "boom");
           GTemplateRendered [("a", Demo.event "a" 3); ("b", Demo.event "b" 4)] false
             (Demo.world 0 false)]).1.2.
Proof.
  assert (Forall (fun i => match i with
                           | GTemplateRendered _ r _ => r = false | _ => True end)
            [GErr (Some "boom");
             GTemplateRendered [("a", Demo.event "a" 3); ("b", Demo.event "b" 4)] false
               (Demo.world 0 false)]) as H.
  { by repeat constructor. }
  split; [exact H|]. split; [vm_compute; reflexivity|].
  destruct (gate_before_task_runs Demo.X Demo.tm_restart_signal (fun s => elements s) ∅
              _ H) as (_ & Hc & _).
  exact Hc.
Defined.

(** ** Run *)

Section RunFacts.

Variable X : Outside.
Variable tm : TaskTemplateManager.

Lemma gate_step_task_calls keys_of st i :
  Forall (fun c => is_task_call c = true) (gate_step X tm keys_of st i).1.2.
Proof.
  destruct i as [|[err|]|events r w|events|]; simpl; try done.
  - by repeat constructor.
  - destruct (bool_decide (length events < size (lookup tm))%nat); [done|].
    destruct (mark_dirty events (dirtyEvents st)) as [dirty all_rendered].
    destruct all_rendered; simpl; [|done].
    destruct (negb (bool_decide (size dirty = 0%nat)) && r); [|done].
    pose proof (onTemplateRendered_task_calls X tm w
                  {| handledRenders := ∅; templateEnv := gate_env st |} 0
                  (range_events keys_of dirty)) as H.
    by destruct (onTemplateRendered X tm w _ 0 (range_events keys_of dirty)) as [[d calls] o].
  - by destruct (negb _).
  - destruct (missingDependencies st); simpl; [|done]. by repeat constructor.
Qed.

Lemma gate_loop_task_calls keys_of inputs : forall st,
  Forall (fun c => is_task_call c = true) (gate_loop X tm keys_of st inputs).1.2.
Proof.
  induction inputs as [|i rest IH]; intros st; [done|]. simpl.
  pose proof (gate_step_task_calls keys_of st i) as H.
  destruct (gate_step X tm keys_of st i) as [[st1 calls1] returned].
  destruct returned; [done|]. specialize (IH st1).
  destruct (gate_loop X tm keys_of st1 rest) as [[st2 calls2] r].
  by apply Forall_app.
Qed.

Lemma rerender_loop_task_calls art inputs : forall st,
  Forall (fun c => is_task_call c = true) (rerender_loop X tm art st inputs).1.2.
Proof.
  induction inputs as [|i rest IH]; intros st; [done|]. simpl.
  assert (Forall (fun c => is_task_call c = true) (rerender_step X tm art st i).1.2) as H.
  { destruct i as [| |[err|]|events w]; simpl; try done.
    - by repeat constructor.
    - pose proof (onTemplateRendered_task_calls X tm w st art events) as H.
      by destruct (onTemplateRendered X tm w st art events) as [[d calls] o]. }
  destruct (rerender_step X tm art st i) as [[st1 calls1] returned].
  destruct returned; [done|]. specialize (IH st1).
  destruct (rerender_loop X tm art st1 rest) as [[st2 calls2] r].
  by apply Forall_app.
Qed.

Lemma scan_signals_known w art events h tenv b h' tenv' b' :
  signals_known tm ->
  scan X tm w art events h tenv b = Scanned h' tenv' b' ->
  (forall name, name ∈ signal_set b -> is_Some (signals tm !! name)) ->
  forall name, name ∈ signal_set b' -> is_Some (signals tm !! name).
Proof.
  intros Hk.
  apply (scan_batch_ind X tm
           (fun b => forall name, name ∈ signal_set b -> is_Some (signals tm !! name))).
  intros id tmpls b0 Hl Hb0 name Hn.
  change (name ∈ signal_set (classify tmpls b0)) in Hn.
  rewrite classify_signal_set in Hn. apply elem_of_union in Hn as [Hn|Hn]; [|by apply Hb0].
  apply elem_of_list_to_set, list_elem_of_fmap in Hn as (t & -> & Ht).
  apply list_elem_of_In, filter_In in Ht as [Ht Hs].
  apply list_elem_of_In in Ht. by apply (Hk id tmpls).
Qed.

(** With a signal table that knows the signals of the lookup, a call of
    [onTemplateRendered] does not panic. *)
Lemma onTemplateRendered_no_panic w st art events :
  signals_known tm ->
  is_panic (onTemplateRendered X tm w st art events).2 = false.
Proof.
  intros Hk.
  pose proof (onTemplateRendered_never_panics X tm w st art events) as Hnp.
  assert ((onTemplateRendered X tm w st art events).2 <> NilSignal) as Hns.
  { unfold onTemplateRendered.
    destruct (scan X tm w art events (handledRenders st) (templateEnv st) empty_batch)
      as [h' tenv' b|h' tenv' ev] eqn:Hscan; [|done].
    assert (forall name, name ∈ signal_set b -> is_Some (signals tm !! name))
      as Hnames.
    { apply (scan_signals_known _ _ _ _ _ _ _ _ _ Hk Hscan).
      intros name Hn. by apply elem_of_empty in Hn. }
    assert (forall slept, (apply_batch X tm w events h' tenv' b slept).2 <> NilSignal)
      as Ha.
    { intros slept. unfold apply_batch. destruct (restart b); [done|].
      by rewrite handleChangeModeSignal_panics_known. }
    destruct (negb (shouldHandle b)); [done|].
    destruct (negb (splay b =? 0)); [|done].
    destruct (Int63n (rand_Int63 w) (splay b)); [|done].
    by destruct (shutdown_fires w). }
  by destruct ((onTemplateRendered X tm w st art events).2).
Qed.

Lemma rerender_panics_never art st i :
  signals_known tm -> rerender_panics X tm art st i = false.
Proof.
  intros Hk. destruct i as [| |err|events w]; try done. simpl.
  by apply onTemplateRendered_no_panic.
Qed.

Lemma rerender_reach_never_panics art inputs :
  signals_known tm ->
  forall st, (rerender_reach X tm art st inputs).2 = false.
Proof.
  intros Hk. induction inputs as [|i rest IH]; intros st; [done|]. simpl.
  rewrite rerender_panics_never by done.
  destruct (rerender_step X tm art st i) as [[st1 calls1] returned].
  destruct returned; [done|]. specialize (IH st1).
  by destruct (rerender_reach X tm art st1 rest).
Qed.

Lemma gate_outcome_never_panics keys_of st inputs o :
  signals_known tm ->
  gate_outcome X tm keys_of st inputs = Some o -> is_panic o = false.
Proof.
  intros Hk. unfold gate_outcome.
  destruct (gate_exit X tm keys_of st inputs) as [[st0 [|err|events r w|events|]]|];
    try done.
  destruct (negb _ && r); [|done].
  intros H. injection H as <-. by apply onTemplateRendered_no_panic.
Qed.

(** The ways [Run] can go. *)
Lemma Run_inv keys_of tenv gate_inputs stopped w now rerender_inputs :
  let g := (handleFirstRender X tm keys_of tenv gate_inputs).1.1 in
  let calls1 := (handleFirstRender X tm keys_of tenv gate_inputs).1.2 in
  let returned := (handleFirstRender X tm keys_of tenv gate_inputs).2 in
  let shut := gate_saw_shutdown X tm keys_of (gate_init tenv) gate_inputs || stopped in
  let panicked :=
    match gate_outcome X tm keys_of (gate_init tenv) gate_inputs with
    | Some o => is_panic o
    | None => false
    end in
  let run := Run X tm keys_of tenv gate_inputs stopped w now rerender_inputs in
  match runner tm with
  | None => run = ([CloseUnblockCh], Returned)
  | Some _ =>
      (returned = false /\ run = (RunnerStart :: calls1, Waiting))
      \/ (returned = true /\ panicked = true
          /\ run = (RunnerStart :: calls1, Crashed))
      \/ (returned = true /\ panicked = false /\ shut = true
          /\ run = (RunnerStart :: calls1, Returned))
      \/ (returned = true /\ panicked = false /\ shut = false
          /\ exists err,
               loadTemplateEnv X w (gate_env g) (Templates (config_ tm)) ∅ = inl err
               /\ run = (RunnerStart :: calls1 ++
                           [Kill (killing
                                    (Sprintf (quote X)
                                       "Template failed to read environment variables: %v"
                                       [Error_text X err]))], Returned))
      \/ (returned = true /\ panicked = false /\ shut = false
          /\ exists envMap calls2 status,
               loadTemplateEnv X w (gate_env g) (Templates (config_ tm)) ∅ = inr envMap
               /\ Forall (fun c => is_task_call c = true) calls2
               /\ (status = Crashed ->
                   (rerender_reach X tm now
                      {| handledRenders := ∅; templateEnv := envMap |}
                      rerender_inputs).2 = true)
               /\ (allTemplatesNoop tm = true -> calls2 = [] /\ status = Returned)
               /\ run = (RunnerStart :: calls1 ++ [CloseUnblockCh] ++ calls2, status))
  end.
Proof.
  simpl. unfold Run. destruct (runner tm) as [r|]; [|done].
  destruct (handleFirstRender X tm keys_of tenv gate_inputs) as [[g calls1] returned].
  simpl. destruct returned; simpl; [|by left]. right.
  assert (forall (A : Type) (a b : A),
            match gate_outcome X tm keys_of (gate_init tenv) gate_inputs with
            | Some Panicked | Some NilSignal => a
            | _ => b
            end
            = if match gate_outcome X tm keys_of (gate_init tenv) gate_inputs with
                 | Some o => is_panic o
                 | None => false
                 end then a else b) as Hskip.
  { intros A a b.
    destruct (gate_outcome X tm keys_of (gate_init tenv) gate_inputs) as [[]|]; done. }
  rewrite Hskip. clear Hskip.
  destruct (match gate_outcome X tm keys_of (gate_init tenv) gate_inputs with
            | Some o => is_panic o
            | None => false
            end); [by left|]. right.
  destruct (gate_saw_shutdown X tm keys_of (gate_init tenv) gate_inputs || stopped);
    [by left|]. right.
  destruct (loadTemplateEnv X w (gate_env g) (Templates (config_ tm)) ∅)
    as [err|envMap];
    [left; split; [done|]; split; [done|]; split; [done|]; by exists err|].
  right. split; [done|]. split; [done|]. split; [done|]. exists envMap.
  destruct (allTemplatesNoop tm).
  - exists [], Returned. by repeat split.
  - destruct (rerender_reach X tm now _ rerender_inputs) as [reached panicked].
    pose proof (rerender_loop_task_calls now reached
                  {| handledRenders := ∅; templateEnv := envMap |}) as Hc.
    destruct (rerender_loop X tm now _ reached) as [[st2 calls2] r2]. simpl in Hc.
    exists calls2, (if panicked then Crashed else if r2 then Returned else Waiting).
    split; [done|]. split; [done|]. split; [|split; [done|done]].
    simpl. destruct panicked; [done|]. by destruct r2.
Qed.

Lemma task_call_not_channel calls :
  Forall (fun c => is_task_call c = true) calls ->
  count_calls is_CloseUnblockCh calls = 0%nat
  /\ count_calls is_RunnerStart calls = 0%nat
  /\ Forall (fun c => is_RunnerStart c || is_CloseUnblockCh c || is_task_call c = true)
       calls.
Proof.
  intros H. split; [|split].
  - apply count_calls_none. eapply Forall_impl; [exact H|]. intros c Hc. by destruct c.
  - apply count_calls_none. eapply Forall_impl; [exact H|]. intros c Hc. by destruct c.
  - eapply Forall_impl; [exact H|]. intros c Hc. by rewrite Hc, orb_true_r.
Qed.

(** With a signal table that knows the signals of the lookup, [Run] never
    ends in a panic of the dispatcher. *)
Lemma Run_never_crashes (keys_of : gset string -> list string)
    (tenv : gmap string string) (gate_inputs : list GateInput) (stopped : bool)
    (w : World) (now : Time) (rerender_inputs : list RerenderInput) :
  signals_known tm ->
  (Run X tm keys_of tenv gate_inputs stopped w now rerender_inputs).2 <> Crashed.
Proof.
  intros Hk.
  pose proof (Run_inv keys_of tenv gate_inputs stopped w now rerender_inputs) as H.
  simpl in H. destruct (runner tm); [|by rewrite H].
  destruct H as [[_ ->]|[(_ & Hp & _)|[(_ & _ & _ & ->)|[(_ & _ & _ & err & _ & ->)
                 |(_ & _ & _ & envMap & calls2 & status & _ & _ & Hs & _ & ->)]]]];
    try done.
  - destruct (gate_outcome X tm keys_of (gate_init tenv) gate_inputs) as [o|] eqn:Eo;
      [|done].
    by rewrite (gate_outcome_never_panics _ _ _ _ Hk Eo) in Hp.
  - simpl. intros ->. specialize (Hs eq_refl).
    by rewrite rerender_reach_never_panics in Hs.
Qed.

(** X19.  What [Run] does to its collaborators: it starts the engine once, as its
    first step, when there is one; it closes the unblock channel at most
    once; everything else is a call on the task or on the event emitter.
    It never stops the engine, never creates one and never closes the
    shutdown channel. *)
Theorem Run_calls (keys_of : gset string -> list string)
    (tenv : gmap string string) (gate_inputs : list GateInput) (stopped : bool)
    (w : World) (now : Time) (rerender_inputs : list RerenderInput) :
  let calls := (Run X tm keys_of tenv gate_inputs stopped w now rerender_inputs).1 in
  Forall (fun c => is_RunnerStart c || is_CloseUnblockCh c || is_task_call c = true) calls
  /\ count_calls is_RunnerStop calls = 0%nat
  /\ count_calls is_CloseShutdownCh calls = 0%nat
  /\ count_calls is_RunnerStart calls
     = match runner tm with Some _ => 1%nat | None => 0%nat end
  /\ (is_Some (runner tm) -> head calls = Some RunnerStart)
  /\ (count_calls is_CloseUnblockCh calls <= 1)%nat.
Proof.
  intros calls.
  assert (Forall (fun c => is_RunnerStart c || is_CloseUnblockCh c || is_task_call c = true)
            calls
          /\ count_calls is_RunnerStart calls
             = match runner tm with Some _ => 1%nat | None => 0%nat end
          /\ (is_Some (runner tm) -> head calls = Some RunnerStart)
          /\ (count_calls is_CloseUnblockCh calls <= 1)%nat) as (Hall & Hs & Hh & Hu).
  { subst calls.
    pose proof (Run_inv keys_of tenv gate_inputs stopped w now rerender_inputs) as H.
    pose proof (gate_loop_task_calls keys_of gate_inputs (gate_init tenv)) as Hg.
    fold (handleFirstRender X tm keys_of tenv gate_inputs) in Hg.
    simpl in H.
    destruct (task_call_not_channel _ Hg) as (Hg1 & Hg2 & Hg3).
    destruct (runner tm) as [r|].
    - destruct H as [[_ ->]|[(_ & _ & ->)|[(_ & _ & _ & ->)|[(_ & _ & _ & err & _ & ->)
                     |(_ & _ & _ & envMap & calls2 & status & _ & Hc2 & _ & _ & ->)]]]];
        cbn [fst].
      + change (RunnerStart :: ?l) with ([RunnerStart] ++ l).
        rewrite !count_calls_app, Hg1, Hg2.
        split; [apply Forall_app; split; [by repeat constructor|done]|].
        repeat split; try intros _; unfold count_calls; simpl; (lia || done).
      + change (RunnerStart :: ?l) with ([RunnerStart] ++ l).
        rewrite !count_calls_app, Hg1, Hg2.
        split; [apply Forall_app; split; [by repeat constructor|done]|].
        repeat split; try intros _; unfold count_calls; simpl; (lia || done).
      + change (RunnerStart :: ?l) with ([RunnerStart] ++ l).
        rewrite !count_calls_app, Hg1, Hg2.
        split; [apply Forall_app; split; [by repeat constructor|done]|].
        repeat split; try intros _; unfold count_calls; simpl; (lia || done).
      + change (RunnerStart :: ?l) with ([RunnerStart] ++ l).
        rewrite !count_calls_app, Hg1, Hg2.
        split; [apply Forall_app; split; [by repeat constructor|];
                apply Forall_app; split; [done|by repeat constructor]|].
        repeat split; try intros _; unfold count_calls; simpl; (lia || done).
      + destruct (task_call_not_channel _ Hc2) as (Hc21 & Hc22 & Hc23).
        rewrite !count_calls_cons, !count_calls_app, !count_calls_cons,
          Hg1, Hg2, Hc21, Hc22.
        split; [apply Forall_cons; split; [done|];
                apply Forall_app; split; [done|];
                apply Forall_cons; split; [done|done]|].
        repeat split; try intros _; unfold count_calls; simpl; (lia || done).
    - rewrite H. cbn [fst]. split; [by repeat constructor|].
      split; [done|]. split; [by intros [? ?]|]. unfold count_calls. simpl. lia. }
  split; [done|].
  split; [apply count_calls_none; eapply Forall_impl; [exact Hall|];
          intros c Hc; by destruct c|].
  split; [apply count_calls_none; eapply Forall_impl; [exact Hall|];
          intros c Hc; by destruct c|].
  done.
Qed.

(** X20.  Take a manager that has an engine and whose signal table knows the
    signals of its lookup (so that no call of [onTemplateRendered] panics
    on a nil signal).  [Run] unblocks the task exactly when the gate has
    opened, the shutdown channel is not closed by then and the environment
    templates could be read; when they cannot be read it kills the task
    instead, as its last step, and returns. *)
Theorem Run_unblocks_iff (keys_of : gset string -> list string)
    (tenv : gmap string string) (gate_inputs : list GateInput) (stopped : bool)
    (w : World) (now : Time) (rerender_inputs : list RerenderInput) :
  is_Some (runner tm) ->
  signals_known tm ->
  let gate := handleFirstRender X tm keys_of tenv gate_inputs in
  let run := Run X tm keys_of tenv gate_inputs stopped w now rerender_inputs in
  (CloseUnblockCh ∈ run.1
   <-> gate.2 = true
       /\ gate_saw_shutdown X tm keys_of (gate_init tenv) gate_inputs || stopped = false
       /\ exists envMap,
            loadTemplateEnv X w (gate_env gate.1.1) (Templates (config_ tm)) ∅
            = inr envMap)
  /\ (forall err,
        gate.2 = true ->
        gate_saw_shutdown X tm keys_of (gate_init tenv) gate_inputs || stopped = false ->
        loadTemplateEnv X w (gate_env gate.1.1) (Templates (config_ tm)) ∅ = inl err ->
        run.2 = Returned
        /\ last run.1
           = Some (Kill (killing
                           (Sprintf (quote X)
                              "Template failed to read environment variables: %v"
                              [Error_text X err]))))
  /\ run.2 <> Crashed.
Proof.
  intros [r Hr] Hk gate run. subst gate run.
  split; [|split]; [| |by apply Run_never_crashes].
  all: pose proof (Run_inv keys_of tenv gate_inputs stopped w now rerender_inputs) as H.
  all: pose proof (gate_loop_task_calls keys_of gate_inputs (gate_init tenv)) as Hg.
  all: fold (handleFirstRender X tm keys_of tenv gate_inputs) in Hg.
  all: simpl in H; rewrite Hr in H.
  all: assert (forall calls, Forall (fun c => is_task_call c = true) calls ->
                 CloseUnblockCh ∉ calls) as Hnot
         by (intros calls Hc Hin; rewrite Forall_forall in Hc; by specialize (Hc _ Hin)).
  all: assert (match gate_outcome X tm keys_of (gate_init tenv) gate_inputs with
               | Some o => is_panic o
               | None => false
               end = false) as Hnp
         by (destruct (gate_outcome X tm keys_of (gate_init tenv) gate_inputs)
               as [o|] eqn:Eo; [by apply (gate_outcome_never_panics _ _ _ _ Hk Eo)|done]).
  all: destruct H as [[Hret ->]|[(_ & Hp & _)|[(Hret & _ & Hshut & ->)
                     |[(Hret & _ & Hshut & err & Hload & ->)
                     |(Hret & _ & Hshut & envMap & calls2 & status & Hload & Hc2 & _ & _ & ->)]]]];
         cbn [fst snd]; try congruence.
  - split.
    + intros Hin. apply elem_of_cons in Hin as [?|Hin]; [done|]. by apply Hnot in Hin.
    + intros (Habs & _). congruence.
  - split.
    + intros Hin. apply elem_of_cons in Hin as [?|Hin]; [done|]. by apply Hnot in Hin.
    + intros (_ & Habs & _). congruence.
  - split.
    + intros Hin. apply elem_of_cons in Hin as [?|Hin]; [done|].
      apply elem_of_app in Hin as [Hin|Hin]; [by apply Hnot in Hin|].
      apply list_elem_of_singleton in Hin. done.
    + intros (_ & _ & envMap & Habs). congruence.
  - split.
    + intros _. split; [done|]. split; [done|]. by exists envMap.
    + intros _. apply elem_of_cons. right. apply elem_of_app. right.
      apply elem_of_cons. by left.
  - intros err' _ _ Hl. split; [done|].
    assert (err' = err) as -> by congruence.
    change (RunnerStart :: ?l ++ [?k]) with ((RunnerStart :: l) ++ [k]).
    by rewrite last_snoc.
Qed.

(** X21.  When all templates are noop, [Run] returns as soon as it has unblocked
    the task: it never waits for a re-render, whatever the engine reports
    afterwards. *)
Theorem Run_noop_returns (keys_of : gset string -> list string)
    (tenv : gmap string string) (gate_inputs : list GateInput) (stopped : bool)
    (w : World) (now : Time) (rerender_inputs : list RerenderInput) :
  allTemplatesNoop tm = true ->
  let run := Run X tm keys_of tenv gate_inputs stopped w now rerender_inputs in
  run = Run X tm keys_of tenv gate_inputs stopped w now []
  /\ (CloseUnblockCh ∈ run.1 -> run.2 = Returned /\ last run.1 = Some CloseUnblockCh).
Proof.
  intros Hnoop run. subst run. split.
  - unfold Run. destruct (runner tm); [|done].
    destruct (handleFirstRender X tm keys_of tenv gate_inputs) as [[g calls1] returned].
    destruct (negb returned); [done|]. by rewrite Hnoop.
  - pose proof (Run_inv keys_of tenv gate_inputs stopped w now rerender_inputs) as H.
    pose proof (gate_loop_task_calls keys_of gate_inputs (gate_init tenv)) as Hg.
    fold (handleFirstRender X tm keys_of tenv gate_inputs) in Hg.
    simpl in H.
    assert (forall calls, Forall (fun c => is_task_call c = true) calls ->
              CloseUnblockCh ∉ calls) as Hnot.
    { intros calls Hc Hin. rewrite Forall_forall in Hc. by specialize (Hc _ Hin). }
    destruct (runner tm) as [r|]; [|by rewrite H].
    destruct H as [[Hret ->]|[(Hret & _ & ->)|[(Hret & _ & Hshut & ->)
                   |[(Hret & _ & Hshut & err & Hload & ->)
                   |(Hret & _ & Hshut & envMap & calls2 & status & Hload & Hc2 & _ & Hn & ->)]]]];
      cbn [fst snd].
    + intros Hin. apply elem_of_cons in Hin as [?|Hin]; [done|]. by apply Hnot in Hin.
    + intros Hin. apply elem_of_cons in Hin as [?|Hin]; [done|]. by apply Hnot in Hin.
    + intros Hin. apply elem_of_cons in Hin as [?|Hin]; [done|]. by apply Hnot in Hin.
    + intros Hin. apply elem_of_cons in Hin as [?|Hin]; [done|].
      apply elem_of_app in Hin as [Hin|Hin]; [by apply Hnot in Hin|].
      apply list_elem_of_singleton in Hin. done.
    + intros _. destruct (Hn Hnoop) as [-> ->]. split; [done|].
      change (RunnerStart :: ?l ++ [?k]) with ((RunnerStart :: l) ++ [k]).
      by rewrite last_snoc.
Qed.

End RunFacts.

(** [Run] on a manager with a restart and a signal template: the gate
    opens on the first full render, before the task runs. *)
Lemma Run_unblocks_iff_witness :
  is_Some (runner Demo.tm_restart_signal)
  /\ signals_known Demo.tm_restart_signal
  /\ Run Demo.X Demo.tm_restart_signal (fun s => elements s) ∅
       [GTemplateRendered [("a", Demo.event "a" 3); ("b", Demo.event "b" 4)] false
          (Demo.world 0 false)]
       false (Demo.world 0 false) 10 [RShutdown]
     = ([RunnerStart; CloseUnblockCh], Returned)
  /\ CloseUnblockCh
       ∈ (Run Demo.X Demo.tm_restart_signal (fun s => elements s) ∅
            [GTemplateRendered [("a", Demo.event "a" 3); ("b", Demo.event "b" 4)] false
               (Demo.world 0 false)]
            false (Demo.world 0 false) 10 [RShutdown]).1.
Proof.
  assert (is_Some (runner Demo.tm_restart_signal)) as H by (by eexists).
  assert (signals_known Demo.tm_restart_signal) as Hk.
  { intros id tmpls t Hl Ht Hs. cbn [lookup Demo.tm_restart_signal Demo.tm_of] in Hl.
    apply lookup_insert_Some in Hl as [[_ <-]|[_ Hl]].
    - apply list_elem_of_singleton in Ht as ->. discriminate Hs.
    - apply lookup_singleton_Some in Hl as [_ <-].
      apply list_elem_of_singleton in Ht as ->. by eexists. }
  split; [exact H|]. split; [exact Hk|]. split; [vm_compute; reflexivity|].
  destruct (Run_unblocks_iff Demo.X Demo.tm_restart_signal (fun s => elements s) ∅
              [GTemplateRendered [("a", Demo.event "a" 3); ("b", Demo.event "b" 4)] false
                 (Demo.world 0 false)]
              false (Demo.world 0 false) 10 [RShutdown] H Hk) as [Hiff _].
  apply Hiff. split; [vm_compute; reflexivity|]. split; [vm_compute; reflexivity|].
  exists ∅. vm_compute. reflexivity.
Defined.

(** [Run] on a manager with a noop template only: an engine error after
    the task is unblocked is not seen any more. *)
Lemma Run_noop_returns_witness :
  allTemplatesNoop Demo2.tm_noop = true
  /\ Run Demo.X Demo2.tm_noop (fun s => elements s) ∅
       [GTemplateRendered [("c", Demo.event "c" 3)] true (Demo.world 0 false)]
       false (Demo.world 0 false) 10 [RErr (Some "late")]
     = ([RunnerStart; CloseUnblockCh], Returned).
Proof.
  split; [reflexivity|].
  destruct (Run_noop_returns Demo.X Demo2.tm_noop (fun s => elements s) ∅
              [GTemplateRendered [("c", Demo.event "c" 3)] true (Demo.world 0 false)]
              false (Demo.world 0 false) 10 [RErr (Some "late")] eq_refl) as [Heq _].
  rewrite Heq. vm_compute. reflexivity.
Defined.

(** ** The engine configuration *)

Lemma cut_Some sep : forall s a b,
  cut sep s = Some (a, b) ->
  s = a +:+ String sep b /\ forall a' b', a <> a' +:+ String sep b'.
Proof.
  induction s as [|c rest IH]; intros a b H; simpl in H; [done|].
  destruct (Ascii.eqb c sep) eqn:E.
  - apply Ascii.eqb_eq in E as ->. injection H as <- <-. split; [done|].
    intros [|x a'] b'; done.
  - destruct (cut sep rest) as [[before after]|] eqn:Ec; [|done].
    injection H as <- <-. destruct (IH _ _ eq_refl) as [-> Hno]. split; [done|].
    intros [|x a'] b' Heq.
    + injection Heq as ->. by rewrite Ascii.eqb_refl in E.
    + injection Heq as _ Heq. by apply Hno in Heq.
Qed.

Lemma cut_None sep : forall s a b, cut sep s = None -> s <> a +:+ String sep b.
Proof.
  induction s as [|c rest IH]; intros a b H Heq; simpl in H.
  - by destruct a.
  - destruct (Ascii.eqb c sep) eqn:E; [done|].
    destruct (cut sep rest) as [[before after]|] eqn:Ec; [done|].
    destruct a as [|x a].
    + injection Heq as -> _. by rewrite Ascii.eqb_refl in E.
    + injection Heq as _ Heq. by apply (IH a b).
Qed.

Section RunnerConfigFacts.

Variable Y : RunnerOutside.

Lemma newRunnerConfig_settings_Ok c cred cs ctmpls conf0 :
  newRunnerConfig_settings Y c cred cs ctmpls = Ok conf0 ->
  exists consul vault nomad,
    consul_backend Y cred cs = Ok consul
    /\ vault_backend Y cred cs = Ok vault
    /\ nomad_backend Y cred cs = Ok nomad
    /\ runnercfg.Consul conf0 = consul /\ runnercfg.Vault conf0 = vault
    /\ runnercfg.Nomad conf0 = nomad
    /\ runnercfg.Templates conf0
       = match WaitBounds cs with
         | None => ctmpls
         | Some bounds => clamp_wait bounds <$> ctmpls
         end
    /\ runnercfg.Once conf0 = OnceModeEnabled c.
Proof.
  unfold newRunnerConfig_settings. intros H.
  destruct (ClientConfig c) as [cc|]; [|done].
  destruct (config.TemplateConfig cc) as [tc|]; [|done].
  destruct (match ClientWait cs with
            | Some w => _
            | None => Ok (runnercfg.Wait (ctconf_DefaultConfig Y))
            end) as [wait| |]; try done.
  cbn [mbind result_bind] in H.
  destruct (match WaitBounds cs with
            | Some bounds => _
            | None => Ok ctmpls
            end) as [templates| |] eqn:Et; try done.
  cbn [mbind result_bind] in H.
  destruct (consul_backend Y cred cs) as [consul| |]; try done.
  cbn [mbind result_bind] in H.
  destruct (vault_backend Y cred cs) as [vault| |]; try done.
  cbn [mbind result_bind] in H.
  destruct (nomad_backend Y cred cs) as [nomad| |]; try done.
  cbn [mbind result_bind] in H. injection H as <-.
  exists consul, vault, nomad. simpl. repeat (split; [done|]). split; [|done].
  destruct (WaitBounds cs) as [bounds|]; [|by injection Et].
  destruct (ClientWait_Validate Y bounds); [done|]. by injection Et.
Qed.

(** What [newRunnerConfig] returns is what [Finalize] makes of the
    configuration the function has set up. *)
Lemma newRunnerConfig_Ok c cred cs ctmpls conf :
  newRunnerConfig Y c cred cs ctmpls = Ok conf ->
  exists conf0,
    newRunnerConfig_settings Y c cred cs ctmpls = Ok conf0
    /\ conf = Config_Finalize Y conf0.
Proof.
  unfold newRunnerConfig. intros H.
  destruct (newRunnerConfig_settings Y c cred cs ctmpls) as [conf0| |]; try done.
  cbn [mbind result_bind] in H. injection H as <-. by exists conf0.
Qed.

Lemma clamp_wait_spec bounds ct :
  clamp_wait bounds ct = set_Wait (ctconf.Wait (clamp_wait bounds ct)) ct
  /\ match ctconf.Wait ct with
     | Some (true, lo, hi) =>
         exists lo' hi',
           ctconf.Wait (clamp_wait bounds ct) = Some (true, lo', hi')
           /\ lo' = match structs.Min bounds, lo with
                    | Some b, Some m => Some (Z.max m b)
                    | _, _ => lo
                    end
           /\ hi' = match structs.Max bounds, hi with
                    | Some b, Some m => Some (Z.min m b)
                    | _, _ => hi
                    end
     | _ => clamp_wait bounds ct = ct
     end.
Proof.
  unfold clamp_wait. destruct (ctconf.Wait ct) as [[[[|] lo] hi]|] eqn:Ew.
  - split; [done|]. eexists _, _. split; [reflexivity|]. split.
    + destruct (structs.Min bounds) as [b|]; [|done]. destruct lo as [m|]; [|done].
      destruct (m <? b) eqn:E; [apply Z.ltb_lt in E|apply Z.ltb_ge in E]; f_equal; lia.
    + destruct (structs.Max bounds) as [b|]; [|done]. destruct hi as [m|]; [|done].
      destruct (b <? m) eqn:E; [apply Z.ltb_lt in E|apply Z.ltb_ge in E]; f_equal; lia.
  - split; [|done]. destruct ct. simpl in *. by rewrite Ew.
  - split; [|done]. destruct ct. simpl in *. by rewrite Ew.
Qed.

(** X22.  With wait bounds set by the operator, the configuration
    [newRunnerConfig] returns is what [Finalize] makes of a configuration
    that holds one descriptor per descriptor the function was given, in
    order, changed in nothing but the wait: an enabled wait has its minimum
    raised to the lower bound and its maximum lowered to the upper bound,
    where both the value and the bound are set; a descriptor whose wait is
    not enabled is passed on as it is. *)
Theorem wait_within_bounds (c : TaskTemplateManagerConfig) (cred : TaskCredentials)
    (cs : ClientRunnerSettings) (ctmpls : list ctconf.TemplateConfig)
    (conf : runnercfg.Config) (bounds : structs.WaitConfig) :
  newRunnerConfig Y c cred cs ctmpls = Ok conf ->
  WaitBounds cs = Some bounds ->
  exists conf0,
    newRunnerConfig_settings Y c cred cs ctmpls = Ok conf0
    /\ conf = Config_Finalize Y conf0
    /\ Forall2
         (fun ct ct' =>
            ct' = set_Wait (ctconf.Wait ct') ct
            /\ match ctconf.Wait ct with
               | Some (true, lo, hi) =>
                   exists lo' hi',
                     ctconf.Wait ct' = Some (true, lo', hi')
                     /\ lo' = match structs.Min bounds, lo with
                              | Some b, Some m => Some (Z.max m b)
                              | _, _ => lo
                              end
                     /\ hi' = match structs.Max bounds, hi with
                              | Some b, Some m => Some (Z.min m b)
                              | _, _ => hi
                              end
               | _ => ct' = ct
               end)
         ctmpls (runnercfg.Templates conf0).
Proof.
  intros H Hb. apply newRunnerConfig_Ok in H as (conf0 & H0 & ->).
  exists conf0. split; [done|]. split; [done|].
  apply newRunnerConfig_settings_Ok in H0
    as (_ & _ & _ & _ & _ & _ & _ & _ & _ & Ht & _).
  rewrite Ht, Hb. apply Forall2_fmap_r, Forall_Forall2_diag, Forall_forall.
  intros ct _. apply clamp_wait_spec.
Qed.

Lemma vault_backend_Ok cred cs vault :
  vault_backend Y cred cs = Ok vault ->
  let d := runnercfg.Vault (ctconf_DefaultConfig Y) in
  runnercfg.RenewToken vault = Some false
  /\ runnercfg.Token vault
     = Some (if vault_enabled cred then VaultToken cred else "")
  /\ (vault_enabled cred = false ->
      runnercfg.Address vault = runnercfg.Address d
      /\ runnercfg.Namespace vault = runnercfg.Namespace d
      /\ runnercfg.SSL vault = runnercfg.SSL d
      /\ runnercfg.Retry vault = runnercfg.Retry d)
  /\ (forall vc, VaultConfig cred = Some vc -> structsc.Vault.IsEnabled vc = true ->
      runnercfg.Address vault = Some (structsc.Vault.Addr vc)
      /\ runnercfg.Namespace vault
         = (if decide (VaultNamespace cred = "") then
              if decide (structsc.Vault.Namespace vc = "") then runnercfg.Namespace d
              else Some (structsc.Vault.Namespace vc)
            else Some (VaultNamespace cred))
      /\ exists ssl, runnercfg.SSL vault = Some ssl
           /\ runnercfg.Enabled ssl
              = String.prefix "https" (structsc.Vault.Addr vc)
                || negb (bool_decide (structsc.Vault.TLSCertFile vc = ""))).
Proof.
  unfold vault_backend, vault_enabled. intros H.
  destruct (VaultConfig cred) as [vc|].
  - destruct (structsc.Vault.IsEnabled vc) eqn:Een.
    + destruct (convert_retry Y _ (VaultRetry cs)) as [retry| |]; try done.
      cbn [mbind result_bind] in H. injection H as <-. simpl.
      split; [done|]. split; [done|]. split; [done|].
      intros vc' Heq _. injection Heq as <-. split; [done|]. split; [done|].
      eexists. split; [reflexivity|].
      by destruct (String.prefix "https" (structsc.Vault.Addr vc)
                   || negb (bool_decide (structsc.Vault.TLSCertFile vc = ""))).
    + injection H as <-. simpl. split; [done|]. split; [done|]. split; [done|].
      intros vc' Heq Habs. injection Heq as <-. congruence.
  - injection H as <-. simpl. split; [done|]. split; [done|]. split; [done|]. done.
Qed.

(** X23.  The configuration [newRunnerConfig] returns is what [Finalize] makes
    of a configuration whose Vault section never renews a token and always
    names one: the token of the task when the task uses Vault and Vault is
    enabled, and the empty string otherwise, whatever [DefaultConfig()]
    had picked up; in that case the address, the namespace, the TLS
    setting and the retry setting of the section are left as
    [DefaultConfig()] made them.  With Vault enabled the address is the one
    of the Vault configuration, the namespace of the task wins over that
    of the Vault configuration (and without either the default's stays),
    and TLS is on exactly when the address starts with "https" or a
    certificate file is given. *)
Theorem vault_token_only_when_enabled (c : TaskTemplateManagerConfig)
    (cred : TaskCredentials) (cs : ClientRunnerSettings)
    (ctmpls : list ctconf.TemplateConfig) (conf : runnercfg.Config) :
  newRunnerConfig Y c cred cs ctmpls = Ok conf ->
  let d := runnercfg.Vault (ctconf_DefaultConfig Y) in
  exists conf0,
    newRunnerConfig_settings Y c cred cs ctmpls = Ok conf0
    /\ conf = Config_Finalize Y conf0
    /\ runnercfg.RenewToken (runnercfg.Vault conf0) = Some false
    /\ runnercfg.Token (runnercfg.Vault conf0)
       = Some (if vault_enabled cred then VaultToken cred else "")
    /\ (vault_enabled cred = false ->
        runnercfg.Address (runnercfg.Vault conf0) = runnercfg.Address d
        /\ runnercfg.Namespace (runnercfg.Vault conf0) = runnercfg.Namespace d
        /\ runnercfg.SSL (runnercfg.Vault conf0) = runnercfg.SSL d
        /\ runnercfg.Retry (runnercfg.Vault conf0) = runnercfg.Retry d)
    /\ (forall vc, VaultConfig cred = Some vc -> structsc.Vault.IsEnabled vc = true ->
        runnercfg.Address (runnercfg.Vault conf0) = Some (structsc.Vault.Addr vc)
        /\ runnercfg.Namespace (runnercfg.Vault conf0)
           = (if decide (VaultNamespace cred = "") then
                if decide (structsc.Vault.Namespace vc = "") then runnercfg.Namespace d
                else Some (structsc.Vault.Namespace vc)
              else Some (VaultNamespace cred))
        /\ exists ssl, runnercfg.SSL (runnercfg.Vault conf0) = Some ssl
             /\ runnercfg.Enabled ssl
                = String.prefix "https" (structsc.Vault.Addr vc)
                  || negb (bool_decide (structsc.Vault.TLSCertFile vc = ""))).
Proof.
  intros H d. apply newRunnerConfig_Ok in H as (conf0 & H0 & ->).
  exists conf0. split; [done|]. split; [done|].
  apply newRunnerConfig_settings_Ok in H0
    as (consul & vault & nomad & _ & Hv & _ & _ & -> & _).
  by apply (vault_backend_Ok cred cs).
Qed.

Lemma consul_backend_Ok cred cs consul :
  consul_backend Y cred cs = Ok consul ->
  let d := runnercfg.Consul (ctconf_DefaultConfig Y) in
  runnercfg.Namespace consul
  = (if decide (ConsulNamespace cred = "") then
       match ConsulConfig cred with
       | Some cc => if decide (structsc.Consul.Namespace cc = "")
                    then runnercfg.Namespace d
                    else Some (structsc.Consul.Namespace cc)
       | None => runnercfg.Namespace d
       end
     else Some (ConsulNamespace cred))
  /\ match ConsulConfig cred with
     | None => runnercfg.Token consul = runnercfg.Token d
               /\ runnercfg.Auth consul = runnercfg.Auth d
               /\ runnercfg.Address consul = runnercfg.Address d
     | Some cc =>
         runnercfg.Token consul = Some (ConsulToken cred)
         /\ runnercfg.Address consul = Some (structsc.Consul.Addr cc)
         /\ if decide (structsc.Consul.Auth cc = "")
            then runnercfg.Auth consul = runnercfg.Auth d
            else exists user pass,
                runnercfg.Auth consul
                = Some {| runnercfg.Username := user; runnercfg.Password := pass |}
                /\ structsc.Consul.Auth cc = user +:+ ":" +:+ pass
                /\ forall a b, user <> a +:+ ":" +:+ b
     end.
Proof.
  unfold consul_backend. intros H.
  destruct (ConsulConfig cred) as [cc|].
  - destruct (decide (structsc.Consul.Auth cc = "")) as [Ha|Ha].
    + cbn [mbind result_bind] in H.
      destruct (convert_retry Y _ (ConsulRetry cs)) as [retry| |]; try done.
      cbn [mbind result_bind] in H. injection H as <-. simpl.
      split; [by destruct (decide (ConsulNamespace cred = ""))|]. done.
    + destruct (cut ":" (structsc.Consul.Auth cc)) as [[user pass]|] eqn:Ec; [|done].
      cbn [mbind result_bind] in H.
      destruct (convert_retry Y _ (ConsulRetry cs)) as [retry| |]; try done.
      cbn [mbind result_bind] in H. injection H as <-. simpl.
      split; [by destruct (decide (ConsulNamespace cred = ""))|].
      split; [done|]. split; [done|]. exists user, pass. split; [done|].
      apply cut_Some in Ec as [Heq Hno]. split; [exact Heq|]. intros a b. apply Hno.
  - cbn [mbind result_bind] in H. injection H as <-. simpl.
    split; [by destruct (decide (ConsulNamespace cred = ""))|]. done.
Qed.

(** X24.  The configuration [newRunnerConfig] returns is what [Finalize] makes
    of a configuration whose Consul section is set as follows.  The
    namespace of the job or group wins over the namespace of the agent's
    Consul configuration, and without either the namespace is left as
    [DefaultConfig()] made it.  With a Consul configuration the token is
    the task's and the address the configuration's; without one the token,
    the address and the [Auth] setting are left as [DefaultConfig()] made
    them.  A non-empty [Auth] is split at its first colon into user and
    password (the user holds no colon, and joining them with a colon gives
    [Auth] back); with an empty one the [Auth] setting of
    [DefaultConfig()] stays. *)
Theorem consul_section (c : TaskTemplateManagerConfig)
    (cred : TaskCredentials) (cs : ClientRunnerSettings)
    (ctmpls : list ctconf.TemplateConfig) (conf : runnercfg.Config) :
  newRunnerConfig Y c cred cs ctmpls = Ok conf ->
  let d := runnercfg.Consul (ctconf_DefaultConfig Y) in
  exists conf0,
    newRunnerConfig_settings Y c cred cs ctmpls = Ok conf0
    /\ conf = Config_Finalize Y conf0
    /\ runnercfg.Namespace (runnercfg.Consul conf0)
       = (if decide (ConsulNamespace cred = "") then
            match ConsulConfig cred with
            | Some cc => if decide (structsc.Consul.Namespace cc = "")
                         then runnercfg.Namespace d
                         else Some (structsc.Consul.Namespace cc)
            | None => runnercfg.Namespace d
            end
          else Some (ConsulNamespace cred))
    /\ match ConsulConfig cred with
       | None => runnercfg.Token (runnercfg.Consul conf0) = runnercfg.Token d
                 /\ runnercfg.Auth (runnercfg.Consul conf0) = runnercfg.Auth d
                 /\ runnercfg.Address (runnercfg.Consul conf0) = runnercfg.Address d
       | Some cc =>
           runnercfg.Token (runnercfg.Consul conf0) = Some (ConsulToken cred)
           /\ runnercfg.Address (runnercfg.Consul conf0)
              = Some (structsc.Consul.Addr cc)
           /\ if decide (structsc.Consul.Auth cc = "")
              then runnercfg.Auth (runnercfg.Consul conf0) = runnercfg.Auth d
              else exists user pass,
                  runnercfg.Auth (runnercfg.Consul conf0)
                  = Some {| runnercfg.Username := user; runnercfg.Password := pass |}
                  /\ structsc.Consul.Auth cc = user +:+ ":" +:+ pass
                  /\ forall a b, user <> a +:+ ":" +:+ b
       end.
Proof.
  intros H d. apply newRunnerConfig_Ok in H as (conf0 & H0 & ->).
  exists conf0. split; [done|]. split; [done|].
  apply newRunnerConfig_settings_Ok in H0
    as (consul & vault & nomad & Hc & _ & _ & -> & _).
  by apply (consul_backend_Ok cred cs).
Qed.

(** X25.  A Consul [Auth] setting that is not empty and holds no colon makes
    [newRunnerConfig] fail: it returns no configuration. *)
Theorem consul_auth_needs_colon (c : TaskTemplateManagerConfig)
    (cred : TaskCredentials) (cs : ClientRunnerSettings)
    (ctmpls : list ctconf.TemplateConfig) (cc : structsc.Consul.ConsulConfig) :
  ConsulConfig cred = Some cc ->
  structsc.Consul.Auth cc <> "" ->
  (forall user pass, structsc.Consul.Auth cc <> user +:+ ":" +:+ pass) ->
  (forall conf, newRunnerConfig Y c cred cs ctmpls <> Ok conf)
  /\ consul_backend Y cred cs
     = Err (fmt_Errorf "Failed to parse Consul Auth config" []).
Proof.
  intros Hcc Ha Hno. split.
  - intros conf H.
    apply newRunnerConfig_Ok in H as (conf0 & H0 & _).
    apply newRunnerConfig_settings_Ok in H0 as (consul & _ & _ & Hc & _).
    apply consul_backend_Ok in Hc as [_ Hc]. rewrite Hcc in Hc.
    destruct Hc as (_ & _ & Hc). destruct (decide (structsc.Consul.Auth cc = "")); [done|].
    destruct Hc as (user & pass & _ & Heq & _). by apply Hno in Heq.
  - unfold consul_backend. rewrite Hcc.
    destruct (decide (structsc.Consul.Auth cc = "")); [done|].
    destruct (cut ":" (structsc.Consul.Auth cc)) as [[user pass]|] eqn:Ec; [|done].
    apply cut_Some in Ec as [Heq _]. by apply Hno in Heq.
Qed.

End RunnerConfigFacts.

(** A template that waits at least ten, without maximum: the descriptor
    [parseTemplateConfigs] returns has the maximum the example [Finalize]
    gives it, forty, and with bounds of five and thirty [newRunnerConfig]
    lowers that maximum to thirty. *)
Lemma wait_within_bounds_witness :
  exists m conf ct',
    parseTemplateConfigs Demo.X (Demo.cfg [Demo3.waits_ten]) = Ok m
    /\ ctconf.Wait <$> m.*1 = [Some (true, Some 10, Some 40)]
    /\ newRunnerConfig Demo3.Y (Demo.cfg [Demo3.waits_ten])
         (Demo3.cred "user:pass" true "")
         (Demo3.settings (Some {| structs.Min := Some 5; structs.Max := Some 30 |}))
         m.*1 = Ok conf
    /\ runnercfg.Templates conf = [ct']
    /\ ctconf.Wait ct' = Some (true, Some 10, Some 30).
Proof.
  destruct (parseTemplateConfigs Demo.X (Demo.cfg [Demo3.waits_ten]))
    as [m| |] eqn:Ep; [|vm_compute in Ep; discriminate..].
  exists m.
  destruct (newRunnerConfig Demo3.Y (Demo.cfg [Demo3.waits_ten])
              (Demo3.cred "user:pass" true "")
              (Demo3.settings (Some {| structs.Min := Some 5; structs.Max := Some 30 |}))
              m.*1) as [conf| |] eqn:E;
    [|vm_compute in Ep; injection Ep as <-; vm_compute in E; discriminate..].
  destruct (wait_within_bounds Demo3.Y _ _ _ _ conf _ E eq_refl)
    as (conf0 & _ & -> & H).
  vm_compute in Ep. injection Ep as <-.
  cbn [fmap list_fmap fst] in H.
  apply Forall2_cons_inv_l in H as (ct' & rest & [_ Hw] & Hrest & Heq).
  apply Forall2_nil_inv_l in Hrest as ->.
  exists (Demo3.Finalize conf0), ct'.
  split; [reflexivity|]. split; [reflexivity|].
  split; [reflexivity|]. split; [exact Heq|].
  cbn in Hw. destruct Hw as (lo' & hi' & -> & -> & ->).
  reflexivity.
Defined.

(** Vault is disabled for the task while the process environment names a
    Vault token: the token is blanked, the address is left as it was. *)
Lemma vault_token_only_when_enabled_witness :
  runnercfg.Token (runnercfg.Vault (ctconf_DefaultConfig Demo3.Y)) = Some "host-token"
  /\ exists conf,
       newRunnerConfig Demo3.Y (Demo.cfg [Demo.restart_now])
         (Demo3.cred "user:pass" false "") (Demo3.settings None) [] = Ok conf
       /\ runnercfg.Token (runnercfg.Vault conf) = Some ""
       /\ runnercfg.Address (runnercfg.Vault conf) = Some "https://vault.host:8200".
Proof.
  split; [reflexivity|].
  destruct (newRunnerConfig Demo3.Y (Demo.cfg [Demo.restart_now])
              (Demo3.cred "user:pass" false "") (Demo3.settings None) [])
    as [conf| |] eqn:E; [|vm_compute in E; discriminate..].
  destruct (vault_token_only_when_enabled Demo3.Y _ _ _ _ conf E)
    as (conf0 & _ & -> & _ & Ht & Hoff & _).
  exists (Demo3.Finalize conf0). split; [reflexivity|].
  destruct (Hoff eq_refl) as (Ha & _).
  cbn [Config_Finalize Demo3.Y Demo3.Finalize runnercfg.Vault Demo3.finalize_backend
       runnercfg.Token runnercfg.Address].
  rewrite Ht, Ha. split; reflexivity.
Defined.

(** A namespace of the job, and an [Auth] setting with two colons. *)
Lemma consul_section_witness :
  exists conf,
    newRunnerConfig Demo3.Y (Demo.cfg [Demo.restart_now])
      (Demo3.cred "user:pa:ss" false "job-ns") (Demo3.settings None) [] = Ok conf
    /\ runnercfg.Namespace (runnercfg.Consul conf) = Some "job-ns"
    /\ runnercfg.Auth (runnercfg.Consul conf)
       = Some {| runnercfg.Username := "user"; runnercfg.Password := "pa:ss" |}.
Proof.
  destruct (newRunnerConfig Demo3.Y (Demo.cfg [Demo.restart_now])
              (Demo3.cred "user:pa:ss" false "job-ns") (Demo3.settings None) [])
    as [conf| |] eqn:E; [|vm_compute in E; discriminate..].
  destruct (consul_section Demo3.Y _ _ _ _ conf E) as (conf0 & _ & Hfin & Hn & _).
  exists conf. split; [reflexivity|]. split.
  - rewrite Hfin.
    cbn [Config_Finalize Demo3.Y Demo3.Finalize runnercfg.Consul Demo3.finalize_backend
         runnercfg.Namespace].
    rewrite Hn. reflexivity.
  - vm_compute in E. injection E as <-. reflexivity.
Defined.

Lemma consul_auth_needs_colon_witness :
  ConsulConfig (Demo3.cred "userpass" false "") = Some (Demo3.consul "userpass")
  /\ structsc.Consul.Auth (Demo3.consul "userpass") <> ""
  /\ (forall user pass,
        structsc.Consul.Auth (Demo3.consul "userpass") <> user +:+ ":" +:+ pass)
  /\ consul_backend Demo3.Y (Demo3.cred "userpass" false "") (Demo3.settings None)
     = Err (fmt_Errorf "Failed to parse Consul Auth config" []).
Proof.
  assert (forall user pass,
            structsc.Consul.Auth (Demo3.consul "userpass") <> user +:+ ":" +:+ pass) as H.
  { intros user pass. apply (cut_None ":" "userpass" user pass). reflexivity. }
  split; [reflexivity|]. split; [discriminate|]. split; [exact H|].
  destruct (consul_auth_needs_colon Demo3.Y (Demo.cfg [Demo.restart_now])
              (Demo3.cred "userpass" false "") (Demo3.settings None) []
              (Demo3.consul "userpass") eq_refl) as [_ He]; [discriminate|exact H|].
  exact He.
Defined.

(** ** Construction with the engine configuration *)

Section ConstructionWithRunnerConfig.

Variable X : Outside.
Variable Y : RunnerOutside.
Variable cred : TaskCredentials.
Variable cs : ClientRunnerSettings.

Lemma convert_retry_no_panic current r : convert_retry Y current r <> Panic.
Proof.
  destruct r as [r|]; unfold convert_retry; [|done].
  destruct (Retry_Validate Y r); [done|]. by destruct (Retry_ToConsulTemplate Y r).
Qed.

Lemma consul_backend_no_panic : consul_backend Y cred cs <> Panic.
Proof.
  unfold consul_backend. destruct (ConsulConfig cred) as [c0|];
    cbn [mbind result_bind]; [|done].
  pose proof (convert_retry_no_panic
                (runnercfg.Retry (runnercfg.Consul (ctconf_DefaultConfig Y)))
                (ConsulRetry cs)) as Hr.
  destruct (decide (structsc.Consul.Auth c0 = "")).
  - cbn [mbind result_bind]. by destruct (convert_retry Y _ (ConsulRetry cs)).
  - destruct (cut ":" (structsc.Consul.Auth c0)) as [[usr pwd]|];
      cbn [mbind result_bind]; [|done].
    by destruct (convert_retry Y _ (ConsulRetry cs)).
Qed.

Lemma vault_backend_no_panic : vault_backend Y cred cs <> Panic.
Proof.
  unfold vault_backend. destruct (VaultConfig cred) as [v0|]; [|done].
  destruct (structsc.Vault.IsEnabled v0); [|done].
  pose proof (convert_retry_no_panic
                (runnercfg.Retry (runnercfg.Vault (ctconf_DefaultConfig Y)))
                (VaultRetry cs)) as Hr.
  by destruct (convert_retry Y _ (VaultRetry cs)).
Qed.

Lemma nomad_backend_no_panic : nomad_backend Y cred cs <> Panic.
Proof.
  unfold nomad_backend.
  pose proof (convert_retry_no_panic
                (runnercfg.Retry (runnercfg.Nomad (ctconf_DefaultConfig Y)))
                (NomadRetry cs)) as Hr.
  by destruct (convert_retry Y _ (NomadRetry cs)).
Qed.

Lemma newRunnerConfig_no_panic c ctmpls cc tc :
  ClientConfig c = Some cc -> config.TemplateConfig cc = Some tc ->
  newRunnerConfig Y c cred cs ctmpls <> Panic.
Proof.
  unfold newRunnerConfig, newRunnerConfig_settings. intros -> ->.
  assert (forall A (x : result A) B (k : A -> result B),
            x <> Panic -> (forall a, k a <> Panic) -> x ≫= k <> Panic) as Hbind.
  { intros A [a|e|] B k Hx Hk; cbn [mbind result_bind]; [apply Hk|done|done]. }
  apply Hbind; [|done].
  apply Hbind.
  { destruct (ClientWait cs) as [w|]; [|done].
    destruct (ClientWait_Validate Y w); [done|].
    by destruct (ClientWait_ToConsulTemplate Y w). }
  intros wait. apply Hbind.
  { destruct (WaitBounds cs) as [b|]; [|done]. by destruct (ClientWait_Validate Y b). }
  intros templates. apply Hbind; [apply consul_backend_no_panic|].
  intros consul. apply Hbind; [apply vault_backend_no_panic|].
  intros vault. apply Hbind; [apply nomad_backend_no_panic|]. done.
Qed.

(** X26.  [templateRunner] builds the engine configuration after the templates
    are translated and before the engine is created: once the templates are
    translated [newRunnerConfig] cannot panic, its error is the error of
    the construction and no engine is created, and only with a
    configuration is the engine created. *)
Theorem engine_configured_before_created (c : TaskTemplateManagerConfig)
    (m : list (ctconf.TemplateConfig * structs.Template)) :
  Templates c <> [] ->
  Validate (Some c) = None ->
  (exists table, parse_signals X (Templates c) ∅ = inr table) ->
  parseTemplateConfigs X c = Ok m ->
  newRunnerConfig Y c cred cs m.*1 <> Panic
  /\ (forall e, newRunnerConfig Y c cred cs m.*1 = Err e ->
        NewTaskTemplateManager X (newRunnerConfig_error Y cred cs) (Some c)
        = (Err e, []))
  /\ (forall conf, newRunnerConfig Y c cred cs m.*1 = Ok conf ->
        (NewTaskTemplateManager X (newRunnerConfig_error Y cred cs) (Some c)).2
        = [NewRunner]).
Proof.
  intros Hts Hv Hsig Hp.
  destruct (parseTemplateConfigs_inv X c m Hp) as (cc & tc & tenv & Hcc & Htc & He & _).
  split; [by apply (newRunnerConfig_no_panic c m.*1 cc tc)|].
  unfold NewTaskTemplateManager, templateRunner, newRunnerConfig_error.
  rewrite Hv, Hp, He.
  destruct Hsig as [table ->].
  destruct (Templates c) as [|t ts]; [done|].
  split.
  - intros e ->. done.
  - intros conf ->. by destruct (manager_NewRunner X m.*1).
Qed.

End ConstructionWithRunnerConfig.

Lemma engine_configured_before_created_witness :
  Templates (Demo.cfg [Demo.restart_now]) <> []
  /\ Validate (Some (Demo.cfg [Demo.restart_now])) = None
  /\ NewTaskTemplateManager Demo.X
       (newRunnerConfig_error Demo3.Y (Demo3.cred "userpass" false "")
          (Demo3.settings None))
       (Some (Demo.cfg [Demo.restart_now]))
     = (Err (fmt_Errorf "Failed to parse Consul Auth config" []), []).
Proof.
  split; [discriminate|]. split; [reflexivity|].
  destruct (parseTemplateConfigs Demo.X (Demo.cfg [Demo.restart_now]))
    as [m| |] eqn:E; [|vm_compute in E; discriminate..].
  destruct (engine_configured_before_created Demo.X Demo3.Y
              (Demo3.cred "userpass" false "") (Demo3.settings None)
              (Demo.cfg [Demo.restart_now]) m) as (_ & Herr & _).
  - discriminate.
  - reflexivity.
  - eexists. vm_compute. reflexivity.
  - exact E.
  - apply Herr. vm_compute in E. injection E as <-. vm_compute. reflexivity.
Defined.

(** ** Tasks without templates *)

(** X4.  For a configuration without templates that [Validate] accepts,
    [NewTaskTemplateManager] returns a manager without engine, lookup or
    signal table and calls nothing; [Run] on it only closes the unblock
    channel and returns, whatever the world does, and [Stop] only closes
    the shutdown channel. *)
Theorem no_templates_unblocks_at_once (X : Outside)
    (nrc : TaskTemplateManagerConfig -> list ctconf.TemplateConfig -> option Error)
    (c : TaskTemplateManagerConfig) :
  Validate (Some c) = None ->
  Templates c = [] ->
  exists tm,
    NewTaskTemplateManager X nrc (Some c) = (Ok tm, [])
    /\ runner tm = None /\ lookup tm = ∅ /\ signals tm = ∅
    /\ (forall keys_of tenv gate_inputs stopped w now rerender_inputs,
          Run X tm keys_of tenv gate_inputs stopped w now rerender_inputs
          = ([CloseUnblockCh], Returned))
    /\ (Stop tm).2 = [CloseShutdownCh].
Proof.
  intros Hv Hts.
  exists {| config_ := c; lookup := ∅; runner := None; signals := ∅; shutdown := false |}.
  split.
  - unfold NewTaskTemplateManager, templateRunner. by rewrite Hv, Hts.
  - repeat split.
Qed.

Lemma no_templates_unblocks_at_once_witness :
  Validate (Some (Demo.cfg [])) = None
  /\ Templates (Demo.cfg []) = []
  /\ exists tm,
       NewTaskTemplateManager Demo.X Demo.nrc (Some (Demo.cfg [])) = (Ok tm, [])
       /\ Run Demo.X tm (fun s => elements s) ∅ [GShutdown] true (Demo.world 0 false) 0 []
          = ([CloseUnblockCh], Returned).
Proof.
  split; [reflexivity|]. split; [reflexivity|].
  destruct (no_templates_unblocks_at_once Demo.X Demo.nrc (Demo.cfg []) eq_refl eq_refl)
    as (tm & Hnew & _ & _ & _ & Hrun & _).
  exists tm. split; [exact Hnew|]. apply Hrun.
Defined.

(** ** The first render of a task that is already running *)

Section FirstRenderRunning.

Variable X : Outside.
Variable tm : TaskTemplateManager.

Lemma mark_dirty_marks events : forall dirty,
  (forall id e, (mark_dirty events dirty).1 !! id = Some e ->
     dirty !! id = Some e
     \/ exists k, (k, e) ∈ events /\ manager.LastDidRender e <> 0
                  /\ manager.TemplateID e = id)
  /\ (forall id, is_Some (dirty !! id) -> is_Some ((mark_dirty events dirty).1 !! id))
  /\ ((mark_dirty events dirty).2 = true ->
      forall k e, (k, e) ∈ events -> manager.LastDidRender e <> 0 ->
        is_Some ((mark_dirty events dirty).1 !! manager.TemplateID e)).
Proof.
  induction events as [|[k0 e0] rest IH]; intros dirty; simpl.
  - split; [by left|]. split; [done|]. intros _ k e Hin. by apply elem_of_nil in Hin.
  - destruct (IsZero (manager.LastWouldRender e0)); simpl.
    { split; [by left|]. split; [done|]. done. }
    unfold IsZero. destruct (manager.LastDidRender e0 =? 0) eqn:Ez; simpl.
    + apply Z.eqb_eq in Ez. destruct (IH dirty) as (H1 & H2 & H3).
      split; [|split; [done|]].
      * intros id e Hl. destruct (H1 id e Hl) as [?|(k & Hin & Hne & Hid)]; [by left|].
        right. exists k. split; [by right|done].
      * intros Hall k e Hin Hne. apply elem_of_cons in Hin as [Heq|Hin].
        -- injection Heq as -> ->. done.
        -- by apply (H3 Hall k).
    + apply Z.eqb_neq in Ez.
      destruct (IH (<[manager.TemplateID e0 := e0]> dirty)) as (H1 & H2 & H3).
      split; [|split].
      * intros id e Hl. destruct (H1 id e Hl) as [Hin|(k & Hin & Hne & Hid)].
        -- destruct (decide (manager.TemplateID e0 = id)) as [Heq|Hneq].
           ++ rewrite Heq, lookup_insert_eq in Hin. injection Hin as <-.
              right. exists k0. split; [by left|done].
           ++ rewrite lookup_insert_ne in Hin by done. by left.
        -- right. exists k. split; [by right|done].
      * intros id Hs. apply H2.
        destruct (decide (manager.TemplateID e0 = id)) as [Heq|Hneq].
        -- rewrite Heq, lookup_insert_eq. by eexists.
        -- by rewrite lookup_insert_ne.
      * intros Hall k e Hin Hne. apply elem_of_cons in Hin as [Heq|Hin].
        -- injection Heq as -> ->. apply H2. rewrite lookup_insert_eq. by eexists.
        -- by apply (H3 Hall k).
Qed.

Lemma eligible_at_start id e :
  eligible 0 ∅ id e = true <-> 0 < manager.LastDidRender e.
Proof.
  unfold eligible, first_time, already_handled, After, Equal.
  rewrite lookup_empty. change (default 0 (@None Z)) with 0.
  destruct (Z.ltb_spec (manager.LastDidRender e) 0),
    (Z.eqb_spec 0 (manager.LastDidRender e)); simpl; split; intros; (lia || done).
Qed.

Lemma gate_step_running_opens keys_of st events w :
  (size (lookup tm) <= length events)%nat ->
  (mark_dirty events (dirtyEvents st)).2 = true ->
  size (mark_dirty events (dirtyEvents st)).1 <> 0%nat ->
  gate_step X tm keys_of st (GTemplateRendered events true w)
  = ({| missingDependencies := missingDependencies st;
        timer_armed := timer_armed st;
        dirtyEvents := (mark_dirty events (dirtyEvents st)).1;
        outstandingEvent := outstandingEvent st;
        gate_env :=
          templateEnv
            (onTemplateRendered X tm w
               {| handledRenders := ∅; templateEnv := gate_env st |} 0
               (range_events keys_of (mark_dirty events (dirtyEvents st)).1)).1.1 |},
     (onTemplateRendered X tm w
        {| handledRenders := ∅; templateEnv := gate_env st |} 0
        (range_events keys_of (mark_dirty events (dirtyEvents st)).1)).1.2, true).
Proof.
  intros Hlen Hall Hsize. simpl. rewrite bool_decide_eq_false_2 by lia.
  destruct (mark_dirty events (dirtyEvents st)) as [d a]. simpl in *. subst a. simpl.
  rewrite bool_decide_eq_false_2 by done. simpl.
  by destruct (onTemplateRendered X tm w _ 0 (range_events keys_of d))
    as [[d' calls] o].
Qed.

Lemma range_events_elem keys_of (m : gmap string manager.RenderEvent) id e :
  keys_of (dom m) ≡ₚ elements (dom m) ->
  (id, e) ∈ range_events keys_of m <-> m !! id = Some e.
Proof.
  intros Hk. unfold range_events. rewrite list_elem_of_omap. split.
  - intros (x & _ & Hx). destruct (m !! x) as [e'|] eqn:E; [|done].
    simpl in Hx. by injection Hx as -> ->.
  - intros Hl. exists id. split.
    + rewrite Hk. apply elem_of_elements, elem_of_dom. by eexists.
    + by rewrite Hl.
Qed.

Lemma range_events_keys (m : gmap string manager.RenderEvent) :
  forall l : list string,
    (omap (fun id => (fun event => (id, event)) <$> m !! id) l).*1 `sublist_of` l.
Proof.
  induction l as [|x l IH]; [done|]. simpl.
  destruct (m !! x); simpl; [by apply sublist_skip|by apply sublist_cons].
Qed.

Lemma range_events_NoDup keys_of (m : gmap string manager.RenderEvent) :
  keys_of (dom m) ≡ₚ elements (dom m) ->
  NoDup (range_events keys_of m).*1.
Proof.
  intros Hk.
  apply (sublist_NoDup _ (keys_of (dom m))); [|apply range_events_keys].
  rewrite Hk. apply NoDup_elements.
Qed.

Lemma range_events_Permutation keys_of (m : gmap string manager.RenderEvent) :
  keys_of (dom m) ≡ₚ elements (dom m) ->
  range_events keys_of m ≡ₚ map_to_list m.
Proof.
  intros Hk. apply NoDup_Permutation.
  - eapply NoDup_fmap_1. by apply range_events_NoDup.
  - apply NoDup_map_to_list.
  - intros [id e]. by rewrite range_events_elem, elem_of_map_to_list.
Qed.

(** X18.  Take a manager whose signal table knows the signals of its lookup,
    and a range over a map that yields every key once, in any order.  When
    all templates have rendered and the task is already running, the gate
    hands the templates that were written to disk to the dispatcher and
    then returns: with render times after the zero time, the batch holds
    exactly the templates written in this or an earlier notification, each
    under its own id and once, none of them is skipped, the call of the
    dispatcher does not panic, and the calls of the gate are those of the
    dispatcher on that batch. *)
Theorem first_render_of_running_task (keys_of : gset string -> list string)
    (st : GateState) (events : list (string * manager.RenderEvent)) (w : World) :
  signals_known tm ->
  (forall S : gset string, keys_of S ≡ₚ elements S) ->
  (size (lookup tm) <= length events)%nat ->
  (forall id e, (id, e) ∈ events ->
     manager.LastWouldRender e <> 0 /\ 0 <= manager.LastDidRender e) ->
  (forall id e, dirtyEvents st !! id = Some e -> 0 < manager.LastDidRender e) ->
  (exists id e, (id, e) ∈ events /\ manager.LastDidRender e <> 0) ->
  let dirty := (mark_dirty events (dirtyEvents st)).1 in
  let batch :=
    onTemplateRendered X tm w {| handledRenders := ∅; templateEnv := gate_env st |}
      0 (range_events keys_of dirty) in
  gate_step X tm keys_of st (GTemplateRendered events true w)
  = ({| missingDependencies := missingDependencies st;
        timer_armed := timer_armed st; dirtyEvents := dirty;
        outstandingEvent := outstandingEvent st;
        gate_env := templateEnv batch.1.1 |}, batch.1.2, true)
  /\ is_panic batch.2 = false
  /\ range_events keys_of dirty ≡ₚ map_to_list dirty
  /\ NoDup (range_events keys_of dirty).*1
  /\ (forall id e, (id, e) ∈ range_events keys_of dirty ->
        dirty !! id = Some e /\ eligible 0 ∅ id e = true)
  /\ (forall id e, (id, e) ∈ events -> manager.LastDidRender e <> 0 ->
        manager.TemplateID e ∈ (range_events keys_of dirty).*1)
  /\ (forall id, is_Some (dirtyEvents st !! id) -> id ∈ (range_events keys_of dirty).*1).
Proof.
  intros Hknown Hrange Hlen Hev Hold (id0 & e0 & Hin0 & Hne0) dirty batch.
  destruct (mark_dirty_marks events (dirtyEvents st)) as (H1 & H2 & H3).
  assert ((mark_dirty events (dirtyEvents st)).2 = true) as Hall.
  { rewrite mark_dirty_all_rendered. apply forallb_forall. intros [id e] Hin.
    apply list_elem_of_In in Hin. simpl. unfold IsZero.
    apply negb_true_iff, Z.eqb_neq. by apply (Hev id e). }
  specialize (H3 Hall).
  assert (forall id, is_Some (dirty !! id) -> id ∈ (range_events keys_of dirty).*1) as Hkeys.
  { intros id [e He]. apply list_elem_of_fmap. exists (id, e). split; [done|].
    by apply range_events_elem. }
  split; [|split; [|split; [|split; [|split; [|split]]]]].
  - apply gate_step_running_opens; [done|done|].
    intros Hz. apply map_size_empty_inv in Hz.
    destruct (H3 id0 e0 Hin0 Hne0) as [e He].
    rewrite Hz, lookup_empty in He. done.
  - by apply onTemplateRendered_no_panic.
  - by apply range_events_Permutation.
  - by apply range_events_NoDup.
  - intros id e Hin. apply range_events_elem in Hin; [|done]. split; [done|].
    apply eligible_at_start.
    destruct (H1 id e Hin) as [Hd|(k & Hk & Hne & _)]; [by apply (Hold id)|].
    destruct (Hev k e Hk) as [_ Hge]. lia.
  - intros id e Hin Hne. apply Hkeys. by apply (H3 id).
  - intros id Hs. apply Hkeys. by apply H2.
Qed.

End FirstRenderRunning.

(** The first full render of a task that is running, with a restart and a
    signal template: the task is restarted once. *)
Lemma first_render_of_running_task_witness :
  signals_known Demo.tm_restart_signal
  /\ gate_step Demo.X Demo.tm_restart_signal (fun s => elements s) (gate_init ∅)
       (GTemplateRendered [("a", Demo.event "a" 3); ("b", Demo.event "b" 4)] true
          (Demo.world 0 false))
     = ({| missingDependencies := None; timer_armed := false;
           dirtyEvents := {[ "a" := Demo.event "a" 3; "b" := Demo.event "b" 4 ]};
           outstandingEvent := false; gate_env := ∅ |},
        [Restart restart_event false], true)
  /\ eligible 0 ∅ "a" (Demo.event "a" 3) = true.
Proof.
  assert (signals_known Demo.tm_restart_signal) as Hk.
  { intros id tmpls t Hl Ht Hs. cbn [lookup Demo.tm_restart_signal Demo.tm_of] in Hl.
    apply lookup_insert_Some in Hl as [[_ <-]|[_ Hl]].
    - apply list_elem_of_singleton in Ht as ->. discriminate Hs.
    - apply lookup_singleton_Some in Hl as [_ <-].
      apply list_elem_of_singleton in Ht as ->. by eexists. }
  split; [exact Hk|].
  destruct (first_render_of_running_task Demo.X Demo.tm_restart_signal
              (fun s => elements s) (gate_init ∅)
              [("a", Demo.event "a" 3); ("b", Demo.event "b" 4)] (Demo.world 0 false)
              Hk)
    as (Hstep & _ & _ & _ & Hel & _).
  - reflexivity.
  - vm_compute. lia.
  - intros id e Hin.
    apply elem_of_cons in Hin as [Heq|Hin]; [injection Heq as -> ->; simpl; lia|].
    apply list_elem_of_singleton in Hin. injection Hin as -> ->. simpl. lia.
  - intros id e Hl. cbn [gate_init dirtyEvents] in Hl.
    rewrite lookup_empty in Hl. discriminate Hl.
  - exists "a", (Demo.event "a" 3). split; [left|discriminate].
  - split.
    + rewrite Hstep. vm_compute. reflexivity.
    + apply (Hel "a" (Demo.event "a" 3)).
      apply range_events_elem; [reflexivity|]. reflexivity.
Defined.
